(** * Growth-stock portfolio allocator: the simulation engine, embedded

    A shallow embedding of [growthstockportfolioallocator/stock.py]
    ([Stock], [import_xlsx]) and [growthstockportfolioallocator/portfolio.py]
    ([Portfolio]), and the properties of the engine proved over it.
    Plotting and the reading of the sheet are left out.

    Numbers.  The program computes with binary64 floats.  The embedding
    keeps the floats' special values (the two infinities and NaN) and the
    rules that produce them, and computes finite values exactly, as
    rationals: rounding, overflow and the sign of a zero are not modelled.
    What the code computes bit for bit is the matter of a second
    embedding of [stock.py], Module [B64] below, over the binary64 floats
    of [SpecFloat]; the properties that rounding or the sign of a zero
    decide are stated there, or in both readings.

    Python numbers and NumPy scalars.  A division by zero raises
    [ZeroDivisionError] when both operands are built-in Python numbers and
    yields an infinity or NaN (with a warning) as soon as one operand is a
    [numpy.float64].  Every scalar therefore carries the kind of object it
    is.  The cells of a sheet row are built-in numbers when the row comes
    from [iterrows] over a frame that has text columns; [np.random.normal]
    with scalar arguments returns a built-in float; [np.clip] and [np.sum]
    return a [numpy.float64]; an operation with one NumPy operand returns
    a [numpy.float64].

    Effects.  The generator behind [np.random] is process-wide state and a
    [Portfolio] is a mutable object: both are threaded through a state
    monad in which a raised exception keeps the state reached so far. *)

From Stdlib Require Import QArith Qcanon ZArith List String Bool Lia Lqa SpecFloat.
Import ListNotations.

(** ** Binary64 values, computed exactly *)

Module Num.

Inductive num : Type :=
| Fin (q : Qc)
| PInf
| NInf
| NaN.

Definition zero : num := Fin (Q2Qc 0).
Definition one : num := Fin (Q2Qc 1).

(** The sign of a rational: [Lt] negative, [Eq] zero, [Gt] positive. *)
Definition sgn (q : Qc) : comparison := Qccompare q (Q2Qc 0).

Definition sgn_mul (a b : comparison) : comparison :=
  match a, b with
  | Eq, _ | _, Eq => Eq
  | Gt, Gt | Lt, Lt => Gt
  | Gt, Lt | Lt, Gt => Lt
  end.

(** The infinity of a given sign; no sign, no value. *)
Definition inf_of (s : comparison) : num :=
  match s with Gt => PInf | Lt => NInf | Eq => NaN end.

Definition opp (a : num) : num :=
  match a with
  | Fin q => Fin (- q)
  | PInf => NInf
  | NInf => PInf
  | NaN => NaN
  end.

Definition add (a b : num) : num :=
  match a, b with
  | NaN, _ | _, NaN => NaN
  | Fin x, Fin y => Fin (x + y)
  | PInf, NInf | NInf, PInf => NaN
  | PInf, _ | _, PInf => PInf
  | NInf, _ | _, NInf => NInf
  end.

Definition sub (a b : num) : num := add a (opp b).

Definition mul (a b : num) : num :=
  match a, b with
  | NaN, _ | _, NaN => NaN
  | Fin x, Fin y => Fin (x * y)
  | Fin x, PInf | PInf, Fin x => inf_of (sgn x)
  | Fin x, NInf | NInf, Fin x => inf_of (sgn_mul (sgn x) Lt)
  | PInf, PInf | NInf, NInf => PInf
  | PInf, NInf | NInf, PInf => NInf
  end.

(** Division as the hardware does it: a zero divisor gives an infinity
    of the sign of the dividend, and NaN for [0/0]. *)
Definition div (a b : num) : num :=
  match a, b with
  | NaN, _ | _, NaN => NaN
  | Fin x, Fin y =>
      match sgn y with
      | Eq => inf_of (sgn x)
      | _ => Fin (x / y)
      end
  | Fin _, (PInf | NInf) => zero
  | PInf, Fin y => match sgn y with Lt => NInf | _ => PInf end
  | NInf, Fin y => match sgn y with Lt => PInf | _ => NInf end
  | (PInf | NInf), (PInf | NInf) => NaN
  end.

(** [ltb a b] is the comparison [a < b]; false as soon as one is NaN. *)
Definition ltb (a b : num) : bool :=
  match a, b with
  | NaN, _ | _, NaN => false
  | Fin x, Fin y => match Qccompare x y with Lt => true | _ => false end
  | NInf, (Fin _ | PInf) => true
  | Fin _, PInf => true
  | _, _ => false
  end.

Definition gtb (a b : num) : bool := ltb b a.

Definition is_nan (a : num) : bool :=
  match a with NaN => true | _ => false end.

Definition is_finite (a : num) : bool :=
  match a with Fin _ => true | _ => false end.

Definition is_zero (a : num) : bool :=
  match a with
  | Fin q => match sgn q with Eq => true | _ => false end
  | _ => false
  end.

(** [np.maximum] and [np.minimum]: a NaN operand gives NaN. *)
Definition maximum (a b : num) : num :=
  if is_nan a || is_nan b then NaN else if ltb a b then b else a.

Definition minimum (a b : num) : num :=
  if is_nan a || is_nan b then NaN else if ltb b a then b else a.

Definition of_nat (n : nat) : num := Fin (Q2Qc (inject_Z (Z.of_nat n))).

Definition sum (l : list num) : num := fold_left add l zero.

End Num.

Import Num.

(** A decimal literal of the program. *)
Definition dec (q : Q) : num := Fin (Q2Qc q).

(** ** Exceptions and the two monads *)

Inductive exn : Type :=
| ZeroDivisionError
| ValueError
| KeyError
| IndexError
| AttributeError.

Inductive outcome (A : Type) : Type :=
| Return (a : A)
| Raise (e : exn).

Arguments Return {A} a.
Arguments Raise {A} e.

Definition obind {A B : Type} (m : outcome A) (k : A -> outcome B) : outcome B :=
  match m with
  | Return a => k a
  | Raise e => Raise e
  end.

(** A computation over a state [St]: the state survives an exception. *)
Definition M (St A : Type) : Type := St -> outcome A * St.

Definition ret {St A : Type} (a : A) : M St A := fun s => (Return a, s).

Definition raise {St A : Type} (e : exn) : M St A := fun s => (Raise e, s).

Definition bind {St A B : Type} (m : M St A) (k : A -> M St B) : M St B :=
  fun s =>
    match m s with
    | (Return a, s') => k a s'
    | (Raise e, s') => (Raise e, s')
    end.

Definition lift {St A : Type} (o : outcome A) : M St A := fun s => (o, s).

Declare Scope py_scope.
Delimit Scope py_scope with py.
Notation "x <- m ;; k" := (bind m (fun x => k))
  (at level 61, m at next level, right associativity) : py_scope.
Notation "' pat <- m ;; k" := (bind m (fun x => match x with pat => k end))
  (at level 61, pat pattern, m at next level, right associativity) : py_scope.
Notation "m ;; k" := (bind m (fun _ => k))
  (at level 61, right associativity) : py_scope.
Notation "x <-! o ;; k" := (obind o (fun x => k))
  (at level 61, o at next level, right associativity) : py_scope.
Open Scope py_scope.

(** [for x in xs: acc = body(x, acc)], the accumulator being the object
    the loop builds. *)
Fixpoint for_each {St A B : Type} (xs : list A) (body : A -> B -> M St B) (acc : B)
  : M St B :=
  match xs with
  | [] => ret acc
  | x :: xs' => acc' <- body x acc ;; for_each xs' body acc'
  end.

(** [for i in range(start, start + count): body(i)]. *)
Fixpoint for_range {St : Type} (start count : nat) (body : nat -> M St unit)
  : M St unit :=
  match count with
  | O => ret tt
  | S count' => body start ;; for_range (S start) count' body
  end.

(** ** Python numbers and NumPy scalars *)

Inductive kind : Type :=
| Py      (* a built-in int or float *)
| Np.     (* a numpy.float64 *)

Record scalar : Type := Scalar { kind_of : kind; val : num }.

Definition kjoin (a b : kind) : kind :=
  match a, b with
  | Py, Py => Py
  | _, _ => Np
  end.

Definition binop (f : num -> num -> num) (x y : scalar) : scalar :=
  Scalar (kjoin (kind_of x) (kind_of y)) (f (val x) (val y)).

Definition py (q : Q) : scalar := Scalar Py (dec q).

Definition add_ : scalar -> scalar -> scalar := binop Num.add.
Definition sub_ : scalar -> scalar -> scalar := binop Num.sub.
Definition mul_ : scalar -> scalar -> scalar := binop Num.mul.

(** [x / y]: Python's own division raises on a zero divisor, NumPy's
    warns and returns the hardware's result. *)
Definition truediv (x y : scalar) : outcome scalar :=
  match kjoin (kind_of x) (kind_of y) with
  | Py =>
      if is_zero (val y) then Raise ZeroDivisionError
      else Return (Scalar Py (Num.div (val x) (val y)))
  | Np => Return (Scalar Np (Num.div (val x) (val y)))
  end.

(** [x > y], a boolean whatever the kinds. *)
Definition gt (x y : scalar) : bool := Num.gtb (val x) (val y).

Infix "+!" := add_ (at level 50, left associativity) : py_scope.
Infix "-!" := sub_ (at level 50, left associativity) : py_scope.
Infix "*!" := mul_ (at level 40, left associativity) : py_scope.

(** ** The NumPy functions the program calls *)

(** The process-wide generator: the standard normal variates it will
    deliver, and how many it has delivered. *)
Record RandomState : Type := { gauss : nat -> Qc; pos : nat }.

Definition next_gauss : M RandomState num :=
  fun st => (Return (Fin (gauss st (pos st))),
             {| gauss := gauss st; pos := S (pos st) |}).

(** [np.random.normal(loc, scale)] with scalar arguments: a negative
    [scale] is refused before anything is drawn; otherwise the result is
    the Python float [loc + scale * z] for the next variate [z]. NumPy
    tests the sign bit of [scale] and so refuses [-0.0] too, which these
    numbers cannot tell from [0.0]: see [B64.np_random_normal]. *)
Definition np_random_normal (loc scale : scalar) : M RandomState scalar :=
  if Num.ltb (val scale) Num.zero then raise ValueError
  else z <- next_gauss ;;
       ret (Scalar Py (Num.add (val loc) (Num.mul (val scale) z))).

(** [np.clip(x, lo, hi)], a [numpy.float64]. *)
Definition np_clip (x lo hi : scalar) : scalar :=
  Scalar Np (Num.minimum (Num.maximum (val x) (val lo)) (val hi)).

(** [np.sum(values)], a [numpy.float64]; [0.0] for no value. *)
Definition np_sum (values : list scalar) : scalar :=
  Scalar Np (Num.sum (map val values)).

(** [np.zeros((rows, cols))]; a negative dimension is refused. *)
Definition np_zeros (rows : Z) (cols : nat) : outcome (list (list num)) :=
  if (rows <? 0)%Z then Raise ValueError
  else Return (repeat (repeat Num.zero cols) (Z.to_nat rows)).

(** ** Dictionaries: keys in insertion order *)

Definition dict (V : Type) : Type := list (string * V).

Definition keys {V : Type} (d : dict V) : list string := map fst d.

Definition values {V : Type} (d : dict V) : list V := map snd d.

Fixpoint lookup {V : Type} (k : string) (d : dict V) : option V :=
  match d with
  | [] => None
  | (k', v) :: d' => if String.eqb k k' then Some v else lookup k d'
  end.

(** [d[k]] *)
Definition getitem {V : Type} (d : dict V) (k : string) : outcome V :=
  match lookup k d with
  | Some v => Return v
  | None => Raise KeyError
  end.

(** [d[k] = v]: a present key keeps its place, a new key goes last. *)
Fixpoint setitem {V : Type} (d : dict V) (k : string) (v : V) : dict V :=
  match d with
  | [] => [(k, v)]
  | (k', v') :: d' =>
      if String.eqb k k' then (k', v) :: d' else (k', v') :: setitem d' k v
  end.

(** ** The pandas objects the program uses *)

(** A frame of float64 columns: the column labels and the rows. *)
Record DataFrame : Type := { columns : list string; data : list (list num) }.

(** A series of floats indexed by label. *)
Definition Series : Type := list (string * num).

Fixpoint replace_nth {A : Type} (i : nat) (x : A) (l : list A) : list A :=
  match l, i with
  | [], _ => []
  | _ :: l', O => x :: l'
  | y :: l', S i' => y :: replace_nth i' x l'
  end.

(** What a dictionary gives for the labels [labels]: NaN where it has no
    entry (the alignment pandas does before it stores a row). *)
Definition reindex (d : dict scalar) (labels : list string) : list num :=
  map (fun c => match lookup c d with Some w => val w | None => NaN end) labels.

(** [df.iloc[i, :] = d] for a dictionary [d]: row [i] takes the values of
    [d] under the column labels; a row that does not exist is refused. *)
Definition iloc_setrow (df : DataFrame) (i : nat) (d : dict scalar)
  : outcome DataFrame :=
  if (i <? List.length (data df))%nat
  then Return {| columns := columns df;
                 data := replace_nth i (reindex d (columns df)) (data df) |}
  else Raise IndexError.

(** The mean pandas computes for one column: NaN entries are left out
    ([skipna=True], the default); nothing left, NaN. *)
Definition nanmean (xs : list num) : num :=
  let ys := filter (fun x => negb (is_nan x)) xs in
  match ys with
  | [] => NaN
  | _ => Num.div (Num.sum ys) (Num.of_nat (List.length ys))
  end.

Definition column (j : nat) (rows : list (list num)) : list num :=
  map (fun row => nth j row NaN) rows.

(** [df.mean()]: one mean per column, labelled by the column. *)
Definition DataFrame_mean (df : DataFrame) : Series :=
  map (fun jc => (snd jc, nanmean (column (fst jc) (data df))))
      (combine (seq 0 (List.length (columns df))) (columns df)).

(** ** [stock.py]: class [Stock] *)

Module Stock.

(** One row of the imported sheet, a field per column the constructor
    reads. *)
Record Row : Type := {
  col_Stock : string;
  col_Industry : string;
  col_MS_Moat : string;
  col_MS_Moat_Trend : string;
  col_MS_Capital_Allocation : string;
  col_RA_10y_Expected_Real_Return : scalar;
  col_10y_Treasury_Yield : scalar;
  col_Beta : scalar;
  col_Common_Shares_Outstanding_M : scalar;
  col_Tax_Rate : scalar;
  col_LT_Interest_M : scalar;
  col_LT_Debt_M : scalar;
  col_Pfd_Divd_M : scalar;
  col_Pfd_Stock_M : scalar;
  col_VL_Cash_Flow_Per_Share : scalar;
  col_VL_Earnings_Predictability : scalar;
  col_VL_ROTC : scalar;
  col_VL_Plowback_Ratio : scalar;
  col_Current_Price : scalar
}.

(** The attributes the body of [__init__] assigns from the row. *)
Record Attributes : Type := {
  stock : string;
  industry : string;
  ms_moat : string;
  ms_moat_trend : string;
  ms_capital_allocation : string;
  us_equities_exp_real_return_10y : scalar;
  us_treasury_note_risk_free_yield_10y : scalar;
  beta : scalar;
  common_shares_outstanding : scalar;
  tax_rate : scalar;
  long_term_interest_payment : scalar;
  long_term_debt_balance : scalar;
  preferred_dividend : scalar;
  preferred_stock : scalar;
  vl_cash_flow_per_share : scalar;
  vl_earnings_predictability : scalar;
  vl_return_on_total_capital : scalar;
  vl_retained_earnings_plowback_ratio : scalar;
  price : scalar
}.

(** The attributes [_derive_distributions] assigns. *)
Record Distributions : Type := {
  vl_cash_flow_per_share_std_dev : scalar;
  vl_return_on_total_capital_std_dev : scalar;
  vl_retained_earnings_plowback_ratio_std_dev : scalar
}.

(** A constructed [Stock]: the attributes of the three stages. *)
Record t : Type := {
  attributes : Attributes;
  distributions : Distributions;
  weighted_average_cost_of_capital : scalar
}.

#[global] Coercion attributes : t >-> Attributes.
#[global] Coercion distributions : t >-> Distributions.

Definition _derive_distributions (self : Attributes) : Distributions :=
  {| vl_cash_flow_per_share_std_dev :=
       (py 0.50 -! py 0.45 *! vl_earnings_predictability self)
       *! vl_cash_flow_per_share self;
     vl_return_on_total_capital_std_dev :=
       (py 0.50 -! py 0.45 *! vl_earnings_predictability self)
       *! vl_return_on_total_capital self;
     vl_retained_earnings_plowback_ratio_std_dev :=
       (py 0.50 -! py 0.45 *! vl_earnings_predictability self)
       *! vl_retained_earnings_plowback_ratio self |}.

(** The locals of [_calculate_wacc], one definition each. *)

Definition after_tax_historical_cost_of_debt (self : Attributes)
  : outcome scalar :=
  if gt (long_term_debt_balance self) (py 0) then
    r <-! truediv (long_term_interest_payment self)
                  (long_term_debt_balance self) ;;
    Return (r *! (py 1 -! tax_rate self))
  else Return (py 0).

Definition cost_of_preferred_equity (self : Attributes) : outcome scalar :=
  if gt (preferred_stock self) (py 0) then
    truediv (preferred_dividend self) (preferred_stock self)
  else Return (py 0).

Definition cost_of_equity (self : Attributes) : scalar :=
  us_treasury_note_risk_free_yield_10y self
  +! beta self *! us_equities_exp_real_return_10y self.

Definition total_capital (self : Attributes) : scalar :=
  long_term_debt_balance self +! preferred_stock self
  +! common_shares_outstanding self *! price self.

Definition _calculate_wacc (self : Attributes) : outcome scalar :=
  debt_cost <-! after_tax_historical_cost_of_debt self ;;
  preferred_cost <-! cost_of_preferred_equity self ;;
  truediv (debt_cost *! long_term_debt_balance self
           +! preferred_cost *! preferred_stock self
           +! cost_of_equity self *! common_shares_outstanding self
              *! price self)
          (total_capital self).

(** The assignments of [__init__], top to bottom. *)
Definition attributes_of_row (row : Row) : outcome Attributes :=
  real_return <-! truediv (col_RA_10y_Expected_Real_Return row) (py 100) ;;
  risk_free <-! truediv (col_10y_Treasury_Yield row) (py 100) ;;
  tax <-! truediv (col_Tax_Rate row) (py 100) ;;
  predictability <-! truediv (col_VL_Earnings_Predictability row) (py 100) ;;
  rotc <-! truediv (col_VL_ROTC row) (py 100) ;;
  plowback <-! truediv (col_VL_Plowback_Ratio row) (py 100) ;;
  Return
    {| stock := col_Stock row;
       industry := col_Industry row;
       ms_moat := col_MS_Moat row;
       ms_moat_trend := col_MS_Moat_Trend row;
       ms_capital_allocation := col_MS_Capital_Allocation row;
       us_equities_exp_real_return_10y := real_return;
       us_treasury_note_risk_free_yield_10y := risk_free;
       beta := col_Beta row;
       common_shares_outstanding :=
         col_Common_Shares_Outstanding_M row *! py 1000000;
       tax_rate := tax;
       long_term_interest_payment := col_LT_Interest_M row *! py 1000000;
       long_term_debt_balance := col_LT_Debt_M row *! py 1000000;
       preferred_dividend := col_Pfd_Divd_M row *! py 1000000;
       preferred_stock := col_Pfd_Stock_M row *! py 1000000;
       vl_cash_flow_per_share := col_VL_Cash_Flow_Per_Share row;
       vl_earnings_predictability := predictability;
       vl_return_on_total_capital := rotc;
       vl_retained_earnings_plowback_ratio := plowback;
       price := col_Current_Price row |}.

Definition __init__ (row : Row) : outcome t :=
  self <-! attributes_of_row row ;;
  let derived := _derive_distributions self in
  wacc <-! _calculate_wacc self ;;
  Return {| attributes := self;
            distributions := derived;
            weighted_average_cost_of_capital := wacc |}.

Definition roll_once (self : t) : M RandomState (scalar * scalar * scalar) :=
  rotc <- np_random_normal (vl_return_on_total_capital self)
                           (vl_return_on_total_capital_std_dev self) ;;
  plowback_ratio <- np_random_normal
                      (vl_retained_earnings_plowback_ratio self)
                      (vl_retained_earnings_plowback_ratio_std_dev self) ;;
  let plowback_ratio := np_clip plowback_ratio (py 0) (py 1) in
  let excess_return_on_total_capital :=
    rotc -! weighted_average_cost_of_capital self in
  let operating_profit_growth_rate :=
    py 100 *! excess_return_on_total_capital *! plowback_ratio in
  cash_flow <- np_random_normal (vl_cash_flow_per_share self)
                                (vl_cash_flow_per_share_std_dev self) ;;
  price_to_cash_flow <- lift (truediv (price self) cash_flow) ;;
  ratio <- lift (truediv operating_profit_growth_rate price_to_cash_flow) ;;
  ret (operating_profit_growth_rate, price_to_cash_flow, ratio).

End Stock.

Import (coercions) Stock.

(** [import_xlsx], from the rows of the sheet on: the dictionary
    [{row['Stock']: Stock(row) for _, row in data.iterrows()}], built row
    after row. Reading the file is not modelled. *)
Fixpoint import_rows (data : list Stock.Row) (stocks : dict Stock.t)
  : outcome (dict Stock.t) :=
  match data with
  | [] => Return stocks
  | row :: data' =>
      s <-! Stock.__init__ row ;;
      import_rows data' (setitem stocks (Stock.col_Stock row) s)
  end.

Definition import_xlsx (data : list Stock.Row) : outcome (dict Stock.t) :=
  import_rows data [].

(** ** [portfolio.py]: class [Portfolio] *)

Module Portfolio.

(** The object: [allocation_trials] does not exist before the first
    [allocate]; [mean_allocations] is [None] until then. *)
Record t : Type := {
  stocks : dict Stock.t;
  allocation_trials : option DataFrame;
  mean_allocations : option Series
}.

Definition __init__ (stocks : dict Stock.t) : t :=
  {| stocks := stocks; allocation_trials := None; mean_allocations := None |}.

(** The first loop of [_allocate_once]: one roll per stock, the ratio
    kept under the stock's name. *)
Definition roll_ratios (self : t) : M RandomState (dict scalar) :=
  for_each (keys (stocks self))
    (fun stock ratios =>
       s <- lift (getitem (stocks self) stock) ;;
       ' (growth, value, ratio) <- Stock.roll_once s ;;
       ret (setitem ratios stock ratio))
    [].

Definition _allocate_once (self : t) : M RandomState (dict scalar) :=
  ratios <- roll_ratios self ;;
  let sum_ratios := np_sum (values ratios) in
  for_each (keys (stocks self))
    (fun stock allocations =>
       r <- lift (getitem ratios stock) ;;
       w <- lift (truediv r sum_ratios) ;;
       ret (setitem allocations stock w))
    [].

(** What [allocate] runs in: the object and the generator. *)
Definition World : Type := (t * RandomState)%type.

Definition this : M World t := fun w => (Return (fst w), w).

Definition call {A : Type} (m : M RandomState A) : M World A :=
  fun w => let (o, rs) := m (snd w) in (o, (fst w, rs)).

Definition get_allocation_trials (self : t) : outcome DataFrame :=
  match allocation_trials self with
  | Some df => Return df
  | None => Raise AttributeError
  end.

Definition set_allocation_trials (df : DataFrame) : M World unit :=
  fun w => (Return tt,
            ({| stocks := stocks (fst w);
                allocation_trials := Some df;
                mean_allocations := mean_allocations (fst w) |}, snd w)).

Definition set_mean_allocations (s : Series) : M World unit :=
  fun w => (Return tt,
            ({| stocks := stocks (fst w);
                allocation_trials := allocation_trials (fst w);
                mean_allocations := Some s |}, snd w)).

(** The body of the loop of [allocate]:
    [self.allocation_trials.iloc[i, :] = self._allocate_once()]. *)
Definition store_trial (i : nat) : M World unit :=
  self <- this ;;
  allocations <- call (_allocate_once self) ;;
  self <- this ;;
  df <- lift (get_allocation_trials self) ;;
  df' <- lift (iloc_setrow df i allocations) ;;
  set_allocation_trials df'.

Definition allocate (iterations : Z) : M World unit :=
  self <- this ;;
  zeros <- lift (np_zeros iterations (List.length (stocks self))) ;;
  set_allocation_trials {| columns := keys (stocks self); data := zeros |} ;;
  for_range 0 (Z.to_nat iterations) store_trial ;;
  self <- this ;;
  df <- lift (get_allocation_trials self) ;;
  set_mean_allocations (DataFrame_mean df).

(** [__repr__]: the text of the mean vector once it is a series,
    ['Portfolio'] before. How pandas prints a series is a parameter. *)
Definition __repr__ (str : Series -> string) (self : t) : string :=
  match mean_allocations self with
  | Some means => str means
  | None => "Portfolio"
  end.

End Portfolio.

(** ** The words of the specification *)

(** The dispersion factor [0.50 - 0.45 * predictability]. *)
Definition dispersion_factor (predictability : num) : num :=
  Num.sub (dec 0.50) (Num.mul (dec 0.45) predictability).

(** A value clamped into [[0, 1]], case by case. *)
Definition clamp01 (x : num) : num :=
  if Num.ltb x Num.zero then Num.zero
  else if Num.ltb Num.one x then Num.one
  else x.

(** After-tax cost of debt: (interest / debt) * (1 - tax rate), or 0
    when the debt balance is not positive. *)
Definition spec_cost_of_debt (self : Stock.Attributes) : num :=
  if Num.gtb (val (Stock.long_term_debt_balance self)) Num.zero
  then Num.mul (Num.div (val (Stock.long_term_interest_payment self))
                        (val (Stock.long_term_debt_balance self)))
               (Num.sub Num.one (val (Stock.tax_rate self)))
  else Num.zero.

(** Cost of preferred equity: dividend / balance, or 0 when the balance
    is not positive. *)
Definition spec_cost_of_preferred (self : Stock.Attributes) : num :=
  if Num.gtb (val (Stock.preferred_stock self)) Num.zero
  then Num.div (val (Stock.preferred_dividend self))
               (val (Stock.preferred_stock self))
  else Num.zero.

(** CAPM: risk-free yield + beta * equity risk premium. *)
Definition capm_cost_of_equity (self : Stock.Attributes) : num :=
  Num.add (val (Stock.us_treasury_note_risk_free_yield_10y self))
          (Num.mul (val (Stock.beta self))
                   (val (Stock.us_equities_exp_real_return_10y self))).

(** Total capital: debt balance + preferred stock balance + shares
    outstanding * price. *)
Definition spec_total_capital (self : Stock.Attributes) : num :=
  Num.add (Num.add (val (Stock.long_term_debt_balance self))
                   (val (Stock.preferred_stock self)))
          (Num.mul (val (Stock.common_shares_outstanding self))
                   (val (Stock.price self))).

(** The capital-weighted sum of the three costs. *)
Definition spec_weighted_costs (self : Stock.Attributes) : num :=
  Num.add
    (Num.add (Num.mul (spec_cost_of_debt self)
                      (val (Stock.long_term_debt_balance self)))
             (Num.mul (spec_cost_of_preferred self)
                      (val (Stock.preferred_stock self))))
    (Num.mul (Num.mul (capm_cost_of_equity self)
                      (val (Stock.common_shares_outstanding self)))
             (val (Stock.price self))).

(** The value [np.random.normal(loc, scale)] returns on the variate [z]. *)
Definition normal_draw (loc scale : scalar) (z : Qc) : num :=
  Num.add (val loc) (Num.mul (val scale) (Fin z)).

(** The three draws of one [roll_once] from the generator state [rs]. *)
Definition drawn_rotc (self : Stock.t) (rs : RandomState) : num :=
  normal_draw (Stock.vl_return_on_total_capital self)
              (Stock.vl_return_on_total_capital_std_dev self)
              (gauss rs (pos rs)).

Definition drawn_plowback (self : Stock.t) (rs : RandomState) : num :=
  normal_draw (Stock.vl_retained_earnings_plowback_ratio self)
              (Stock.vl_retained_earnings_plowback_ratio_std_dev self)
              (gauss rs (S (pos rs))).

Definition drawn_cash_flow (self : Stock.t) (rs : RandomState) : num :=
  normal_draw (Stock.vl_cash_flow_per_share self)
              (Stock.vl_cash_flow_per_share_std_dev self)
              (gauss rs (S (S (pos rs)))).

(** No standard deviation of the stock is negative: the three draws are
    accepted. *)
Definition scales_accepted (self : Stock.t) : bool :=
  negb (Num.ltb (val (Stock.vl_return_on_total_capital_std_dev self)) Num.zero)
  && negb (Num.ltb (val (Stock.vl_retained_earnings_plowback_ratio_std_dev self))
                   Num.zero)
  && negb (Num.ltb (val (Stock.vl_cash_flow_per_share_std_dev self)) Num.zero).

(** The generator after [n] variates more. *)
Definition advance (n : nat) (rs : RandomState) : RandomState :=
  {| gauss := gauss rs; pos := n + pos rs |}.

(** The generator state in which trial [t] of a run starts. *)
Definition rng_before_trial (self : Portfolio.t) (rs : RandomState) (t : nat)
  : RandomState :=
  Nat.iter t (fun r => snd (Portfolio._allocate_once self r)) rs.

(** The entry of row [t], column [stock], of a frame. *)
Definition entry (df : DataFrame) (t : nat) (stock : string) : option num :=
  match nth_error (data df) t with
  | Some row => lookup stock (combine (columns df) row)
  | None => None
  end.

(** The growth rate [roll_once] forms from its first two draws. *)
Definition rolled_growth (self : Stock.t) (rs : RandomState) : scalar :=
  Scalar Np
    (Num.mul (Num.mul (dec 100)
                      (Num.sub (drawn_rotc self rs)
                               (val (Stock.weighted_average_cost_of_capital self))))
             (clamp01 (drawn_plowback self rs))).

(** The weights of a trial, as the specification words them: each ratio
    divided by the sum of the ratios. *)
Definition normalised (ratios : dict scalar) : dict scalar :=
  map (fun kr => (fst kr,
                  Scalar Np (Num.div (val (snd kr))
                                     (val (np_sum (values ratios))))))
      ratios.

(** The column of a frame labelled [stock], top to bottom. *)
Definition column_of (df : DataFrame) (stock : string) : list num :=
  map (fun row => match lookup stock (combine (columns df) row) with
                  | Some x => x
                  | None => NaN
                  end)
      (data df).

(** A list without its entry at position [t]. *)
Definition drop_nth {A : Type} (t : nat) (l : list A) : list A :=
  firstn t l ++ skipn (S t) l.

(** The object with a new trial matrix. *)
Definition with_trials (p : Portfolio.t) (df : DataFrame) : Portfolio.t :=
  {| Portfolio.stocks := Portfolio.stocks p;
     Portfolio.allocation_trials := Some df;
     Portfolio.mean_allocations := Portfolio.mean_allocations p |}.

(** The object with a new mean vector. *)
Definition with_mean (p : Portfolio.t) (m : option Series) : Portfolio.t :=
  {| Portfolio.stocks := Portfolio.stocks p;
     Portfolio.allocation_trials := Portfolio.allocation_trials p;
     Portfolio.mean_allocations := m |}.

(** The frame of zeros [allocate] starts from. *)
Definition zero_frame (iterations : Z) (stocks : dict Stock.t) : DataFrame :=
  {| columns := keys stocks;
     data := repeat (repeat Num.zero (List.length stocks)) (Z.to_nat iterations) |}.

(** A stock whose roll can raise nothing: no negative standard deviation,
    and a price that is a NumPy scalar. *)
Definition never_raises (s : Stock.t) : bool :=
  scales_accepted s
  && match kind_of (Stock.price s) with Np => true | Py => false end.
(** ** Sample data *)

(** A row whose numeric cells are all of kind [k]; percentages and
    millions as the sheet gives them. *)
Definition row_of (k : kind) (name : string)
    (real_return risk_free beta shares tax interest debt pfd_dividend
     pfd_stock cash_flow predictability rotc plowback price : Q) : Stock.Row :=
  {| Stock.col_Stock := name;
     Stock.col_Industry := "Industry";
     Stock.col_MS_Moat := "Wide";
     Stock.col_MS_Moat_Trend := "Stable";
     Stock.col_MS_Capital_Allocation := "Standard";
     Stock.col_RA_10y_Expected_Real_Return := Scalar k (dec real_return);
     Stock.col_10y_Treasury_Yield := Scalar k (dec risk_free);
     Stock.col_Beta := Scalar k (dec beta);
     Stock.col_Common_Shares_Outstanding_M := Scalar k (dec shares);
     Stock.col_Tax_Rate := Scalar k (dec tax);
     Stock.col_LT_Interest_M := Scalar k (dec interest);
     Stock.col_LT_Debt_M := Scalar k (dec debt);
     Stock.col_Pfd_Divd_M := Scalar k (dec pfd_dividend);
     Stock.col_Pfd_Stock_M := Scalar k (dec pfd_stock);
     Stock.col_VL_Cash_Flow_Per_Share := Scalar k (dec cash_flow);
     Stock.col_VL_Earnings_Predictability := Scalar k (dec predictability);
     Stock.col_VL_ROTC := Scalar k (dec rotc);
     Stock.col_VL_Plowback_Ratio := Scalar k (dec plowback);
     Stock.col_Current_Price := Scalar k (dec price) |}.

(** Debt and preferred stock, no earnings predictability. *)
Definition row_NVO : Stock.Row :=
  row_of Py "NVO" 5 4 1 100 20 10 200 3 50 2 0 20 50 40.

(** All equity, full earnings predictability. *)
Definition row_DE : Stock.Row :=
  row_of Py "DE" 5 4 1.2 300 25 0 0 0 0 30 100 15 40 390.

(** Debt, no preferred stock, no earnings predictability. *)
Definition row_LLY : Stock.Row :=
  row_of Py "LLY" 5 4 0.8 900 15 20 500 0 0 10 0 30 60 800.

(** The stocks of a two-row sheet, and the portfolio formed of them. *)
Definition sample_stocks : dict Stock.t :=
  match import_xlsx [row_NVO; row_LLY] with
  | Return stocks => stocks
  | Raise _ => []
  end.

Definition sample_portfolio : Portfolio.t := Portfolio.__init__ sample_stocks.

(** No cash flow per share. *)
Definition row_ZM : Stock.Row :=
  row_of Py "ZM" 5 4 1.1 300 21 0 0 0 0 0 50 10 30 70.

(** A generator whose variates are those of the table, by position, and
    0 elsewhere. *)
Definition variates (table : list (nat * Q)) (n : nat) : Qc :=
  match find (fun e => Nat.eqb (fst e) n) table with
  | Some e => Q2Qc (snd e)
  | None => Q2Qc 0
  end.

Definition generator (table : list (nat * Q)) : RandomState :=
  {| gauss := variates table; pos := 0 |}.

(** ** More vocabulary and sample data *)

(** The sum of a list of rationals. *)
Definition qsum (l : list Qc) : Qc := fold_right Qcplus (Q2Qc 0) l.

(** Every numeric cell of the row is a built-in Python number. *)
Definition python_cells (row : Stock.Row) : bool :=
  forallb (fun x => match kind_of x with Py => true | Np => false end)
    [ Stock.col_RA_10y_Expected_Real_Return row;
      Stock.col_10y_Treasury_Yield row;
      Stock.col_Beta row;
      Stock.col_Common_Shares_Outstanding_M row;
      Stock.col_Tax_Rate row;
      Stock.col_LT_Interest_M row;
      Stock.col_LT_Debt_M row;
      Stock.col_Pfd_Divd_M row;
      Stock.col_Pfd_Stock_M row;
      Stock.col_VL_Cash_Flow_Per_Share row;
      Stock.col_VL_Earnings_Predictability row;
      Stock.col_VL_ROTC row;
      Stock.col_VL_Plowback_Ratio row;
      Stock.col_Current_Price row ].

(** A negative return on total capital. *)
Definition row_LOSS : Stock.Row :=
  row_of Py "LOSS" 5 4 1.5 50 21 2 40 0 0 1 20 (-8) 10 12.

(** No share outstanding, no debt, no preferred stock. *)
Definition row_SHELL : Stock.Row :=
  row_of Py "SHELL" 5 4 1 0 21 0 0 0 0 1 50 10 30 5.

(** A sheet that names one stock twice. *)
Definition sheet_twice : list Stock.Row :=
  [ row_NVO; row_LLY;
    row_of Py "NVO" 5 4 1 100 20 10 200 3 50 2 0 20 50 45 ].

(** A portfolio one of whose stocks has no cash flow. *)
Definition portfolio_with_ZM : Portfolio.t :=
  Portfolio.__init__
    match import_xlsx [row_NVO; row_ZM] with
    | Return stocks => stocks
    | Raise _ => []
    end.

(** Pays everything out: no plowback. *)
Definition row_IDLE : Stock.Row :=
  row_of Py "IDLE" 5 4 1 100 20 10 200 3 50 2 50 20 0 40.

(** ** [stock.py] once more, in binary64

    The exact numbers above cannot tell what rounding, overflow and the
    sign of a zero do to the program.  Module [B64] embeds the class
    [Stock] a second time, statement for statement as above, over the
    binary64 floats of the Standard Library's [SpecFloat]: IEEE 754
    arithmetic, round to nearest, ties to even, with infinities, one NaN
    and signed zeros.  It is the reading to consult where a property is
    about what the code computes bit for bit.

    Assumed of the libraries: a numeric cell of the sheet is a binary64
    value (an integer cell holds an integer below 2^53); Python and NumPy
    add, subtract, multiply and divide floats as IEEE 754 prescribes;
    [np.random.normal(loc, scale)] with scalar arguments raises
    [ValueError] when [scale] is not NaN and has its sign bit set ([-0.0]
    included), otherwise returns the Python float [loc + scale * z],
    product and sum rounded in turn; [np.clip(x, 0, 1)] is [x] for a NaN
    [x] and otherwise [max] and [min] by [>] and [<]. *)

Module B64.

Definition prec : Z := 53.
Definition emax : Z := 1024.

Definition float : Type := spec_float.

Definition add (x y : float) : float := SFadd prec emax x y.
Definition sub (x y : float) : float := SFsub prec emax x y.
Definition mul (x y : float) : float := SFmul prec emax x y.
Definition div (x y : float) : float := SFdiv prec emax x y.

(** The float nearest to an integer (the integer itself below 2^53). *)
Definition of_Z (z : Z) : float := binary_normalize prec emax z 0 false.

(** The float a decimal literal [n / d] denotes, [d] a power of ten:
    the float nearest to the quotient, which is what the division of two
    exactly represented integers gives. *)
Definition dec (n : Z) (d : positive) : float := div (of_Z n) (of_Z (Zpos d)).

Definition zero : float := S754_zero false.
Definition neg_zero : float := S754_zero true.

Definition signbit (x : float) : bool :=
  match x with
  | S754_zero s | S754_infinity s | S754_finite s _ _ => s
  | S754_nan => false
  end.

Definition is_nan (x : float) : bool :=
  match x with S754_nan => true | _ => false end.

(** [x == 0]: true of both zeros. *)
Definition is_zero (x : float) : bool :=
  match x with S754_zero _ => true | _ => false end.

Definition ltb (x y : float) : bool := SFltb x y.
Definition gtb (x y : float) : bool := SFltb y x.

(** *** Python numbers and NumPy scalars *)

Record scalar : Type := Scalar { kind_of : kind; val : float }.

Definition binop (f : float -> float -> float) (x y : scalar) : scalar :=
  Scalar (kjoin (kind_of x) (kind_of y)) (f (val x) (val y)).

(** An integer literal and a float literal of the program. *)
Definition int (z : Z) : scalar := Scalar Py (of_Z z).
Definition lit (n : Z) (d : positive) : scalar := Scalar Py (dec n d).

Definition add_ : scalar -> scalar -> scalar := binop add.
Definition sub_ : scalar -> scalar -> scalar := binop sub.
Definition mul_ : scalar -> scalar -> scalar := binop mul.

(** [x / y]: Python's own division raises on a divisor [0.0] or [-0.0],
    NumPy's warns and returns the IEEE result. *)
Definition truediv (x y : scalar) : outcome scalar :=
  match kjoin (kind_of x) (kind_of y) with
  | Py =>
      if is_zero (val y) then Raise ZeroDivisionError
      else Return (Scalar Py (div (val x) (val y)))
  | Np => Return (Scalar Np (div (val x) (val y)))
  end.

Definition gt (x y : scalar) : bool := gtb (val x) (val y).

Declare Scope b64_scope.
Delimit Scope b64_scope with b64.
Infix "+!" := add_ (at level 50, left associativity) : b64_scope.
Infix "-!" := sub_ (at level 50, left associativity) : b64_scope.
Infix "*!" := mul_ (at level 40, left associativity) : b64_scope.
Local Open Scope b64_scope.

(** *** The NumPy functions [roll_once] calls *)

Record RandomState : Type := { gauss : nat -> float; pos : nat }.

Definition next_gauss : M RandomState float :=
  fun st => (Return (gauss st (pos st)),
             {| gauss := gauss st; pos := S (pos st) |}).

(** The test NumPy makes of [scale]. *)
Definition refused (scale : scalar) : bool :=
  negb (is_nan (val scale)) && signbit (val scale).

Definition np_random_normal (loc scale : scalar) : M RandomState scalar :=
  if refused scale then raise ValueError
  else z <- next_gauss ;;
       ret (Scalar Py (add (val loc) (mul (val scale) z))).

Definition np_clip (x lo hi : scalar) : scalar :=
  let m := if is_nan (val x) then val x
           else if gtb (val x) (val lo) then val x else val lo in
  Scalar Np (if is_nan m then m
             else if ltb m (val hi) then m else val hi).

(** *** Class [Stock] *)

Module Stock.

Record Row : Type := {
  col_Stock : string;
  col_Industry : string;
  col_MS_Moat : string;
  col_MS_Moat_Trend : string;
  col_MS_Capital_Allocation : string;
  col_RA_10y_Expected_Real_Return : scalar;
  col_10y_Treasury_Yield : scalar;
  col_Beta : scalar;
  col_Common_Shares_Outstanding_M : scalar;
  col_Tax_Rate : scalar;
  col_LT_Interest_M : scalar;
  col_LT_Debt_M : scalar;
  col_Pfd_Divd_M : scalar;
  col_Pfd_Stock_M : scalar;
  col_VL_Cash_Flow_Per_Share : scalar;
  col_VL_Earnings_Predictability : scalar;
  col_VL_ROTC : scalar;
  col_VL_Plowback_Ratio : scalar;
  col_Current_Price : scalar
}.

Record Attributes : Type := {
  stock : string;
  industry : string;
  ms_moat : string;
  ms_moat_trend : string;
  ms_capital_allocation : string;
  us_equities_exp_real_return_10y : scalar;
  us_treasury_note_risk_free_yield_10y : scalar;
  beta : scalar;
  common_shares_outstanding : scalar;
  tax_rate : scalar;
  long_term_interest_payment : scalar;
  long_term_debt_balance : scalar;
  preferred_dividend : scalar;
  preferred_stock : scalar;
  vl_cash_flow_per_share : scalar;
  vl_earnings_predictability : scalar;
  vl_return_on_total_capital : scalar;
  vl_retained_earnings_plowback_ratio : scalar;
  price : scalar
}.

Record Distributions : Type := {
  vl_cash_flow_per_share_std_dev : scalar;
  vl_return_on_total_capital_std_dev : scalar;
  vl_retained_earnings_plowback_ratio_std_dev : scalar
}.

Record t : Type := {
  attributes : Attributes;
  distributions : Distributions;
  weighted_average_cost_of_capital : scalar
}.

#[global] Coercion attributes : t >-> Attributes.
#[global] Coercion distributions : t >-> Distributions.

Definition _derive_distributions (self : Attributes) : Distributions :=
  {| vl_cash_flow_per_share_std_dev :=
       (lit 50 100 -! lit 45 100 *! vl_earnings_predictability self)
       *! vl_cash_flow_per_share self;
     vl_return_on_total_capital_std_dev :=
       (lit 50 100 -! lit 45 100 *! vl_earnings_predictability self)
       *! vl_return_on_total_capital self;
     vl_retained_earnings_plowback_ratio_std_dev :=
       (lit 50 100 -! lit 45 100 *! vl_earnings_predictability self)
       *! vl_retained_earnings_plowback_ratio self |}.

Definition after_tax_historical_cost_of_debt (self : Attributes)
  : outcome scalar :=
  if gt (long_term_debt_balance self) (int 0) then
    r <-! truediv (long_term_interest_payment self)
                  (long_term_debt_balance self) ;;
    Return (r *! (int 1 -! tax_rate self))
  else Return (int 0).

Definition cost_of_preferred_equity (self : Attributes) : outcome scalar :=
  if gt (preferred_stock self) (int 0) then
    truediv (preferred_dividend self) (preferred_stock self)
  else Return (int 0).

Definition cost_of_equity (self : Attributes) : scalar :=
  us_treasury_note_risk_free_yield_10y self
  +! beta self *! us_equities_exp_real_return_10y self.

Definition total_capital (self : Attributes) : scalar :=
  long_term_debt_balance self +! preferred_stock self
  +! common_shares_outstanding self *! price self.

Definition _calculate_wacc (self : Attributes) : outcome scalar :=
  debt_cost <-! after_tax_historical_cost_of_debt self ;;
  preferred_cost <-! cost_of_preferred_equity self ;;
  truediv (debt_cost *! long_term_debt_balance self
           +! preferred_cost *! preferred_stock self
           +! cost_of_equity self *! common_shares_outstanding self
              *! price self)
          (total_capital self).

Definition attributes_of_row (row : Row) : outcome Attributes :=
  real_return <-! truediv (col_RA_10y_Expected_Real_Return row) (int 100) ;;
  risk_free <-! truediv (col_10y_Treasury_Yield row) (int 100) ;;
  tax <-! truediv (col_Tax_Rate row) (int 100) ;;
  predictability <-! truediv (col_VL_Earnings_Predictability row) (int 100) ;;
  rotc <-! truediv (col_VL_ROTC row) (int 100) ;;
  plowback <-! truediv (col_VL_Plowback_Ratio row) (int 100) ;;
  Return
    {| stock := col_Stock row;
       industry := col_Industry row;
       ms_moat := col_MS_Moat row;
       ms_moat_trend := col_MS_Moat_Trend row;
       ms_capital_allocation := col_MS_Capital_Allocation row;
       us_equities_exp_real_return_10y := real_return;
       us_treasury_note_risk_free_yield_10y := risk_free;
       beta := col_Beta row;
       common_shares_outstanding :=
         col_Common_Shares_Outstanding_M row *! int 1000000;
       tax_rate := tax;
       long_term_interest_payment := col_LT_Interest_M row *! int 1000000;
       long_term_debt_balance := col_LT_Debt_M row *! int 1000000;
       preferred_dividend := col_Pfd_Divd_M row *! int 1000000;
       preferred_stock := col_Pfd_Stock_M row *! int 1000000;
       vl_cash_flow_per_share := col_VL_Cash_Flow_Per_Share row;
       vl_earnings_predictability := predictability;
       vl_return_on_total_capital := rotc;
       vl_retained_earnings_plowback_ratio := plowback;
       price := col_Current_Price row |}.

Definition __init__ (row : Row) : outcome t :=
  self <-! attributes_of_row row ;;
  let derived := _derive_distributions self in
  wacc <-! _calculate_wacc self ;;
  Return {| attributes := self;
            distributions := derived;
            weighted_average_cost_of_capital := wacc |}.

Definition roll_once (self : t) : M RandomState (scalar * scalar * scalar) :=
  rotc <- np_random_normal (vl_return_on_total_capital self)
                           (vl_return_on_total_capital_std_dev self) ;;
  plowback_ratio <- np_random_normal
                      (vl_retained_earnings_plowback_ratio self)
                      (vl_retained_earnings_plowback_ratio_std_dev self) ;;
  let plowback_ratio := np_clip plowback_ratio (int 0) (int 1) in
  let excess_return_on_total_capital :=
    rotc -! weighted_average_cost_of_capital self in
  let operating_profit_growth_rate :=
    int 100 *! excess_return_on_total_capital *! plowback_ratio in
  cash_flow <- np_random_normal (vl_cash_flow_per_share self)
                                (vl_cash_flow_per_share_std_dev self) ;;
  price_to_cash_flow <- lift (truediv (price self) cash_flow) ;;
  ratio <- lift (truediv operating_profit_growth_rate price_to_cash_flow) ;;
  ret (operating_profit_growth_rate, price_to_cash_flow, ratio).

End Stock.

Import (coercions) Stock.

(** *** The words of the specification, in binary64 *)

(** The dispersion factor [0.50 - 0.45 * predictability]. *)
Definition dispersion_factor (predictability : float) : float :=
  sub (dec 50 100) (mul (dec 45 100) predictability).

(** CAPM: risk-free yield + beta * equity risk premium. *)
Definition capm_cost_of_equity (self : Stock.Attributes) : float :=
  add (val (Stock.us_treasury_note_risk_free_yield_10y self))
      (mul (val (Stock.beta self))
           (val (Stock.us_equities_exp_real_return_10y self))).

(** Shares outstanding * price. *)
Definition market_capitalization (self : Stock.Attributes) : float :=
  mul (val (Stock.common_shares_outstanding self)) (val (Stock.price self)).

(** The generator after [n] variates more. *)
Definition advance (n : nat) (rs : RandomState) : RandomState :=
  {| gauss := gauss rs; pos := n + pos rs |}.

(** One of the three standard deviations is refused. *)
Definition scale_refused (self : Stock.t) : bool :=
  refused (Stock.vl_return_on_total_capital_std_dev self)
  || refused (Stock.vl_retained_earnings_plowback_ratio_std_dev self)
  || refused (Stock.vl_cash_flow_per_share_std_dev self).

(** How many variates [roll_once] has drawn when a standard deviation is
    refused: the calls come in the order return on total capital,
    plowback, cash flow. *)
Definition draws_before_refusal (self : Stock.t) : nat :=
  if refused (Stock.vl_return_on_total_capital_std_dev self) then 0
  else if refused (Stock.vl_retained_earnings_plowback_ratio_std_dev self)
       then 1
       else 2.

(** *** Sample rows *)

(** A row of Python floats. *)
Definition row_of (name : string)
    (real_return risk_free beta shares tax interest debt pfd_dividend
     pfd_stock cash_flow predictability rotc plowback price : float)
  : Stock.Row :=
  {| Stock.col_Stock := name;
     Stock.col_Industry := "Industry";
     Stock.col_MS_Moat := "Wide";
     Stock.col_MS_Moat_Trend := "Stable";
     Stock.col_MS_Capital_Allocation := "Standard";
     Stock.col_RA_10y_Expected_Real_Return := Scalar Py real_return;
     Stock.col_10y_Treasury_Yield := Scalar Py risk_free;
     Stock.col_Beta := Scalar Py beta;
     Stock.col_Common_Shares_Outstanding_M := Scalar Py shares;
     Stock.col_Tax_Rate := Scalar Py tax;
     Stock.col_LT_Interest_M := Scalar Py interest;
     Stock.col_LT_Debt_M := Scalar Py debt;
     Stock.col_Pfd_Divd_M := Scalar Py pfd_dividend;
     Stock.col_Pfd_Stock_M := Scalar Py pfd_stock;
     Stock.col_VL_Cash_Flow_Per_Share := Scalar Py cash_flow;
     Stock.col_VL_Earnings_Predictability := Scalar Py predictability;
     Stock.col_VL_ROTC := Scalar Py rotc;
     Stock.col_VL_Plowback_Ratio := Scalar Py plowback;
     Stock.col_Current_Price := Scalar Py price |}.

(** All equity, full earnings predictability: the figures of [row_DE]. *)
Definition row_DE : Stock.Row :=
  row_of "DE" (of_Z 5) (of_Z 4) (dec 12 10) (of_Z 300) (of_Z 25)
         zero zero zero zero (of_Z 30) (of_Z 100) (of_Z 15) (of_Z 40)
         (of_Z 390).

(** All equity, beta 1.3. *)
Definition row_KO : Stock.Row :=
  row_of "KO" (of_Z 5) (of_Z 4) (dec 13 10) (of_Z 80) (of_Z 21)
         zero zero zero zero (of_Z 3) (of_Z 50) (of_Z 12) (of_Z 30)
         (of_Z 25).

(** All equity, figures with decimals. *)
Definition row_AAPL : Stock.Row :=
  row_of "AAPL" (dec 47 10) (dec 39 10) (dec 93 100) (of_Z 1517) (of_Z 21)
         zero zero zero zero (of_Z 7) (of_Z 80) (of_Z 30) (of_Z 60)
         (dec 18921 100).

(** A plowback ratio of [-0.0]. *)
Definition row_NEGZ : Stock.Row :=
  row_of "NEGZ" (of_Z 5) (of_Z 4) (of_Z 1) (of_Z 100) (of_Z 20)
         zero zero zero zero (of_Z 2) (of_Z 50) (of_Z 20) neg_zero
         (of_Z 40).

(** A generator that delivers the variate 0.0 for ever. *)
Definition generator_0 : RandomState := {| gauss := fun _ => zero; pos := 0 |}.

End B64.

Import (coercions) B64.Stock.

(** * Properties *)

(** ** Rationals and binary64 values *)

Lemma sgn_pos : forall q : Qc, Q2Qc 0 < q -> Num.sgn q = Gt.
Proof.
  intros q H. unfold Num.sgn. apply Qcgt_alt. exact H.
Qed.

Lemma sgn_neg : forall q : Qc, q < Q2Qc 0 -> Num.sgn q = Lt.
Proof.
  intros q H. unfold Num.sgn. apply Qclt_alt. exact H.
Qed.

Lemma sgn_Eq : forall q : Qc, Num.sgn q = Eq <-> q = Q2Qc 0.
Proof.
  intros q. unfold Num.sgn. symmetry. apply Qceq_alt.
Qed.

Lemma sgn_nonzero : forall q : Qc, q <> Q2Qc 0 -> Num.sgn q <> Eq.
Proof.
  intros q H E. apply H. apply sgn_Eq. exact E.
Qed.

Lemma is_zero_Fin : forall q : Qc, Num.is_zero (Fin q) = true <-> q = Q2Qc 0.
Proof.
  intros q. unfold Num.is_zero. rewrite <- sgn_Eq.
  destruct (Num.sgn q); split; congruence.
Qed.

Lemma is_zero_pos : forall q : Qc, Q2Qc 0 < q -> Num.is_zero (Fin q) = false.
Proof.
  intros q H. unfold Num.is_zero. rewrite (sgn_pos q H). reflexivity.
Qed.

Lemma gtb_zero_not_zero :
  forall a : num, Num.gtb a Num.zero = true -> Num.is_zero a = false.
Proof.
  intros [q| | |]; simpl; try reflexivity.
  unfold Num.gtb, Num.ltb, Num.zero. intros H.
  apply is_zero_pos. apply Qclt_alt.
  destruct (Qccompare (Q2Qc 0) q); congruence.
Qed.

Lemma gtb_zero_nonpos :
  forall q : Qc, q <= Q2Qc 0 -> Num.gtb (Fin q) Num.zero = false.
Proof.
  intros q H. unfold Num.gtb, Num.ltb, Num.zero.
  destruct (Qccompare (Q2Qc 0) q) eqn:E; try reflexivity.
  apply Qclt_alt in E. exfalso. apply (Qcle_not_lt _ _ H E).
Qed.

Lemma div_Fin : forall x y : Qc, y <> Q2Qc 0 -> Num.div (Fin x) (Fin y) = Fin (x / y).
Proof.
  intros x y H. simpl. pose proof (sgn_nonzero y H).
  destruct (Num.sgn y); congruence.
Qed.

Lemma Qc_compute : forall a b : Qc, Qc_eq_bool a b = true -> Fin a = Fin b.
Proof.
  intros a b H. f_equal. apply Qc_eq_bool_correct. exact H.
Qed.


(** ** Division, and the construction of a stock *)

Lemma truediv_nonzero :
  forall x y : scalar, Num.is_zero (val y) = false ->
    truediv x y = Return (Scalar (kjoin (kind_of x) (kind_of y)) (Num.div (val x) (val y))).
Proof.
  intros x y H. unfold truediv. rewrite H. destruct (kjoin _ _); reflexivity.
Qed.

Lemma truediv_np_r :
  forall x y : scalar, kind_of y = Np ->
    truediv x y = Return (Scalar Np (Num.div (val x) (val y))).
Proof.
  intros x y H. unfold truediv. rewrite H. destruct (kind_of x); reflexivity.
Qed.

Lemma truediv_np_l :
  forall x y : scalar, kind_of x = Np ->
    truediv x y = Return (Scalar Np (Num.div (val x) (val y))).
Proof.
  intros x y H. unfold truediv. rewrite H. reflexivity.
Qed.

Lemma truediv_raises :
  forall (x y : scalar) (e : exn), truediv x y = Raise e ->
    e = ZeroDivisionError /\ Num.is_zero (val y) = true
    /\ kind_of x = Py /\ kind_of y = Py.
Proof.
  intros x y e. unfold truediv.
  destruct (kind_of x), (kind_of y); simpl; try discriminate.
  destruct (Num.is_zero (val y)); try discriminate.
  intros H. injection H as <-. auto.
Qed.

Lemma truediv_val :
  forall x y r : scalar, truediv x y = Return r ->
    val r = Num.div (val x) (val y).
Proof.
  intros x y r. unfold truediv.
  destruct (kjoin _ _); [destruct (Num.is_zero _)|]; intros H; inversion H; reflexivity.
Qed.

Lemma truediv_100 :
  forall x : scalar,
    truediv x (py 100) = Return (Scalar (kind_of x) (Num.div (val x) (dec 100))).
Proof.
  intros x. rewrite truediv_nonzero by reflexivity.
  destruct x as [[|] v]; reflexivity.
Qed.

Lemma attributes_of_row_returns :
  forall row : Stock.Row, exists self, Stock.attributes_of_row row = Return self.
Proof.
  intros row. unfold Stock.attributes_of_row.
  repeat rewrite truediv_100. simpl. eexists. reflexivity.
Qed.

Lemma cost_of_debt_returns :
  forall self : Stock.Attributes,
    Stock.after_tax_historical_cost_of_debt self
    = Return (if gt (Stock.long_term_debt_balance self) (py 0)
              then Scalar (kjoin (kjoin (kind_of (Stock.long_term_interest_payment self)) (kind_of (Stock.long_term_debt_balance self))) (kjoin Py (kind_of (Stock.tax_rate self))))
                          (spec_cost_of_debt self)
              else py 0).
Proof.
  intros self. unfold Stock.after_tax_historical_cost_of_debt, spec_cost_of_debt, gt.
  change (val (py 0)) with Num.zero.
  destruct (Num.gtb (val (Stock.long_term_debt_balance self)) Num.zero) eqn:G.
  - rewrite truediv_nonzero by (apply gtb_zero_not_zero; exact G). reflexivity.
  - reflexivity.
Qed.

Lemma cost_of_preferred_returns :
  forall self : Stock.Attributes,
    Stock.cost_of_preferred_equity self
    = Return (if gt (Stock.preferred_stock self) (py 0)
              then Scalar (kjoin (kind_of (Stock.preferred_dividend self))
                                 (kind_of (Stock.preferred_stock self)))
                          (spec_cost_of_preferred self)
              else py 0).
Proof.
  intros self.
  unfold Stock.cost_of_preferred_equity, spec_cost_of_preferred, gt.
  change (val (py 0)) with Num.zero.
  destruct (Num.gtb (val (Stock.preferred_stock self)) Num.zero) eqn:G.
  - rewrite truediv_nonzero by (apply gtb_zero_not_zero; exact G). reflexivity.
  - reflexivity.
Qed.

Lemma cost_of_debt_val :
  forall (self : Stock.Attributes) (c : scalar),
    Stock.after_tax_historical_cost_of_debt self = Return c ->
    val c = spec_cost_of_debt self.
Proof.
  intros self c. rewrite cost_of_debt_returns. intros H. injection H as <-.
  unfold spec_cost_of_debt, gt. change (val (py 0)) with Num.zero.
  destruct (Num.gtb _ _); reflexivity.
Qed.

Lemma cost_of_preferred_val :
  forall (self : Stock.Attributes) (c : scalar),
    Stock.cost_of_preferred_equity self = Return c ->
    val c = spec_cost_of_preferred self.
Proof.
  intros self c. rewrite cost_of_preferred_returns. intros H. injection H as <-.
  unfold spec_cost_of_preferred, gt. change (val (py 0)) with Num.zero.
  destruct (Num.gtb _ _); reflexivity.
Qed.

(** The sum the WACC divides by total capital, as [_calculate_wacc]
    forms it. *)
Lemma calculate_wacc_unfold :
  forall self : Stock.Attributes,
    exists n : scalar,
      val n = spec_weighted_costs self /\
      Stock._calculate_wacc self = truediv n (Stock.total_capital self).
Proof.
  intros self. unfold Stock._calculate_wacc.
  destruct (Stock.after_tax_historical_cost_of_debt self) as [c|e] eqn:Hc;
    [|rewrite cost_of_debt_returns in Hc; discriminate].
  destruct (Stock.cost_of_preferred_equity self) as [p|e] eqn:Hp;
    [|rewrite cost_of_preferred_returns in Hp; discriminate].
  simpl. eexists. split; [|reflexivity].
  unfold spec_weighted_costs.
  rewrite <- (cost_of_debt_val self c Hc), <- (cost_of_preferred_val self p Hp).
  reflexivity.
Qed.

(** The constructor returns as soon as the total capital is not zero,
    and the WACC it stores is the weighted costs over the total capital. *)
Lemma init_returns :
  forall (row : Stock.Row) (self : Stock.Attributes),
    Stock.attributes_of_row row = Return self ->
    Num.is_zero (spec_total_capital self) = false ->
    exists s : Stock.t,
      Stock.__init__ row = Return s /\
      Stock.attributes s = self /\
      val (Stock.weighted_average_cost_of_capital s)
      = Num.div (spec_weighted_costs self) (spec_total_capital self).
Proof.
  intros row self Hrow Hnz.
  unfold Stock.__init__. rewrite Hrow. cbn [obind].
  destruct (calculate_wacc_unfold self) as [n [Hn ->]].
  rewrite truediv_nonzero by exact Hnz.
  eexists. split; [reflexivity|]. split; [reflexivity|].
  cbn [val Stock.weighted_average_cost_of_capital].
  rewrite Hn. reflexivity.
Qed.

(** C3. When the total capital of the row's stock is positive, the
    constructor returns and the WACC it stores is (after-tax cost of debt
    * debt balance + cost of preferred equity * preferred stock balance +
    cost of equity * shares outstanding * price) / total capital, the
    cost of equity being risk-free yield + beta * equity risk premium. *)
Theorem wacc_weighted_average :
  forall (row : Stock.Row) (self : Stock.Attributes) (tc : Qc),
    Stock.attributes_of_row row = Return self ->
    spec_total_capital self = Fin tc ->
    Q2Qc 0 < tc ->
    exists s : Stock.t,
      Stock.__init__ row = Return s /\
      Stock.attributes s = self /\
      val (Stock.weighted_average_cost_of_capital s)
      = Num.div (spec_weighted_costs self) (Fin tc).
Proof.
  intros row self tc Hrow Htc Hpos.
  assert (Hnz : Num.is_zero (spec_total_capital self) = false)
    by (rewrite Htc; apply is_zero_pos; exact Hpos).
  destruct (init_returns row self Hrow Hnz) as [s [Hs [Ha Hw]]].
  exists s. split; [exact Hs|]. split; [exact Ha|].
  rewrite Hw, Htc. reflexivity.
Qed.

Lemma init_inv :
  forall (row : Stock.Row) (s : Stock.t),
    Stock.__init__ row = Return s ->
    Stock.attributes_of_row row = Return (Stock.attributes s) /\
    Stock.distributions s = Stock._derive_distributions (Stock.attributes s) /\
    Stock._calculate_wacc (Stock.attributes s)
    = Return (Stock.weighted_average_cost_of_capital s).
Proof.
  intros row s. unfold Stock.__init__.
  destruct (Stock.attributes_of_row row) as [self|e]; [|discriminate].
  cbn [obind].
  destruct (Stock._calculate_wacc self) as [w|e] eqn:Hw; [|discriminate].
  cbn [obind]. intros H. injection H as <-. cbn. auto.
Qed.

Lemma Qc_market_cap_pos :
  forall S p : Qc, Q2Qc 0 < S -> Q2Qc 0 < p -> Q2Qc 0 < Q2Qc 0 + Q2Qc 0 + S * p.
Proof.
  intros S p HS Hp.
  replace (Q2Qc 0 + Q2Qc 0 + S * p) with (S * p) by ring.
  replace (Q2Qc 0) with (Q2Qc 0 * p) by ring.
  apply Qcmult_lt_compat_r; assumption.
Qed.

Lemma Qc_pos_nonzero : forall q : Qc, Q2Qc 0 < q -> q <> Q2Qc 0.
Proof.
  intros q H E. rewrite E in H. exact (Qclt_not_eq _ _ H eq_refl).
Qed.

(** In exact arithmetic: with no long-term debt, no preferred stock and
    positive shares outstanding and price, the constructor returns and
    the WACC it stores is the CAPM cost of equity, risk-free yield +
    beta * equity risk premium. *)
Lemma all_equity_wacc_exact :
  forall (row : Stock.Row) (self : Stock.Attributes) (S p : Qc),
    Stock.attributes_of_row row = Return self ->
    val (Stock.long_term_debt_balance self) = Fin (Q2Qc 0) ->
    val (Stock.preferred_stock self) = Fin (Q2Qc 0) ->
    val (Stock.common_shares_outstanding self) = Fin S ->
    Q2Qc 0 < S ->
    val (Stock.price self) = Fin p ->
    Q2Qc 0 < p ->
    exists s : Stock.t,
      Stock.__init__ row = Return s /\
      Stock.attributes s = self /\
      val (Stock.weighted_average_cost_of_capital s) = capm_cost_of_equity self.
Proof.
  intros row self S p Hrow Hd Hp HS HSpos Hpr Hppos.
  pose proof (Qc_market_cap_pos S p HSpos Hppos) as Hpos.
  assert (Htc : spec_total_capital self = Fin (Q2Qc 0 + Q2Qc 0 + S * p)).
  { unfold spec_total_capital. rewrite Hd, Hp, HS, Hpr. reflexivity. }
  assert (Hnz : Num.is_zero (spec_total_capital self) = false)
    by (rewrite Htc; apply is_zero_pos; exact Hpos).
  destruct (init_returns row self Hrow Hnz) as [s [Hs [Ha Hw]]].
  exists s. split; [exact Hs|]. split; [exact Ha|].
  rewrite Hw, Htc.
  unfold spec_weighted_costs, spec_cost_of_debt, spec_cost_of_preferred.
  rewrite Hd, Hp, HS, Hpr.
  change (Num.gtb (Fin (Q2Qc 0)) Num.zero) with false. cbn iota.
  pose proof (sgn_pos _ HSpos) as sS. pose proof (sgn_pos _ Hppos) as sp.
  pose proof (sgn_pos _ Hpos) as stc.
  destruct (capm_cost_of_equity self) as [e| | |];
    do 3 (cbn; rewrite ?sS, ?sp, ?stc); try reflexivity.
  f_equal. field. split; apply Qc_pos_nonzero; assumption.
Qed.

Lemma wacc_weighted_average_witness :
  exists (self : Stock.Attributes) (tc : Qc),
    Stock.attributes_of_row row_NVO = Return self /\
    spec_total_capital self = Fin tc /\
    Q2Qc 0 < tc /\
    exists s : Stock.t,
      Stock.__init__ row_NVO = Return s /\
      Stock.attributes s = self /\
      val (Stock.weighted_average_cost_of_capital s)
      = Num.div (spec_weighted_costs self) (Fin tc).
Proof.
  eexists. eexists.
  split; [lazy; reflexivity|]. split; [lazy; reflexivity|].
  split; [reflexivity|].
  apply (wacc_weighted_average row_NVO);
    [lazy; reflexivity | lazy; reflexivity | reflexivity].
Defined.


(** ** The guards of the WACC *)

(** C8. Neither cost term of the WACC can divide by zero: the cost of
    debt and the cost of preferred equity are always computed, each is 0
    when its balance is not positive, and the only division that can
    fail in [_calculate_wacc] is the one by a zero total capital. *)
Theorem wacc_cost_divisions_guarded :
  forall self : Stock.Attributes,
    (exists c : scalar,
        Stock.after_tax_historical_cost_of_debt self = Return c /\
        (forall d : Qc,
            val (Stock.long_term_debt_balance self) = Fin d ->
            d <= Q2Qc 0 -> c = py 0)) /\
    (exists c : scalar,
        Stock.cost_of_preferred_equity self = Return c /\
        (forall p : Qc,
            val (Stock.preferred_stock self) = Fin p ->
            p <= Q2Qc 0 -> c = py 0)) /\
    (forall e : exn,
        Stock._calculate_wacc self = Raise e ->
        e = ZeroDivisionError /\
        Num.is_zero (val (Stock.total_capital self)) = true).
Proof.
  intros self. split; [|split].
  - eexists. split; [apply cost_of_debt_returns|].
    intros d Hd Hle. unfold gt. rewrite Hd.
    change (val (py 0)) with Num.zero.
    rewrite (gtb_zero_nonpos d Hle). reflexivity.
  - eexists. split; [apply cost_of_preferred_returns|].
    intros p Hp Hle. unfold gt. rewrite Hp.
    change (val (py 0)) with Num.zero.
    rewrite (gtb_zero_nonpos p Hle). reflexivity.
  - intros e. destruct (calculate_wacc_unfold self) as [n [_ ->]].
    intros H. apply truediv_raises in H. tauto.
Qed.

(** ** One roll of a stock *)

Lemma kjoin_Np_r : forall k : kind, kjoin k Np = Np.
Proof.
  intros [|]; reflexivity.
Qed.

Lemma clip_is_clamp :
  forall x : num,
    Num.minimum (Num.maximum x Num.zero) Num.one = clamp01 x.
Proof.
  intros [q| | |]; try reflexivity.
  unfold clamp01, Num.maximum. cbn [Num.is_nan orb].
  destruct (Num.ltb (Fin q) Num.zero); reflexivity.
Qed.

Lemma ltb_one_not_neg :
  forall x : num, Num.ltb Num.one x = true -> Num.ltb x Num.zero = false.
Proof.
  intros [q| | |]; try reflexivity; try discriminate.
  unfold Num.ltb, Num.one, Num.zero. intros H.
  destruct (Qccompare (Q2Qc 1) q) eqn:E; try discriminate.
  apply Qclt_alt in E.
  destruct (Qccompare q (Q2Qc 0)) eqn:F; try reflexivity.
  apply Qclt_alt in F. exfalso.
  assert (L : Q2Qc 1 < Q2Qc 0) by (eapply Qclt_trans; eassumption).
  discriminate L.
Qed.

Lemma np_random_normal_run :
  forall (loc scale : scalar) (rs : RandomState),
    np_random_normal loc scale rs
    = if Num.ltb (val scale) Num.zero
      then (Raise ValueError, rs)
      else (Return (Scalar Py (normal_draw loc scale (gauss rs (pos rs)))),
            advance 1 rs).
Proof.
  intros loc scale rs. unfold np_random_normal.
  destruct (Num.ltb (val scale) Num.zero); reflexivity.
Qed.

Lemma roll_once_run :
  forall (self : Stock.t) (rs : RandomState),
    scales_accepted self = true ->
    Stock.roll_once self rs
    = match truediv (Stock.price self) (Scalar Py (drawn_cash_flow self rs)) with
      | Return v =>
          (Return (rolled_growth self rs, v,
                   Scalar Np (Num.div (val (rolled_growth self rs)) (val v))),
           advance 3 rs)
      | Raise e => (Raise e, advance 3 rs)
      end.
Proof.
  intros self rs H. unfold scales_accepted in H.
  apply andb_true_iff in H. destruct H as [H H3].
  apply andb_true_iff in H. destruct H as [H1 H2].
  apply negb_true_iff in H1, H2, H3.
  unfold Stock.roll_once, bind.
  rewrite np_random_normal_run, H1.
  rewrite np_random_normal_run, H2.
  rewrite np_random_normal_run, H3.
  unfold lift, ret.
  change (gauss (advance 1 rs)) with (gauss rs).
  change (gauss (advance 1 (advance 1 rs))) with (gauss rs).
  change (pos (advance 1 rs)) with (S (pos rs)).
  change (pos (advance 1 (advance 1 rs))) with (S (S (pos rs))).
  change (advance 1 (advance 1 (advance 1 rs))) with (advance 3 rs).
  fold (drawn_rotc self rs) (drawn_plowback self rs) (drawn_cash_flow self rs).
  destruct (truediv (Stock.price self) (Scalar Py (drawn_cash_flow self rs)))
    as [v|e]; [|reflexivity].
  assert (G : py 100
              *! (Scalar Py (drawn_rotc self rs)
                  -! Stock.weighted_average_cost_of_capital self)
              *! np_clip (Scalar Py (drawn_plowback self rs)) (py 0) (py 1)
              = rolled_growth self rs).
  { unfold rolled_growth, np_clip, mul_, sub_, binop. cbn [val kind_of].
    rewrite kjoin_Np_r. f_equal.
    change (val (py 0)) with Num.zero. change (val (py 1)) with Num.one.
    rewrite clip_is_clamp. reflexivity. }
  rewrite G. rewrite truediv_np_l by reflexivity. reflexivity.
Qed.

Lemma roll_once_accepts :
  forall (self : Stock.t) (rs rs' : RandomState) (t : scalar * scalar * scalar),
    Stock.roll_once self rs = (Return t, rs') -> scales_accepted self = true.
Proof.
  intros self rs rs' t. unfold Stock.roll_once, bind, scales_accepted.
  rewrite np_random_normal_run.
  destruct (Num.ltb (val (Stock.vl_return_on_total_capital_std_dev self)) Num.zero);
    [discriminate|].
  rewrite np_random_normal_run.
  destruct (Num.ltb (val (Stock.vl_retained_earnings_plowback_ratio_std_dev self))
                    Num.zero); [discriminate|].
  rewrite np_random_normal_run.
  destruct (Num.ltb (val (Stock.vl_cash_flow_per_share_std_dev self)) Num.zero);
    [discriminate|].
  reflexivity.
Qed.

(** C6. The plowback that enters the growth rate of a roll is the drawn
    plowback clamped into [0, 1]: 0 for a draw below 0, 1 for a draw
    above 1, the draw itself otherwise. *)
Theorem plowback_is_clamped :
  forall (self : Stock.t) (rs rs' : RandomState) (growth multiple ratio : scalar),
    Stock.roll_once self rs = (Return (growth, multiple, ratio), rs') ->
    exists used : num,
      val growth
      = Num.mul (Num.mul (dec 100)
                         (Num.sub (drawn_rotc self rs)
                                  (val (Stock.weighted_average_cost_of_capital self))))
                used /\
      (Num.ltb (drawn_plowback self rs) Num.zero = true -> used = Num.zero) /\
      (Num.ltb Num.one (drawn_plowback self rs) = true -> used = Num.one) /\
      (Num.ltb (drawn_plowback self rs) Num.zero = false ->
       Num.ltb Num.one (drawn_plowback self rs) = false ->
       used = drawn_plowback self rs).
Proof.
  intros self rs rs' growth multiple ratio H.
  pose proof (roll_once_accepts self rs rs' _ H) as Hs.
  rewrite (roll_once_run self rs Hs) in H.
  destruct (truediv _ _) as [v|e]; [|discriminate].
  injection H as <- _ _ _.
  exists (clamp01 (drawn_plowback self rs)).
  split; [reflexivity|]. unfold clamp01.
  split; [intros ->; reflexivity|].
  split.
  - intros H1. rewrite (ltb_one_not_neg _ H1), H1. reflexivity.
  - intros -> ->. reflexivity.
Qed.

Lemma plowback_is_clamped_witness :
  exists (s : Stock.t) (rs' : RandomState) (growth multiple ratio : scalar),
    Stock.__init__ row_NVO = Return s /\
    Stock.roll_once s (generator [(1%nat, -3)]) = (Return (growth, multiple, ratio), rs') /\
    exists used : num,
      val growth
      = Num.mul (Num.mul (dec 100)
                         (Num.sub (drawn_rotc s (generator [(1%nat, -3)]))
                                  (val (Stock.weighted_average_cost_of_capital s))))
                used /\
      (Num.ltb (drawn_plowback s (generator [(1%nat, -3)])) Num.zero = true ->
       used = Num.zero) /\
      (Num.ltb Num.one (drawn_plowback s (generator [(1%nat, -3)])) = true ->
       used = Num.one) /\
      (Num.ltb (drawn_plowback s (generator [(1%nat, -3)])) Num.zero = false ->
       Num.ltb Num.one (drawn_plowback s (generator [(1%nat, -3)])) = false ->
       used = drawn_plowback s (generator [(1%nat, -3)])).
Proof.
  do 5 eexists. split; [lazy; reflexivity|].
  split; [lazy; reflexivity|].
  eapply plowback_is_clamped. lazy. reflexivity.
Defined.

(** C4, as the code has it. Once the three draws are made, the roll
    returns the triple growth = 100 * (rotc - WACC) * clamped plowback,
    multiple = price / cash flow, ratio = growth / multiple, whenever
    the drawn cash flow is not zero or the price is a NumPy scalar; a
    zero cash flow under a built-in Python price raises
    [ZeroDivisionError]. *)
Theorem roll_once_triple :
  forall (self : Stock.t) (rs : RandomState),
    scales_accepted self = true ->
    (kind_of (Stock.price self) = Np
     \/ Num.is_zero (drawn_cash_flow self rs) = false ->
     exists growth multiple ratio : scalar,
       Stock.roll_once self rs = (Return (growth, multiple, ratio), advance 3 rs) /\
       val growth
       = Num.mul (Num.mul (dec 100)
                          (Num.sub (drawn_rotc self rs)
                                   (val (Stock.weighted_average_cost_of_capital self))))
                 (clamp01 (drawn_plowback self rs)) /\
       val multiple = Num.div (val (Stock.price self)) (drawn_cash_flow self rs) /\
       val ratio = Num.div (val growth) (val multiple)) /\
    (kind_of (Stock.price self) = Py ->
     Num.is_zero (drawn_cash_flow self rs) = true ->
     Stock.roll_once self rs = (Raise ZeroDivisionError, advance 3 rs)).
Proof.
  intros self rs Hs. rewrite (roll_once_run self rs Hs). split.
  - intros H.
    assert (T : truediv (Stock.price self) (Scalar Py (drawn_cash_flow self rs))
                = Return (Scalar (kjoin (kind_of (Stock.price self)) Py)
                                 (Num.div (val (Stock.price self))
                                          (drawn_cash_flow self rs)))).
    { destruct H as [H|H].
      - rewrite truediv_np_l by exact H. rewrite H. reflexivity.
      - apply truediv_nonzero. exact H. }
    rewrite T. do 3 eexists. split; [reflexivity|].
    repeat split; reflexivity.
  - intros Hk Hz. unfold truediv. rewrite Hk. cbn [kjoin kind_of val].
    rewrite Hz. reflexivity.
Qed.

Lemma roll_once_triple_witness :
  exists s : Stock.t,
    Stock.__init__ row_NVO = Return s /\
    scales_accepted s = true /\
    Num.is_zero (drawn_cash_flow s (generator [(1%nat, -3)])) = false /\
    exists growth multiple ratio : scalar,
      Stock.roll_once s (generator [(1%nat, -3)])
      = (Return (growth, multiple, ratio), advance 3 (generator [(1%nat, -3)])) /\
      val growth
      = Num.mul (Num.mul (dec 100)
                         (Num.sub (drawn_rotc s (generator [(1%nat, -3)]))
                                  (val (Stock.weighted_average_cost_of_capital s))))
                (clamp01 (drawn_plowback s (generator [(1%nat, -3)]))) /\
      val multiple
      = Num.div (val (Stock.price s)) (drawn_cash_flow s (generator [(1%nat, -3)])) /\
      val ratio = Num.div (val growth) (val multiple).
Proof.
  eexists. split; [lazy; reflexivity|].
  split; [reflexivity|]. split; [reflexivity|].
  apply roll_once_triple; [reflexivity|]. right. reflexivity.
Defined.

(** C4, the claim as written fails: a sheet row with no cash flow per
    share and a Python float for price gives a stock whose every roll
    draws the cash flow 0 and raises [ZeroDivisionError]. *)
Lemma roll_once_raises_on_zero_cash_flow :
  exists s : Stock.t,
    Stock.__init__ row_ZM = Return s /\
    scales_accepted s = true /\
    kind_of (Stock.price s) = Py /\
    drawn_cash_flow s (generator []) = Num.zero /\
    fst (Stock.roll_once s (generator [])) = Raise ZeroDivisionError.
Proof.
  eexists. split; [lazy; reflexivity|].
  split; [reflexivity|]. split; [reflexivity|].
  split; [apply Qc_compute; reflexivity|].
  reflexivity.
Qed.

(** ** The monad *)

Lemma bind_Return :
  forall (St A B : Type) (m : M St A) (k : A -> M St B) (s s' : St) (a : A),
    m s = (Return a, s') -> bind m k s = k a s'.
Proof.
  intros St A B m k s s' a H. unfold bind. rewrite H. reflexivity.
Qed.

Lemma bind_Raise :
  forall (St A B : Type) (m : M St A) (k : A -> M St B) (s s' : St) (e : exn),
    m s = (Raise e, s') -> bind m k s = (Raise e, s').
Proof.
  intros St A B m k s s' e H. unfold bind. rewrite H. reflexivity.
Qed.

(** ** Dictionaries and the loops that build them *)

Lemma lookup_In :
  forall (V : Type) (k : string) (d : dict V),
    In k (keys d) -> exists v, lookup k d = Some v.
Proof.
  intros V k d. induction d as [|[k' v'] d IH]; simpl.
  - intros [].
  - intros [E|H].
    + subst k'. rewrite String.eqb_refl. eauto.
    + destruct (String.eqb k k'); eauto.
Qed.

Lemma lookup_NoDup :
  forall (V : Type) (k : string) (v : V) (d : dict V),
    NoDup (keys d) -> In (k, v) d -> lookup k d = Some v.
Proof.
  intros V k v d. induction d as [|[k' v'] d IH]; simpl.
  - intros _ [].
  - intros N [E|H].
    + injection E as -> ->. rewrite String.eqb_refl. reflexivity.
    + inversion N as [|? ? Hn N']; subst.
      destruct (String.eqb k k') eqn:E.
      * apply String.eqb_eq in E. subst k'. exfalso. apply Hn.
        apply (in_map fst) in H. exact H.
      * apply IH; assumption.
Qed.

Lemma setitem_fresh :
  forall (V : Type) (k : string) (v : V) (d : dict V),
    ~ In k (keys d) -> setitem d k v = d ++ [(k, v)].
Proof.
  intros V k v d. induction d as [|[k' v'] d IH]; simpl.
  - reflexivity.
  - intros H. destruct (String.eqb k k') eqn:E.
    + apply String.eqb_eq in E. subst k'. exfalso. apply H. left. reflexivity.
    + rewrite IH; [reflexivity|]. intros F. apply H. right. exact F.
Qed.

Lemma keys_app :
  forall (V : Type) (d1 d2 : dict V), keys (d1 ++ d2) = keys d1 ++ keys d2.
Proof.
  intros V d1 d2. unfold keys. apply map_app.
Qed.

(** A loop that stores one value per key, under fresh and distinct
    keys, appends the keys in order. *)
Lemma for_each_keys :
  forall (St V : Type) (body : string -> dict V -> M St (dict V)),
    (forall k acc s acc' s',
        body k acc s = (Return acc', s') -> exists v, acc' = setitem acc k v) ->
    forall (ks : list string) (acc : dict V) (s : St) (d : dict V) (s' : St),
      for_each ks body acc s = (Return d, s') ->
      NoDup ks ->
      (forall k, In k ks -> ~ In k (keys acc)) ->
      keys d = keys acc ++ ks.
Proof.
  intros St V body Hbody ks.
  induction ks as [|k ks IH]; intros acc s d s' H N F.
  - cbn in H. injection H as <- _. rewrite app_nil_r. reflexivity.
  - cbn [for_each] in H. unfold bind in H.
    destruct (body k acc s) as [[acc1|e] s1] eqn:B; [|discriminate].
    destruct (Hbody _ _ _ _ _ B) as [v ->].
    inversion N as [|? ? Hk N']; subst.
    rewrite setitem_fresh in H by (apply F; left; reflexivity).
    apply IH in H; [|exact N'|].
    + rewrite H, keys_app. cbn. rewrite <- app_assoc. reflexivity.
    + intros k' Hk' Hin. rewrite keys_app in Hin. apply in_app_or in Hin.
      destruct Hin as [Hin|[<-|[]]].
      * apply (F k'); [right; exact Hk'|exact Hin].
      * exact (Hk Hk').
Qed.

(** The first loop of [_allocate_once] stores a ratio under every
    stock's name, in the order of the stocks. *)
Lemma roll_ratios_keys :
  forall (self : Portfolio.t) (rs rs' : RandomState) (ratios : dict scalar),
    NoDup (keys (Portfolio.stocks self)) ->
    Portfolio.roll_ratios self rs = (Return ratios, rs') ->
    keys ratios = keys (Portfolio.stocks self).
Proof.
  intros self rs rs' ratios N H. unfold Portfolio.roll_ratios in H.
  apply for_each_keys in H; [exact H| |exact N|intros k _ []].
  clear. intros k acc s acc' s'. unfold bind, lift.
  destruct (getitem (Portfolio.stocks self) k) as [st|e]; [|discriminate].
  destruct (Stock.roll_once st s) as [[[[g v] r]|e] s1]; [|discriminate].
  unfold ret. intros H. injection H as <- _. eauto.
Qed.

(** The second loop of [_allocate_once] raises nothing and leaves the
    generator alone: the sum it divides by is a NumPy scalar. *)
Lemma allocations_loop_run :
  forall (ratios : dict scalar) (ks : list string) (acc : dict scalar)
         (rs : RandomState),
    (forall k, In k ks -> In k (keys ratios)) ->
    NoDup ks ->
    (forall k, In k ks -> ~ In k (keys acc)) ->
    for_each ks
      (fun stock allocations =>
         r <- lift (getitem ratios stock) ;;
         w <- lift (truediv r (np_sum (values ratios))) ;;
         ret (setitem allocations stock w))
      acc rs
    = (Return
         (acc ++ map (fun k =>
                        (k, Scalar Np
                              (Num.div
                                 (match lookup k ratios with
                                  | Some r => val r
                                  | None => NaN
                                  end)
                                 (val (np_sum (values ratios))))))
                     ks),
       rs).
Proof.
  intros ratios ks. induction ks as [|k ks IH]; intros acc rs Hin N F.
  - cbn. rewrite app_nil_r. reflexivity.
  - inversion N as [|? ? Hk N']; subst.
    cbn [for_each]. unfold bind at 1. unfold bind at 1. unfold lift at 1.
    unfold getitem.
    destruct (lookup_In _ k ratios (Hin k (or_introl eq_refl))) as [r Hr].
    rewrite Hr. unfold bind at 1. unfold lift at 1.
    rewrite truediv_np_r by reflexivity. unfold ret at 1.
    rewrite setitem_fresh by (apply F; left; reflexivity).
    rewrite IH; [| |exact N'|].
    + cbn [map]. rewrite Hr. rewrite <- app_assoc. reflexivity.
    + intros k' Hk'. apply Hin. right. exact Hk'.
    + intros k' Hk' Hin'. rewrite keys_app in Hin'. apply in_app_or in Hin'.
      destruct Hin' as [Hin'|[<-|[]]].
      * apply (F k'); [right; exact Hk'|exact Hin'].
      * exact (Hk Hk').
Qed.

Lemma normalised_by_key :
  forall ratios : dict scalar,
    NoDup (keys ratios) ->
    map (fun k =>
           (k, Scalar Np
                 (Num.div
                    (match lookup k ratios with
                     | Some r => val r
                     | None => NaN
                     end)
                    (val (np_sum (values ratios))))))
        (keys ratios)
    = normalised ratios.
Proof.
  intros ratios N. unfold normalised, keys. rewrite map_map.
  apply map_ext_in. intros [k r] Hin. cbn [fst snd].
  rewrite (lookup_NoDup _ k r ratios N Hin). reflexivity.
Qed.

(** One trial: the ratios are rolled, then normalised. *)
Lemma allocate_once_run :
  forall (self : Portfolio.t) (rs : RandomState),
    NoDup (keys (Portfolio.stocks self)) ->
    Portfolio._allocate_once self rs
    = match Portfolio.roll_ratios self rs with
      | (Return ratios, rs') => (Return (normalised ratios), rs')
      | (Raise e, rs') => (Raise e, rs')
      end.
Proof.
  intros self rs N. unfold Portfolio._allocate_once.
  destruct (Portfolio.roll_ratios self rs) as [[ratios|e] rs'] eqn:R;
    [|apply bind_Raise; exact R].
  erewrite bind_Return by exact R. cbv zeta.
  pose proof (roll_ratios_keys self rs rs' ratios N R) as K.
  rewrite <- K.
  rewrite allocations_loop_run.
  - cbn [app]. rewrite normalised_by_key; [reflexivity|]. rewrite K. exact N.
  - auto.
  - rewrite K. exact N.
  - intros k _ [].
Qed.

(** ** Sums of ratios and of weights *)

Lemma add_nonfinite_l :
  forall a b : num, Num.is_finite a = false -> Num.is_finite (Num.add a b) = false.
Proof.
  intros [x| | |] [y| | |]; simpl; congruence.
Qed.

Lemma fold_add_nonfinite :
  forall (l : list num) (a : num),
    Num.is_finite a = false -> Num.is_finite (fold_left Num.add l a) = false.
Proof.
  induction l as [|x l IH]; intros a H; simpl.
  - exact H.
  - apply IH. apply add_nonfinite_l. exact H.
Qed.

(** A finite sum has finite terms only. *)
Lemma fold_add_finite :
  forall (l : list num) (a : Qc) (t : Qc),
    fold_left Num.add l (Fin a) = Fin t ->
    forall x, In x l -> Num.is_finite x = true.
Proof.
  induction l as [|y l IH]; intros a t H x Hin.
  - destruct Hin.
  - simpl in H. destruct y as [q| | |].
    + destruct Hin as [<-|Hin]; [reflexivity|]. exact (IH _ _ H x Hin).
    + pose proof (fold_add_nonfinite l PInf eq_refl) as F.
      simpl in H. rewrite H in F. discriminate.
    + pose proof (fold_add_nonfinite l NInf eq_refl) as F.
      simpl in H. rewrite H in F. discriminate.
    + pose proof (fold_add_nonfinite l NaN eq_refl) as F.
      simpl in H. rewrite H in F. discriminate.
Qed.

(** Dividing every term by [s] divides the sum by [s]. *)
Lemma fold_add_scaled :
  forall (s : Qc) (l : list num) (a t : Qc),
    s <> Q2Qc 0 ->
    fold_left Num.add l (Fin a) = Fin t ->
    fold_left Num.add (map (fun x => Num.div x (Fin s)) l) (Fin (a / s))
    = Fin (t / s).
Proof.
  intros s l. induction l as [|y l IH]; intros a t Hs H.
  - simpl in *. injection H as ->. reflexivity.
  - pose proof (fold_add_finite _ _ _ H y (or_introl eq_refl)) as Fy.
    destruct y as [q| | |]; try discriminate.
    simpl in H. cbn [map fold_left].
    rewrite div_Fin by exact Hs. cbn [Num.add].
    replace (a / s + q / s) with ((a + q) / s) by (field; exact Hs).
    apply IH; assumption.
Qed.

Lemma sum_scaled :
  forall (s : Qc) (l : list num),
    s <> Q2Qc 0 ->
    Num.sum l = Fin s ->
    Num.sum (map (fun x => Num.div x (Fin s)) l) = Num.one.
Proof.
  intros s l Hs H. unfold Num.sum, Num.zero in *.
  replace (Q2Qc 0) with (Q2Qc 0 / s) by (field; exact Hs).
  rewrite (fold_add_scaled s l (Q2Qc 0) s Hs H).
  unfold Num.one. f_equal. field. exact Hs.
Qed.

Lemma values_normalised :
  forall ratios : dict scalar,
    map val (values (normalised ratios))
    = map (fun x => Num.div x (val (np_sum (values ratios))))
          (map val (values ratios)).
Proof.
  intros ratios. unfold normalised, values. rewrite !map_map. reflexivity.
Qed.

Lemma keys_normalised :
  forall ratios : dict scalar, keys (normalised ratios) = keys ratios.
Proof.
  intros ratios. unfold normalised, keys. rewrite map_map. reflexivity.
Qed.

(** The row pandas stores for a dictionary, under the dictionary's own
    keys, is the list of its values. *)
Lemma reindex_own_keys :
  forall d : dict scalar,
    NoDup (keys d) -> reindex d (keys d) = map val (values d).
Proof.
  intros d N. unfold reindex, keys, values. rewrite !map_map.
  apply map_ext_in. intros [k v] Hin. cbn [fst snd].
  rewrite (lookup_NoDup _ k v d N Hin). reflexivity.
Qed.

(** The weights of a trial whose ratios have a finite nonzero sum: each
    is its ratio over the sum, and they sum to 1. *)
Lemma normalised_weights :
  forall (ratios : dict scalar) (s : Qc),
    val (np_sum (values ratios)) = Fin s ->
    s <> Q2Qc 0 ->
    (forall (k : string) (r : scalar),
        In (k, r) ratios ->
        exists q : Qc,
          val r = Fin q /\
          In (k, Scalar Np (Fin (q / s))) (normalised ratios)) /\
    Num.sum (map val (values (normalised ratios))) = Num.one.
Proof.
  intros ratios s Hsum Hs. split.
  - intros k r Hin.
    assert (F : Num.is_finite (val r) = true).
    { cbn [np_sum val] in Hsum. unfold Num.sum, Num.zero in Hsum.
      apply (fold_add_finite _ _ _ Hsum). unfold values. rewrite map_map.
      apply (in_map (fun x => val (snd x))) in Hin. exact Hin. }
    destruct (val r) as [q| | |] eqn:E; try discriminate.
    exists q. split; [reflexivity|].
    unfold normalised. rewrite Hsum.
    apply (in_map (fun kr =>
                     (fst kr, Scalar Np (Num.div (val (snd kr)) (Fin s)))))
      in Hin.
    cbn [fst snd] in Hin. rewrite E, div_Fin in Hin by exact Hs.
    exact Hin.
  - rewrite values_normalised, Hsum. apply sum_scaled; [exact Hs|].
    exact Hsum.
Qed.

(** ** The loop of [allocate] *)

Lemma replace_nth_length :
  forall (A : Type) (i : nat) (x : A) (l : list A),
    List.length (replace_nth i x l) = List.length l.
Proof.
  intros A i x l. revert i. induction l as [|y l IH]; intros [|i]; simpl;
    try reflexivity.
  rewrite IH. reflexivity.
Qed.

Lemma replace_nth_same :
  forall (A : Type) (i : nat) (x : A) (l : list A),
    (i < List.length l)%nat -> nth_error (replace_nth i x l) i = Some x.
Proof.
  intros A i x l. revert i. induction l as [|y l IH]; intros [|i] H; simpl in *;
    try lia; try reflexivity.
  apply IH. lia.
Qed.

Lemma replace_nth_other :
  forall (A : Type) (i j : nat) (x : A) (l : list A),
    i <> j -> nth_error (replace_nth i x l) j = nth_error l j.
Proof.
  intros A i j x l. revert i j. induction l as [|y l IH]; intros [|i] [|j] H;
    simpl; try reflexivity; try congruence.
  apply IH. congruence.
Qed.

(** A trial reads nothing of the portfolio but its stocks. *)
Lemma allocate_once_stocks :
  forall p q : Portfolio.t,
    Portfolio.stocks p = Portfolio.stocks q ->
    Portfolio._allocate_once p = Portfolio._allocate_once q.
Proof.
  intros p q H. unfold Portfolio._allocate_once, Portfolio.roll_ratios.
  rewrite H. reflexivity.
Qed.

Lemma rng_before_trial_stocks :
  forall (p q : Portfolio.t) (rs : RandomState) (t : nat),
    Portfolio.stocks p = Portfolio.stocks q ->
    rng_before_trial p rs t = rng_before_trial q rs t.
Proof.
  intros p q rs t H. unfold rng_before_trial.
  rewrite (allocate_once_stocks p q H). reflexivity.
Qed.

Lemma rng_before_trial_S :
  forall (p : Portfolio.t) (rs : RandomState) (t : nat),
    rng_before_trial p rs (S t)
    = rng_before_trial p (snd (Portfolio._allocate_once p rs)) t.
Proof.
  intros p rs t. unfold rng_before_trial. apply Nat.iter_succ_r.
Qed.

Lemma store_trial_run :
  forall (i : nat) (p : Portfolio.t) (rs : RandomState),
    Portfolio.store_trial i (p, rs)
    = match Portfolio._allocate_once p rs with
      | (Raise e, rs1) => (Raise e, (p, rs1))
      | (Return a, rs1) =>
          match Portfolio.allocation_trials p with
          | None => (Raise AttributeError, (p, rs1))
          | Some df =>
              match iloc_setrow df i a with
              | Raise e => (Raise e, (p, rs1))
              | Return df' => (Return tt, (with_trials p df', rs1))
              end
          end
      end.
Proof.
  intros i p rs.
  unfold Portfolio.store_trial, bind, Portfolio.this, Portfolio.call, lift,
    Portfolio.get_allocation_trials, Portfolio.set_allocation_trials.
  cbn [fst snd].
  destruct (Portfolio._allocate_once p rs) as [[a|e] rs1]; [|reflexivity].
  cbn [fst snd].
  destruct (Portfolio.allocation_trials p) as [df|]; [|reflexivity].
  destruct (iloc_setrow df i a) as [df'|e]; reflexivity.
Qed.

(** What the loop leaves when it ends without an exception: the rows it
    was to fill hold the trials' weights under the column labels, every
    other row is as it was. *)
Lemma for_range_store_trial :
  forall (c i : nat) (p p' : Portfolio.t) (rs rs' : RandomState) (df : DataFrame),
    Portfolio.allocation_trials p = Some df ->
    (i + c <= List.length (data df))%nat ->
    for_range i c Portfolio.store_trial (p, rs) = (Return tt, (p', rs')) ->
    Portfolio.stocks p' = Portfolio.stocks p /\
    Portfolio.mean_allocations p' = Portfolio.mean_allocations p /\
    rs' = rng_before_trial p rs c /\
    exists df' : DataFrame,
      Portfolio.allocation_trials p' = Some df' /\
      columns df' = columns df /\
      List.length (data df') = List.length (data df) /\
      (forall t, (t < i)%nat -> nth_error (data df') t = nth_error (data df) t) /\
      (forall t, (t < c)%nat ->
         exists a : dict scalar,
           fst (Portfolio._allocate_once p (rng_before_trial p rs t)) = Return a /\
           nth_error (data df') (i + t) = Some (reindex a (columns df))).
Proof.
  induction c as [|c IH]; intros i p p' rs rs' df Hdf Hlen H.
  - cbn in H. injection H as <- <-.
    repeat split; try reflexivity.
    exists df. repeat split; try assumption; try reflexivity.
    intros t Ht. lia.
  - cbn [for_range] in H.
    destruct (Portfolio.store_trial i (p, rs)) as [[[]|e] [p1 rs1]] eqn:B;
      [erewrite bind_Return in H by exact B
      |erewrite bind_Raise in H by exact B; discriminate].
    rewrite store_trial_run, Hdf in B.
    destruct (Portfolio._allocate_once p rs) as [[a|e] rs2] eqn:A;
      [|discriminate].
    unfold iloc_setrow in B.
    assert (L : (i <? List.length (data df))%nat = true)
      by (apply Nat.ltb_lt; lia).
    rewrite L in B. injection B as <- <-.
    set (df1 := {| columns := columns df;
                   data := replace_nth i (reindex a (columns df)) (data df) |})
      in *.
    assert (S1 : Portfolio.stocks p = Portfolio.stocks (with_trials p df1))
      by reflexivity.
    apply (IH (S i) (with_trials p df1) p' rs2 rs' df1) in H;
      [|reflexivity|cbn [data df1]; rewrite replace_nth_length; lia].
    destruct H as [Hs [Hm [Hr [df' [Ht [Hc [Hl [Hlow Hrows]]]]]]]].
    split; [rewrite Hs; reflexivity|].
    split; [rewrite Hm; reflexivity|].
    split.
    { rewrite Hr, rng_before_trial_S, A. cbn [snd].
      symmetry. apply rng_before_trial_stocks. exact S1. }
    exists df'. split; [exact Ht|]. split; [exact Hc|].
    split; [rewrite Hl; cbn [data df1]; apply replace_nth_length|].
    split.
    { intros t Hlt. rewrite Hlow by lia. cbn [data df1].
      apply replace_nth_other. lia. }
    intros [|t] Hlt.
    + exists a. change (rng_before_trial p rs 0) with rs.
      rewrite A. split; [reflexivity|].
      rewrite Nat.add_0_r, Hlow by lia. cbn [data df1].
      apply replace_nth_same. lia.
    + destruct (Hrows t ltac:(lia)) as [a' [Ha' Hn]].
      exists a'. split.
      * rewrite rng_before_trial_S, A. cbn [snd].
        rewrite (allocate_once_stocks p (with_trials p df1) S1).
        rewrite (rng_before_trial_stocks p (with_trials p df1) _ _ S1).
        exact Ha'.
      * replace (i + S t)%nat with (S i + t)%nat by lia. exact Hn.
Qed.

(** ** A whole run of [allocate] *)

(** The matrix of zeros [allocate] starts from. *)
Lemma allocate_run :
  forall (iterations : Z) (p : Portfolio.t) (rs : RandomState),
    Portfolio.allocate iterations (p, rs)
    = if (iterations <? 0)%Z then (Raise ValueError, (p, rs))
      else
        match for_range 0 (Z.to_nat iterations) Portfolio.store_trial
                (with_trials p (zero_frame iterations (Portfolio.stocks p)), rs)
        with
        | (Raise e, w) => (Raise e, w)
        | (Return _, (p1, rs1)) =>
            match Portfolio.allocation_trials p1 with
            | None => (Raise AttributeError, (p1, rs1))
            | Some df => (Return tt, (with_mean p1 (Some (DataFrame_mean df)), rs1))
            end
        end.
Proof.
  intros iterations p rs.
  unfold Portfolio.allocate, np_zeros.
  unfold bind at 1. unfold Portfolio.this at 1. cbn [fst snd].
  unfold bind at 1. unfold lift at 1.
  destruct (iterations <? 0)%Z; [reflexivity|].
  unfold bind at 1. unfold Portfolio.set_allocation_trials at 1. cbn [fst snd].
  fold (zero_frame iterations (Portfolio.stocks p)).
  change {| Portfolio.stocks := Portfolio.stocks p;
            Portfolio.allocation_trials :=
              Some (zero_frame iterations (Portfolio.stocks p));
            Portfolio.mean_allocations := Portfolio.mean_allocations p |}
    with (with_trials p (zero_frame iterations (Portfolio.stocks p))).
  unfold bind at 1.
  destruct (for_range 0 (Z.to_nat iterations) Portfolio.store_trial
              (with_trials p (zero_frame iterations (Portfolio.stocks p)), rs))
    as [[[]|e] [p1 rs1]]; [|reflexivity].
  unfold bind, Portfolio.this, lift, Portfolio.get_allocation_trials,
    Portfolio.set_mean_allocations. cbn [fst snd].
  unfold with_mean.
  destruct (Portfolio.allocation_trials p1); reflexivity.
Qed.

Lemma zero_frame_rows :
  forall (iterations : Z) (stocks : dict Stock.t),
    List.length (data (zero_frame iterations stocks)) = Z.to_nat iterations.
Proof.
  intros iterations stocks. unfold zero_frame. cbn [data].
  apply repeat_length.
Qed.

(** What a run that ends without an exception leaves behind. *)
Lemma allocate_returns :
  forall (iterations : Z) (p p' : Portfolio.t) (rs rs' : RandomState),
    Portfolio.allocate iterations (p, rs) = (Return tt, (p', rs')) ->
    Portfolio.stocks p' = Portfolio.stocks p /\
    rs' = rng_before_trial p rs (Z.to_nat iterations) /\
    exists df : DataFrame,
      Portfolio.allocation_trials p' = Some df /\
      Portfolio.mean_allocations p' = Some (DataFrame_mean df) /\
      columns df = keys (Portfolio.stocks p) /\
      List.length (data df) = Z.to_nat iterations /\
      (forall t, (t < Z.to_nat iterations)%nat ->
         exists a : dict scalar,
           fst (Portfolio._allocate_once p (rng_before_trial p rs t)) = Return a /\
           nth_error (data df) t = Some (reindex a (keys (Portfolio.stocks p)))).
Proof.
  intros iterations p p' rs rs' H. rewrite allocate_run in H.
  destruct (iterations <? 0)%Z; [discriminate|].
  set (p0 := with_trials p (zero_frame iterations (Portfolio.stocks p))) in *.
  assert (S0 : Portfolio.stocks p = Portfolio.stocks p0) by reflexivity.
  destruct (for_range 0 (Z.to_nat iterations) Portfolio.store_trial (p0, rs))
    as [[[]|e] [p1 rs1]] eqn:L; [|discriminate].
  apply (for_range_store_trial _ _ _ _ _ _
           (zero_frame iterations (Portfolio.stocks p))) in L;
    [|reflexivity|rewrite zero_frame_rows; lia].
  destruct L as [Hs [_ [Hr [df [Ht [Hc [Hl [_ Hrows]]]]]]]].
  rewrite Ht in H. injection H as <- <-.
  split; [exact Hs|]. split.
  { rewrite Hr. symmetry. apply rng_before_trial_stocks. exact S0. }
  exists df. split; [exact Ht|]. split; [reflexivity|].
  split; [exact Hc|]. split; [rewrite Hl; apply zero_frame_rows|].
  intros t Hlt. destruct (Hrows t Hlt) as [a [Ha Hn]].
  exists a. split.
  - rewrite (allocate_once_stocks p p0 S0).
    rewrite (rng_before_trial_stocks p p0 _ _ S0). exact Ha.
  - exact Hn.
Qed.

(** The mean of a frame without rows. *)
Lemma mean_of_no_rows :
  forall cs : list string,
    DataFrame_mean {| columns := cs; data := [] |} = map (fun c => (c, NaN)) cs.
Proof.
  intros cs. unfold DataFrame_mean. cbn [columns data column map nanmean filter].
  generalize 0%nat. induction cs as [|c cs IH]; intros n.
  - reflexivity.
  - cbn [List.length seq combine map fst snd]. rewrite IH. reflexivity.
Qed.

(** C10. With no iteration asked for, [allocate] returns: the trial matrix
    has the stocks' names for columns and no row, nothing is drawn from
    the generator, and the mean allocation of every stock is NaN. *)
Theorem allocate_zero_iterations :
  forall (self : Portfolio.t) (rs : RandomState),
    Portfolio.stocks self <> [] ->
    Portfolio.allocate 0 (self, rs)
    = (Return tt,
       ({| Portfolio.stocks := Portfolio.stocks self;
           Portfolio.allocation_trials :=
             Some {| columns := keys (Portfolio.stocks self); data := [] |};
           Portfolio.mean_allocations :=
             Some (map (fun stock => (stock, NaN))
                       (keys (Portfolio.stocks self))) |},
        rs)).
Proof.
  intros self rs _. rewrite allocate_run.
  cbn [Z.ltb Z.compare Z.to_nat for_range ret].
  unfold with_trials, zero_frame, with_mean.
  cbn [Portfolio.allocation_trials Portfolio.stocks Portfolio.mean_allocations
       Z.to_nat repeat].
  rewrite mean_of_no_rows. reflexivity.
Qed.

Lemma allocate_zero_iterations_witness :
  Portfolio.stocks sample_portfolio <> [] /\
  Portfolio.allocate 0 (sample_portfolio, generator [])
  = (Return tt,
     ({| Portfolio.stocks := Portfolio.stocks sample_portfolio;
         Portfolio.allocation_trials :=
           Some {| columns := keys (Portfolio.stocks sample_portfolio);
                   data := [] |};
         Portfolio.mean_allocations :=
           Some (map (fun stock => (stock, NaN))
                     (keys (Portfolio.stocks sample_portfolio))) |},
      generator [])).
Proof.
  assert (H : Portfolio.stocks sample_portfolio <> []).
  { intros E. apply (f_equal (@List.length _)) in E. vm_compute in E.
    discriminate E. }
  split; [exact H|].
  exact (allocate_zero_iterations sample_portfolio (generator []) H).
Defined.

(** ** Earlier results do not survive a run *)

Lemma store_trial_mean :
  forall (i : nat) (p : Portfolio.t) (m : option Series) (rs : RandomState),
    Portfolio.store_trial i (with_mean p m, rs)
    = (fst (Portfolio.store_trial i (p, rs)),
       (with_mean (fst (snd (Portfolio.store_trial i (p, rs)))) m,
        snd (snd (Portfolio.store_trial i (p, rs))))).
Proof.
  intros i p m rs. rewrite !store_trial_run.
  rewrite (allocate_once_stocks (with_mean p m) p) by reflexivity.
  destruct (Portfolio._allocate_once p rs) as [[a|e] rs1]; [|reflexivity].
  cbn [with_mean Portfolio.allocation_trials].
  destruct (Portfolio.allocation_trials p) as [df|]; [|reflexivity].
  destruct (iloc_setrow df i a); reflexivity.
Qed.

Lemma for_range_mean :
  forall (c i : nat) (p : Portfolio.t) (m : option Series) (rs : RandomState),
    for_range i c Portfolio.store_trial (with_mean p m, rs)
    = (fst (for_range i c Portfolio.store_trial (p, rs)),
       (with_mean (fst (snd (for_range i c Portfolio.store_trial (p, rs)))) m,
        snd (snd (for_range i c Portfolio.store_trial (p, rs))))).
Proof.
  induction c as [|c IH]; intros i p m rs.
  - reflexivity.
  - cbn [for_range]. unfold bind. rewrite store_trial_mean.
    destruct (Portfolio.store_trial i (p, rs)) as [[[]|e] [p1 rs1]];
      cbn [fst snd]; [|reflexivity].
    apply IH.
Qed.

Lemma for_range_stocks :
  forall (c i : nat) (p : Portfolio.t) (rs : RandomState),
    Portfolio.stocks (fst (snd (for_range i c Portfolio.store_trial (p, rs))))
    = Portfolio.stocks p.
Proof.
  induction c as [|c IH]; intros i p rs.
  - reflexivity.
  - cbn [for_range]. unfold bind. rewrite store_trial_run.
    destruct (Portfolio._allocate_once p rs) as [[a|e] rs1]; [|reflexivity].
    destruct (Portfolio.allocation_trials p) as [df|]; [|reflexivity].
    destruct (iloc_setrow df i a) as [df'|e]; [|reflexivity].
    rewrite IH. reflexivity.
Qed.

(** A run of [allocate] never touches the stocks; given the stocks
    and the generator, what it does owes nothing to the trial matrix and
    the mean vector an earlier run left: the outcome, the generator and
    (for a non-negative count) the new trial matrix are the same, and a
    run that returns has replaced the mean vector by the mean of the new
    matrix. *)
Lemma allocate_forgets_results :
  forall (stocks : dict Stock.t) (trials1 trials2 : option DataFrame)
         (mean1 mean2 : option Series) (rs : RandomState) (iterations : Z),
    let run1 :=
      Portfolio.allocate iterations
        ({| Portfolio.stocks := stocks;
            Portfolio.allocation_trials := trials1;
            Portfolio.mean_allocations := mean1 |}, rs) in
    let run2 :=
      Portfolio.allocate iterations
        ({| Portfolio.stocks := stocks;
            Portfolio.allocation_trials := trials2;
            Portfolio.mean_allocations := mean2 |}, rs) in
    Portfolio.stocks (fst (snd run1)) = stocks /\
    fst run1 = fst run2 /\
    snd (snd run1) = snd (snd run2) /\
    ((0 <= iterations)%Z ->
     Portfolio.allocation_trials (fst (snd run1))
     = Portfolio.allocation_trials (fst (snd run2))) /\
    (fst run1 = Return tt ->
     Portfolio.mean_allocations (fst (snd run1))
     = Portfolio.mean_allocations (fst (snd run2)) /\
     exists df : DataFrame,
       Portfolio.allocation_trials (fst (snd run1)) = Some df /\
       Portfolio.mean_allocations (fst (snd run1)) = Some (DataFrame_mean df)).
Proof.
  intros stocks trials1 trials2 mean1 mean2 rs iterations run1 run2.
  subst run1 run2. rewrite !allocate_run.
  cbn [Portfolio.stocks].
  destruct (iterations <? 0)%Z eqn:Neg.
  { cbn [fst snd Portfolio.stocks]. repeat split; try reflexivity.
    - intros H. apply Z.ltb_lt in Neg. lia.
    - discriminate.
    - discriminate. }
  set (p0 := with_trials
               {| Portfolio.stocks := stocks;
                  Portfolio.allocation_trials := trials1;
                  Portfolio.mean_allocations := mean1 |}
               (zero_frame iterations stocks)).
  change (with_trials
            {| Portfolio.stocks := stocks;
               Portfolio.allocation_trials := trials2;
               Portfolio.mean_allocations := mean2 |}
            (zero_frame iterations stocks))
    with (with_mean p0 mean2).
  rewrite for_range_mean.
  pose proof (for_range_stocks (Z.to_nat iterations) 0 p0 rs) as Hs.
  destruct (for_range 0 (Z.to_nat iterations) Portfolio.store_trial (p0, rs))
    as [[[]|e] [p1 rs1]]; cbn [fst snd] in *.
  - cbn [with_mean Portfolio.allocation_trials].
    destruct (Portfolio.allocation_trials p1) as [df|] eqn:T; cbn [fst snd].
    + cbn [with_mean Portfolio.stocks Portfolio.allocation_trials
           Portfolio.mean_allocations].
      rewrite T. repeat split; try reflexivity; try assumption.
      exists df. split; reflexivity.
    + cbn [with_mean Portfolio.stocks Portfolio.allocation_trials
           Portfolio.mean_allocations].
      rewrite T. repeat split; try reflexivity; try assumption;
        discriminate.
  - cbn [with_mean Portfolio.stocks Portfolio.allocation_trials].
    repeat split; try reflexivity; try assumption; discriminate.
Qed.

(** The loop of [allocate], however it ends: the stocks and the mean
    vector are as they were, the trial matrix keeps its columns and its
    number of rows. *)
Lemma for_range_frame :
  forall (c i : nat) (p : Portfolio.t) (rs : RandomState) (df : DataFrame),
    Portfolio.allocation_trials p = Some df ->
    (i + c <= List.length (data df))%nat ->
    exists (o : outcome unit) (p' : Portfolio.t) (rs' : RandomState)
           (df' : DataFrame),
      for_range i c Portfolio.store_trial (p, rs) = (o, (p', rs')) /\
      Portfolio.stocks p' = Portfolio.stocks p /\
      Portfolio.mean_allocations p' = Portfolio.mean_allocations p /\
      Portfolio.allocation_trials p' = Some df' /\
      columns df' = columns df /\
      List.length (data df') = List.length (data df).
Proof.
  induction c as [|c IH]; intros i p rs df Hdf Hlen.
  - exists (Return tt), p, rs, df. cbn [for_range ret]. repeat split; auto.
  - cbn [for_range]. unfold bind at 1. rewrite store_trial_run, Hdf.
    destruct (Portfolio._allocate_once p rs) as [[a|e] rs1].
    + unfold iloc_setrow.
      assert (L : (i <? List.length (data df))%nat = true)
        by (apply Nat.ltb_lt; lia).
      rewrite L.
      set (df1 := {| columns := columns df;
                     data := replace_nth i (reindex a (columns df)) (data df) |}).
      destruct (IH (S i) (with_trials p df1) rs1 df1 eq_refl)
        as [o [p' [rs' [df' [H [Hs [Hm [Ht [Hc Hl]]]]]]]]].
      { cbn [data df1]. rewrite replace_nth_length. lia. }
      exists o, p', rs', df'. split; [exact H|].
      split; [exact Hs|]. split; [exact Hm|]. split; [exact Ht|].
      split; [exact Hc|].
      rewrite Hl. cbn [data df1]. apply replace_nth_length.
    + exists (Raise e), p, rs1, df. repeat split; auto.
Qed.

(** What a run that raises leaves behind. *)
Lemma allocate_raises_frame :
  forall (iterations : Z) (p p' : Portfolio.t) (rs rs' : RandomState) (e : exn),
    Portfolio.allocate iterations (p, rs) = (Raise e, (p', rs')) ->
    Portfolio.mean_allocations p' = Portfolio.mean_allocations p /\
    ((iterations < 0)%Z -> p' = p /\ rs' = rs) /\
    ((0 <= iterations)%Z ->
     exists df : DataFrame,
       Portfolio.allocation_trials p' = Some df /\
       columns df = keys (Portfolio.stocks p) /\
       List.length (data df) = Z.to_nat iterations).
Proof.
  intros iterations p p' rs rs' e H. rewrite allocate_run in H.
  destruct (iterations <? 0)%Z eqn:Neg.
  { injection H as _ <- <-. apply Z.ltb_lt in Neg.
    repeat split; try reflexivity. intros F. lia. }
  apply Z.ltb_ge in Neg.
  destruct (for_range_frame (Z.to_nat iterations) 0
              (with_trials p (zero_frame iterations (Portfolio.stocks p))) rs
              (zero_frame iterations (Portfolio.stocks p)) eq_refl)
    as [o [p1 [rs1 [df [L [_ [Hm [Ht [Hc Hl]]]]]]]]].
  { rewrite zero_frame_rows. lia. }
  rewrite L in H. destruct o as [[]|e1].
  - rewrite Ht in H. discriminate.
  - injection H as _ <- <-.
    split; [exact Hm|]. split; [intros F; lia|]. intros _.
    exists df. split; [exact Ht|]. split; [exact Hc|].
    rewrite Hl. apply zero_frame_rows.
Qed.

(** C9, as the code has it. An invocation of [allocate] never touches
    the stocks, and nothing of the trial matrix and the mean vector an
    earlier invocation left enters what it does: outcome and generator
    are those of the same invocation on a portfolio just built. An
    invocation that returns has replaced both results: the new matrix
    has the stocks' names for columns and one row per trial, row [t]
    holding the weights of trial [t], and the new mean vector is the
    mean of the new matrix. An invocation that raises has kept the
    earlier mean vector; with a negative count it has kept the earlier
    matrix too, otherwise the matrix is already the new frame. *)
Theorem allocate_overwrites_results :
  forall (stocks : dict Stock.t) (trials0 : option DataFrame)
         (mean0 : option Series) (rs rs' : RandomState) (iterations : Z)
         (o : outcome unit) (self' : Portfolio.t),
    Portfolio.allocate iterations
      ({| Portfolio.stocks := stocks;
          Portfolio.allocation_trials := trials0;
          Portfolio.mean_allocations := mean0 |}, rs)
    = (o, (self', rs')) ->
    Portfolio.stocks self' = stocks /\
    fst (Portfolio.allocate iterations (Portfolio.__init__ stocks, rs)) = o /\
    snd (snd (Portfolio.allocate iterations (Portfolio.__init__ stocks, rs)))
    = rs' /\
    match o with
    | Return _ =>
        exists df : DataFrame,
          Portfolio.allocation_trials self' = Some df /\
          Portfolio.mean_allocations self' = Some (DataFrame_mean df) /\
          columns df = keys stocks /\
          List.length (data df) = Z.to_nat iterations /\
          (forall t : nat,
              (t < Z.to_nat iterations)%nat ->
              exists a : dict scalar,
                fst (Portfolio._allocate_once (Portfolio.__init__ stocks)
                       (rng_before_trial (Portfolio.__init__ stocks) rs t))
                = Return a /\
                nth_error (data df) t = Some (reindex a (keys stocks)))
    | Raise _ =>
        Portfolio.mean_allocations self' = mean0 /\
        ((iterations < 0)%Z ->
         Portfolio.allocation_trials self' = trials0 /\ rs' = rs) /\
        ((0 <= iterations)%Z ->
         exists df : DataFrame,
           Portfolio.allocation_trials self' = Some df /\
           columns df = keys stocks /\
           List.length (data df) = Z.to_nat iterations)
    end.
Proof.
  intros stocks trials0 mean0 rs rs' iterations o self' H.
  set (p := {| Portfolio.stocks := stocks;
               Portfolio.allocation_trials := trials0;
               Portfolio.mean_allocations := mean0 |}) in *.
  assert (S0 : Portfolio.stocks p = Portfolio.stocks (Portfolio.__init__ stocks))
    by reflexivity.
  destruct (allocate_forgets_results stocks trials0 None mean0 None rs iterations)
    as [Hs [Ho [Hr _]]].
  fold p in Hs, Ho, Hr.
  change {| Portfolio.stocks := stocks;
            Portfolio.allocation_trials := None;
            Portfolio.mean_allocations := None |}
    with (Portfolio.__init__ stocks) in Ho, Hr.
  rewrite H in Hs, Ho, Hr. cbn [fst snd] in Hs, Ho, Hr.
  split; [exact Hs|]. split; [symmetry; exact Ho|].
  split; [symmetry; exact Hr|].
  destruct o as [[]|e].
  - destruct (allocate_returns _ _ _ _ _ H)
      as [_ [_ [df [HT [HM [HC [HL Hrows]]]]]]].
    exists df. split; [exact HT|]. split; [exact HM|].
    split; [exact HC|]. split; [exact HL|].
    intros t Hlt. destruct (Hrows t Hlt) as [a [Ha Hn]].
    exists a. split; [|exact Hn].
    rewrite <- (allocate_once_stocks p (Portfolio.__init__ stocks) S0).
    rewrite <- (rng_before_trial_stocks p (Portfolio.__init__ stocks) _ _ S0).
    exact Ha.
  - destruct (allocate_raises_frame _ _ _ _ _ _ H) as [Hm [Hneg Hnn]].
    split; [exact Hm|]. split.
    + intros F. destruct (Hneg F) as [-> ->]. split; reflexivity.
    + exact Hnn.
Qed.

Lemma allocate_overwrites_results_witness :
  exists (self' : Portfolio.t) (rs' : RandomState),
    Portfolio.allocate 2
      ({| Portfolio.stocks := sample_stocks;
          Portfolio.allocation_trials :=
            Some {| columns := ["OLD"%string]; data := [[Num.one]] |};
          Portfolio.mean_allocations := Some [("OLD"%string, Num.one)] |},
       generator [])
    = (Return tt, (self', rs')) /\
    Portfolio.stocks self' = sample_stocks /\
    exists df : DataFrame,
      Portfolio.allocation_trials self' = Some df /\
      Portfolio.mean_allocations self' = Some (DataFrame_mean df) /\
      columns df = keys sample_stocks /\
      List.length (data df) = Z.to_nat 2.
Proof.
  do 2 eexists. split; [lazy; reflexivity|].
  pose proof (allocate_overwrites_results sample_stocks
                (Some {| columns := ["OLD"%string]; data := [[Num.one]] |})
                (Some [("OLD"%string, Num.one)])
                (generator []) _ 2 (Return tt) _
                ltac:(lazy; reflexivity)) as H.
  destruct H as [Hs [_ [_ [df [HT [HM [HC [HL _]]]]]]]].
  split; [exact Hs|]. exists df. auto.
Defined.

(** C9, the claim as written fails: not every invocation overwrites the
    mean vector. A first invocation returns and sets it; in the second
    the first stock draws the cash flow 0, the division of its price by
    it raises [ZeroDivisionError], and the portfolio is left with the
    mean vector of the first invocation beside the trial matrix of the
    second. *)
Lemma raising_run_keeps_earlier_mean :
  exists (p1 p2 : Portfolio.t) (rs1 rs2 : RandomState) (mean1 : Series),
    Portfolio.allocate 1 (sample_portfolio, generator [(8%nat, -2)])
    = (Return tt, (p1, rs1)) /\
    Portfolio.mean_allocations p1 = Some mean1 /\
    Portfolio.allocate 1 (p1, rs1) = (Raise ZeroDivisionError, (p2, rs2)) /\
    Portfolio.mean_allocations p2 = Some mean1 /\
    Portfolio.allocation_trials p2 <> Portfolio.allocation_trials p1.
Proof.
  do 5 eexists.
  split; [lazy; reflexivity|].
  split; [lazy; reflexivity|].
  split; [lazy; reflexivity|].
  split; [lazy; reflexivity|].
  lazy. intros E. discriminate E.
Qed.

(** ** The rows of the trial matrix *)

Lemma combine_keys_values :
  forall (V W : Type) (f : V -> W) (d : dict V),
    combine (keys d) (map f (values d)) = map (fun kv => (fst kv, f (snd kv))) d.
Proof.
  intros V W f d. induction d as [|[k v] d IH]; cbn.
  - reflexivity.
  - f_equal. exact IH.
Qed.

Lemma lookup_map_values :
  forall (V W : Type) (f : V -> W) (k : string) (d : dict V),
    lookup k (map (fun kv => (fst kv, f (snd kv))) d) = option_map f (lookup k d).
Proof.
  intros V W f k d. induction d as [|[k' v] d IH]; cbn.
  - reflexivity.
  - destruct (String.eqb k k'); [reflexivity|exact IH].
Qed.

(** Row [t] of the matrix a run leaves is the normalised ratios of trial
    [t], stock by stock. *)
Lemma trial_row :
  forall (self self' : Portfolio.t) (rs rs' rs_t : RandomState) (iterations : Z)
         (t : nat) (ratios : dict scalar),
    NoDup (keys (Portfolio.stocks self)) ->
    Portfolio.allocate iterations (self, rs) = (Return tt, (self', rs')) ->
    (t < Z.to_nat iterations)%nat ->
    Portfolio.roll_ratios self (rng_before_trial self rs t) = (Return ratios, rs_t) ->
    exists df : DataFrame,
      Portfolio.allocation_trials self' = Some df /\
      Portfolio.mean_allocations self' = Some (DataFrame_mean df) /\
      columns df = keys ratios /\
      nth_error (data df) t = Some (map val (values (normalised ratios))) /\
      (forall stock,
          entry df t stock = option_map val (lookup stock (normalised ratios))).
Proof.
  intros self self' rs rs' rs_t iterations t ratios N H Ht R.
  destruct (allocate_returns _ _ _ _ _ H) as [_ [_ [df [HT [HM [HC [_ Hrows]]]]]]].
  destruct (Hrows t Ht) as [a [Ha Hrow]].
  rewrite (allocate_once_run self _ N), R in Ha. cbn [fst] in Ha.
  injection Ha as <-.
  pose proof (roll_ratios_keys _ _ _ _ N R) as K.
  assert (Row : nth_error (data df) t = Some (map val (values (normalised ratios)))).
  { rewrite Hrow, <- K, <- (keys_normalised ratios).
    rewrite reindex_own_keys; [reflexivity|].
    rewrite keys_normalised, K. exact N. }
  exists df. split; [exact HT|]. split; [exact HM|].
  split; [rewrite HC, K; reflexivity|]. split; [exact Row|].
  intros stock. unfold entry. rewrite Row, HC, <- K, <- (keys_normalised ratios).
  rewrite combine_keys_values. apply lookup_map_values.
Qed.

(** C1. In a run of [allocate] that returns, take any trial whose ratios
    sum to a nonzero number: the weight stored for each stock is the
    stock's ratio divided by the sum, and the weights of the row sum to
    exactly 1. *)
Theorem trial_weights_normalised :
  forall (self self' : Portfolio.t) (rs rs' rs_t : RandomState) (iterations : Z)
         (t : nat) (ratios : dict scalar) (sum : Qc),
    NoDup (keys (Portfolio.stocks self)) ->
    Portfolio.allocate iterations (self, rs) = (Return tt, (self', rs')) ->
    (t < Z.to_nat iterations)%nat ->
    Portfolio.roll_ratios self (rng_before_trial self rs t) = (Return ratios, rs_t) ->
    val (np_sum (values ratios)) = Fin sum ->
    sum <> Q2Qc 0 ->
    exists (df : DataFrame) (row : list num),
      Portfolio.allocation_trials self' = Some df /\
      nth_error (data df) t = Some row /\
      (forall (stock : string) (ratio : scalar),
          In (stock, ratio) ratios ->
          exists q : Qc,
            val ratio = Fin q /\ entry df t stock = Some (Fin (q / sum))) /\
      Num.sum row = Num.one.
Proof.
  intros self self' rs rs' rs_t iterations t ratios sum N H Ht R Hsum Hnz.
  destruct (trial_row _ _ _ _ _ _ _ _ N H Ht R) as [df [HT [_ [_ [Row E]]]]].
  destruct (normalised_weights ratios sum Hsum Hnz) as [W S1].
  exists df, (map val (values (normalised ratios))).
  split; [exact HT|]. split; [exact Row|]. split; [|exact S1].
  intros stock ratio Hin. destruct (W stock ratio Hin) as [q [Hq Hw]].
  exists q. split; [exact Hq|]. rewrite E.
  rewrite (lookup_NoDup _ _ _ _
             ltac:(rewrite keys_normalised,
                     (roll_ratios_keys _ _ _ _ N R); exact N) Hw).
  reflexivity.
Qed.

Lemma sample_stocks_distinct : NoDup (keys (Portfolio.stocks sample_portfolio)).
Proof.
  change (keys (Portfolio.stocks sample_portfolio)) with (keys sample_stocks).
  assert (E : keys sample_stocks = ["NVO"%string; "LLY"%string])
    by (vm_compute; reflexivity).
  rewrite E. constructor.
  - intros [F|[]]. discriminate F.
  - constructor; [intros []|constructor].
Defined.

Lemma Qc_nonzero_compute :
  forall q : Qc, Qc_eq_bool q (Q2Qc 0) = false -> q <> Q2Qc 0.
Proof.
  intros q H E. unfold Qc_eq_bool in H.
  destruct (Qc_eq_dec q (Q2Qc 0)); [discriminate|contradiction].
Defined.

Lemma trial_weights_normalised_witness :
  exists (self' : Portfolio.t) (rs' rs_t : RandomState) (ratios : dict scalar)
         (sum : Qc),
    NoDup (keys (Portfolio.stocks sample_portfolio)) /\
    Portfolio.allocate 2 (sample_portfolio, generator [])
    = (Return tt, (self', rs')) /\
    (1 < Z.to_nat 2)%nat /\
    Portfolio.roll_ratios sample_portfolio
      (rng_before_trial sample_portfolio (generator []) 1)
    = (Return ratios, rs_t) /\
    val (np_sum (values ratios)) = Fin sum /\
    sum <> Q2Qc 0 /\
    exists (df : DataFrame) (row : list num),
      Portfolio.allocation_trials self' = Some df /\
      nth_error (data df) 1 = Some row /\
      (forall (stock : string) (ratio : scalar),
          In (stock, ratio) ratios ->
          exists q : Qc,
            val ratio = Fin q /\ entry df 1 stock = Some (Fin (q / sum))) /\
      Num.sum row = Num.one.
Proof.
  do 5 eexists.
  split; [exact sample_stocks_distinct|].
  split; [lazy; reflexivity|].
  split; [cbn; lia|].
  split; [lazy; reflexivity|].
  split; [lazy; reflexivity|].
  split; [apply Qc_nonzero_compute; reflexivity|].
  eapply (trial_weights_normalised sample_portfolio _ (generator []) _ _ 2 1);
    [ exact sample_stocks_distinct | lazy; reflexivity | cbn; lia
    | lazy; reflexivity | lazy; reflexivity
    | apply Qc_nonzero_compute; reflexivity ].
Defined.

(** ** The column means *)

Lemma lookup_combine_nth :
  forall (cols : list string) (row : list num) (j : nat) (c : string),
    NoDup cols ->
    nth_error cols j = Some c ->
    List.length row = List.length cols ->
    lookup c (combine cols row) = nth_error row j.
Proof.
  induction cols as [|c0 cols IH]; intros row j c N Hj Hl.
  - destruct j; discriminate.
  - destruct row as [|x row]; [discriminate|].
    inversion N as [|? ? Hn N']; subst.
    destruct j as [|j]; cbn in *.
    + injection Hj as ->. rewrite String.eqb_refl. reflexivity.
    + destruct (String.eqb c c0) eqn:E.
      * apply String.eqb_eq in E. subst c0. exfalso. apply Hn.
        apply nth_error_In in Hj. exact Hj.
      * apply IH; [exact N'|exact Hj|lia].
Qed.

Lemma mean_by_label :
  forall (F : nat -> num) (G : string -> num) (cols : list string) (s : nat),
    (forall j c, nth_error cols j = Some c -> F (s + j)%nat = G c) ->
    map (fun jc => (snd jc, F (fst jc))) (combine (seq s (List.length cols)) cols)
    = map (fun c => (c, G c)) cols.
Proof.
  intros F G cols. induction cols as [|c cols IH]; intros s H.
  - reflexivity.
  - cbn [List.length seq combine map fst snd]. f_equal.
    + f_equal. rewrite <- (H 0%nat c eq_refl). f_equal. lia.
    + apply IH. intros j c' Hj. rewrite <- (H (S j) c' Hj). f_equal. lia.
Qed.

Lemma lookup_tabulate :
  forall (G : string -> num) (cols : list string) (c : string),
    In c cols -> lookup c (map (fun c => (c, G c)) cols) = Some (G c).
Proof.
  intros G cols c. induction cols as [|c0 cols IH]; cbn.
  - intros [].
  - intros H. destruct (String.eqb c c0) eqn:E.
    + apply String.eqb_eq in E. subst c0. reflexivity.
    + destruct H as [->|H]; [rewrite String.eqb_refl in E; discriminate|].
      apply IH. exact H.
Qed.

(** The mean vector holds, under each column's label, the mean of that
    column. *)
Lemma mean_of_column :
  forall (df : DataFrame) (stock : string),
    NoDup (columns df) ->
    (forall row, In row (data df) ->
                 List.length row = List.length (columns df)) ->
    In stock (columns df) ->
    lookup stock (DataFrame_mean df) = Some (nanmean (column_of df stock)).
Proof.
  intros df stock N L Hin. unfold DataFrame_mean.
  rewrite (mean_by_label (fun j => nanmean (column j (data df)))
             (fun c => nanmean (column_of df c))).
  - apply lookup_tabulate. exact Hin.
  - intros j c Hj. cbn [Nat.add]. f_equal. unfold column, column_of.
    apply map_ext_in. intros row Hrow.
    rewrite (lookup_combine_nth _ row j c N Hj (L row Hrow)).
    destruct (nth_error row j) as [x|] eqn:E.
    + apply nth_error_nth. exact E.
    + apply nth_overflow. apply nth_error_None. exact E.
Qed.

Lemma filter_drop_nan :
  forall (xs : list num) (t : nat),
    nth_error xs t = Some NaN ->
    filter (fun x => negb (Num.is_nan x)) (drop_nth t xs)
    = filter (fun x => negb (Num.is_nan x)) xs.
Proof.
  induction xs as [|x xs IH]; intros [|t] H; try discriminate.
  - cbn in H. injection H as ->. reflexivity.
  - cbn in H. change (drop_nth (S t) (x :: xs)) with (x :: drop_nth t xs).
    cbn [filter]. rewrite (IH t H). reflexivity.
Qed.

(** A NaN entry does not count in the mean of its column. *)
Lemma nanmean_drop_nan :
  forall (xs : list num) (t : nat),
    nth_error xs t = Some NaN -> nanmean xs = nanmean (drop_nth t xs).
Proof.
  intros xs t H. unfold nanmean. rewrite (filter_drop_nan xs t H). reflexivity.
Qed.

Lemma add_nonfinite_r :
  forall a b : num, Num.is_finite b = false -> Num.is_finite (Num.add a b) = false.
Proof.
  intros [x| | |] [y| | |]; simpl; congruence.
Qed.

Lemma fold_add_in_nonfinite :
  forall (l : list num) (a w : num),
    In w l -> Num.is_finite w = false ->
    Num.is_finite (fold_left Num.add l a) = false.
Proof.
  induction l as [|x l IH]; intros a w Hin Hw.
  - destruct Hin.
  - cbn [fold_left]. destruct Hin as [->|Hin].
    + apply fold_add_nonfinite. apply add_nonfinite_r. exact Hw.
    + apply (IH _ w Hin Hw).
Qed.

Lemma div_nonfinite :
  forall (a : num) (n : nat),
    Num.is_finite a = false -> Num.is_finite (Num.div a (Num.of_nat n)) = false.
Proof.
  intros [x| | |] n H; try discriminate; cbn;
    try destruct (Num.sgn _); reflexivity.
Qed.

(** An infinite entry makes the mean of its column infinite or NaN. *)
Lemma nanmean_inf :
  forall (xs : list num) (w : num),
    In w xs -> Num.is_finite w = false -> Num.is_nan w = false ->
    Num.is_finite (nanmean xs) = false.
Proof.
  intros xs w Hin Hf Hn. unfold nanmean.
  assert (Hy : In w (filter (fun x => negb (Num.is_nan x)) xs)).
  { apply filter_In. split; [exact Hin|]. rewrite Hn. reflexivity. }
  destruct (filter (fun x => negb (Num.is_nan x)) xs) as [|y ys] eqn:E.
  - destruct Hy.
  - apply div_nonfinite. unfold Num.sum.
    apply (fold_add_in_nonfinite _ _ w Hy Hf).
Qed.

Lemma div_by_zero :
  forall q : Qc,
    Num.is_finite (Num.div (Fin q) Num.zero) = false /\
    Num.is_nan (Num.div (Fin q) Num.zero) = Num.is_zero (Fin q).
Proof.
  intros q. unfold Num.div, Num.zero, Num.is_zero.
  change (Num.sgn (Q2Qc 0)) with Eq. cbn iota.
  destruct (Num.sgn q); split; reflexivity.
Qed.

(** C2, as the code has it. In a run of [allocate] that returns, take a
    trial whose ratios sum to 0. That trial raised nothing, and every
    weight of its row is not finite: NaN where the stock's ratio is 0, an
    infinity otherwise. The mean of a stock is the mean of its column
    without the NaN entries: a NaN weight leaves the mean what it is
    without that trial, an infinite weight makes it infinite or NaN. *)
Theorem zero_sum_trial :
  forall (self self' : Portfolio.t) (rs rs' rs_t : RandomState) (iterations : Z)
         (t : nat) (ratios : dict scalar),
    NoDup (keys (Portfolio.stocks self)) ->
    Portfolio.allocate iterations (self, rs) = (Return tt, (self', rs')) ->
    (t < Z.to_nat iterations)%nat ->
    Portfolio.roll_ratios self (rng_before_trial self rs t) = (Return ratios, rs_t) ->
    val (np_sum (values ratios)) = Num.zero ->
    fst (Portfolio._allocate_once self (rng_before_trial self rs t))
    = Return (normalised ratios) /\
    exists (df : DataFrame) (mean : Series),
      Portfolio.allocation_trials self' = Some df /\
      Portfolio.mean_allocations self' = Some mean /\
      forall (stock : string) (ratio : scalar),
        In (stock, ratio) ratios ->
        exists w : num,
          entry df t stock = Some w /\
          Num.is_finite w = false /\
          Num.is_nan w = Num.is_zero (val ratio) /\
          lookup stock mean = Some (nanmean (column_of df stock)) /\
          (Num.is_nan w = true ->
           nanmean (column_of df stock)
           = nanmean (drop_nth t (column_of df stock))) /\
          (Num.is_nan w = false ->
           Num.is_finite (nanmean (column_of df stock)) = false).
Proof.
  intros self self' rs rs' rs_t iterations t ratios N H Ht R Hsum.
  split; [rewrite (allocate_once_run self _ N), R; reflexivity|].
  destruct (trial_row _ _ _ _ _ _ _ _ N H Ht R) as [df [HT [HM [HC [Row E]]]]].
  pose proof (roll_ratios_keys _ _ _ _ N R) as K.
  exists df, (DataFrame_mean df). split; [exact HT|]. split; [exact HM|].
  intros stock ratio Hin.
  assert (Hfin : Num.is_finite (val ratio) = true).
  { cbn [np_sum val] in Hsum. unfold Num.sum, Num.zero in Hsum.
    apply (fold_add_finite _ _ _ Hsum). unfold values. rewrite map_map.
    apply (in_map (fun x => val (snd x))) in Hin. exact Hin. }
  destruct (val ratio) as [q| | |] eqn:Eq; try discriminate.
  assert (Hw : In (stock, Scalar Np (Num.div (Fin q) Num.zero)) (normalised ratios)).
  { unfold normalised. rewrite Hsum.
    apply (in_map (fun kr => (fst kr, Scalar Np (Num.div (val (snd kr)) Num.zero))))
      in Hin.
    cbn [fst snd] in Hin. rewrite Eq in Hin. exact Hin. }
  assert (Nn : NoDup (keys (normalised ratios)))
    by (rewrite keys_normalised, K; exact N).
  assert (Ent : entry df t stock = Some (Num.div (Fin q) Num.zero)).
  { rewrite E, (lookup_NoDup _ _ _ _ Nn Hw). reflexivity. }
  destruct (div_by_zero q) as [D1 D2].
  assert (Col : nth_error (column_of df stock) t = Some (Num.div (Fin q) Num.zero)).
  { unfold column_of. rewrite nth_error_map.
    unfold entry in Ent. destruct (nth_error (data df) t) as [row|];
      [|discriminate].
    cbn [option_map]. rewrite Ent. reflexivity. }
  exists (Num.div (Fin q) Num.zero).
  split; [exact Ent|]. split; [exact D1|]. split; [exact D2|].
  split.
  { destruct (allocate_returns _ _ _ _ _ H)
      as [_ [_ [df0 [HT0 [_ [HC0 [HL0 Hrows]]]]]]].
    rewrite HT in HT0. injection HT0 as <-.
    apply mean_of_column.
    - rewrite HC0. exact N.
    - intros row Hrow. apply In_nth_error in Hrow. destruct Hrow as [i Hi].
      assert (Hlt : (i < Z.to_nat iterations)%nat).
      { rewrite <- HL0. apply nth_error_Some. rewrite Hi. discriminate. }
      destruct (Hrows i Hlt) as [a [_ Ha]]. rewrite Ha in Hi.
      injection Hi as <-. unfold reindex. rewrite length_map, HC0. reflexivity.
    - rewrite HC. apply (in_map fst) in Hin. exact Hin. }
  split.
  - intros Hnan. apply nanmean_drop_nan.
    destruct (Num.div (Fin q) Num.zero); try discriminate. exact Col.
  - intros Hnan. apply (nanmean_inf _ (Num.div (Fin q) Num.zero)).
    + apply nth_error_In in Col. exact Col.
    + exact D1.
    + exact Hnan.
Qed.

Lemma is_zero_eq : forall x : num, Num.is_zero x = true -> x = Num.zero.
Proof.
  intros [q| | |] H; try discriminate.
  apply is_zero_Fin in H. rewrite H. reflexivity.
Defined.

Lemma zero_sum_trial_witness :
  exists (self' : Portfolio.t) (rs' rs_t : RandomState) (ratios : dict scalar),
    NoDup (keys (Portfolio.stocks sample_portfolio)) /\
    Portfolio.allocate 2 (sample_portfolio, generator [(1%nat, -3); (4%nat, -3)])
    = (Return tt, (self', rs')) /\
    (0 < Z.to_nat 2)%nat /\
    Portfolio.roll_ratios sample_portfolio
      (rng_before_trial sample_portfolio (generator [(1%nat, -3); (4%nat, -3)]) 0)
    = (Return ratios, rs_t) /\
    val (np_sum (values ratios)) = Num.zero /\
    fst (Portfolio._allocate_once sample_portfolio
           (rng_before_trial sample_portfolio (generator [(1%nat, -3); (4%nat, -3)]) 0))
    = Return (normalised ratios).
Proof.
  do 4 eexists.
  split; [exact sample_stocks_distinct|].
  split; [lazy; reflexivity|].
  split; [cbn; lia|].
  split; [lazy; reflexivity|].
  split; [apply is_zero_eq; reflexivity|].
  eapply (zero_sum_trial sample_portfolio _ (generator [(1%nat, -3); (4%nat, -3)]) _ _ 2 0);
    [ exact sample_stocks_distinct | lazy; reflexivity | cbn; lia
    | lazy; reflexivity | apply is_zero_eq; reflexivity ].
Defined.

(** C2, the claim as written fails. Two trials of the sample portfolio:
    in the first, both plowback draws are clamped to 0, so both ratios
    are 0 and sum to 0, and the row of weights is NaN throughout; the run
    returns, and the mean allocation of each stock is a finite number. *)
Lemma nan_row_leaves_mean_finite :
  exists (self' : Portfolio.t) (rs' rs_t : RandomState) (ratios : dict scalar)
         (df : DataFrame) (mean : Series),
    Portfolio.allocate 2 (sample_portfolio, generator [(1%nat, -3); (4%nat, -3)])
    = (Return tt, (self', rs')) /\
    Portfolio.roll_ratios sample_portfolio
      (rng_before_trial sample_portfolio (generator [(1%nat, -3); (4%nat, -3)]) 0)
    = (Return ratios, rs_t) /\
    Num.is_zero (val (np_sum (values ratios))) = true /\
    Portfolio.allocation_trials self' = Some df /\
    nth_error (data df) 0 = Some [NaN; NaN] /\
    Portfolio.mean_allocations self' = Some mean /\
    keys mean = ["NVO"%string; "LLY"%string] /\
    forallb Num.is_finite (map snd mean) = true.
Proof.
  do 6 eexists.
  split; [lazy; reflexivity|].
  split; [lazy; reflexivity|].
  split; [reflexivity|].
  split; [lazy; reflexivity|].
  split; [reflexivity|].
  split; [lazy; reflexivity|].
  split; reflexivity.
Qed.

(** ** When a run returns *)

Lemma lookup_Some_In :
  forall (V : Type) (k : string) (v : V) (d : dict V),
    lookup k d = Some v -> In (k, v) d.
Proof.
  intros V k v d. induction d as [|[k' v'] d IH]; cbn.
  - discriminate.
  - destruct (String.eqb k k') eqn:E.
    + intros H. injection H as ->. apply String.eqb_eq in E. subst k'.
      left. reflexivity.
    + intros H. right. apply IH. exact H.
Qed.

Lemma roll_once_returns :
  forall (s : Stock.t) (rs : RandomState),
    never_raises s = true ->
    exists t, Stock.roll_once s rs = (Return t, advance 3 rs).
Proof.
  intros s rs H. unfold never_raises in H.
  apply andb_true_iff in H. destruct H as [Hs Hk].
  rewrite (roll_once_run s rs Hs).
  rewrite truediv_np_l
    by (destruct (kind_of (Stock.price s)); [discriminate|reflexivity]).
  eexists. reflexivity.
Qed.

Lemma roll_ratios_loop_returns :
  forall (stocks : dict Stock.t) (ks : list string) (acc : dict scalar)
         (rs : RandomState),
    (forall k s, In (k, s) stocks -> never_raises s = true) ->
    (forall k, In k ks -> In k (keys stocks)) ->
    exists (ratios : dict scalar) (rs' : RandomState),
      for_each ks
        (fun stock ratios =>
           s <- lift (getitem stocks stock) ;;
           ' (growth, value, ratio) <- Stock.roll_once s ;;
           ret (setitem ratios stock ratio))
        acc rs
      = (Return ratios, rs').
Proof.
  intros stocks ks. induction ks as [|k ks IH]; intros acc rs Hok Hin.
  - exists acc, rs. reflexivity.
  - destruct (lookup_In _ k stocks (Hin k (or_introl eq_refl))) as [s Hs].
    destruct (roll_once_returns s rs (Hok k s (lookup_Some_In _ _ _ _ Hs)))
      as [[[g v] r] Hr].
    destruct (IH (setitem acc k r) (advance 3 rs) Hok
                (fun k' H => Hin k' (or_intror H))) as [d [rs' Hd]].
    exists d, rs'. cbn [for_each].
    unfold bind at 1. unfold bind at 1. unfold lift at 1. unfold getitem.
    rewrite Hs. unfold bind at 1. rewrite Hr. unfold ret at 1. exact Hd.
Qed.

Lemma allocate_once_returns :
  forall (p : Portfolio.t) (rs : RandomState),
    NoDup (keys (Portfolio.stocks p)) ->
    (forall k s, In (k, s) (Portfolio.stocks p) -> never_raises s = true) ->
    exists (a : dict scalar) (rs' : RandomState),
      Portfolio._allocate_once p rs = (Return a, rs').
Proof.
  intros p rs N Hok. rewrite (allocate_once_run p rs N).
  unfold Portfolio.roll_ratios.
  destruct (roll_ratios_loop_returns (Portfolio.stocks p)
              (keys (Portfolio.stocks p)) [] rs Hok (fun k H => H))
    as [d [rs' Hd]].
  rewrite Hd. eauto.
Qed.

Lemma for_range_returns :
  forall (c i : nat) (p : Portfolio.t) (rs : RandomState) (df : DataFrame),
    NoDup (keys (Portfolio.stocks p)) ->
    (forall k s, In (k, s) (Portfolio.stocks p) -> never_raises s = true) ->
    Portfolio.allocation_trials p = Some df ->
    (i + c <= List.length (data df))%nat ->
    exists (p' : Portfolio.t) (rs' : RandomState),
      for_range i c Portfolio.store_trial (p, rs) = (Return tt, (p', rs')).
Proof.
  induction c as [|c IH]; intros i p rs df N Hok Hdf Hlen.
  - exists p, rs. reflexivity.
  - destruct (allocate_once_returns p rs N Hok) as [a [rs1 Ha]].
    assert (L : (i <? List.length (data df))%nat = true)
      by (apply Nat.ltb_lt; lia).
    set (df1 := {| columns := columns df;
                   data := replace_nth i (reindex a (columns df)) (data df) |}).
    assert (B : Portfolio.store_trial i (p, rs)
                = (Return tt, (with_trials p df1, rs1))).
    { rewrite store_trial_run, Ha, Hdf. unfold iloc_setrow. rewrite L.
      reflexivity. }
    destruct (IH (S i) (with_trials p df1) rs1 df1 N Hok eq_refl) as [p' [rs' H]].
    { cbn [data df1]. rewrite replace_nth_length. lia. }
    exists p', rs'. cbn [for_range]. erewrite bind_Return by exact B. exact H.
Qed.

(** A run over stocks whose rolls cannot raise, for a count that is not
    negative, returns. *)
Lemma allocate_total :
  forall (iterations : Z) (p : Portfolio.t) (rs : RandomState),
    (0 <= iterations)%Z ->
    NoDup (keys (Portfolio.stocks p)) ->
    (forall k s, In (k, s) (Portfolio.stocks p) -> never_raises s = true) ->
    exists (p' : Portfolio.t) (rs' : RandomState),
      Portfolio.allocate iterations (p, rs) = (Return tt, (p', rs')).
Proof.
  intros iterations p rs Hn N Hok. rewrite allocate_run.
  destruct (iterations <? 0)%Z eqn:E; [apply Z.ltb_lt in E; lia|].
  destruct (for_range_returns (Z.to_nat iterations) 0
              (with_trials p (zero_frame iterations (Portfolio.stocks p))) rs
              (zero_frame iterations (Portfolio.stocks p)) N Hok eq_refl)
    as [p1 [rs1 H]].
  { rewrite zero_frame_rows. lia. }
  rewrite H.
  apply (for_range_store_trial _ _ _ _ _ _
           (zero_frame iterations (Portfolio.stocks p))) in H;
    [|reflexivity|rewrite zero_frame_rows; lia].
  destruct H as [_ [_ [_ [df [Ht _]]]]]. rewrite Ht. eauto.
Qed.

(** * Further properties of the code *)

(** ** What a run draws, and what it can raise *)

Lemma advance_advance :
  forall (a b : nat) (rs : RandomState),
    advance a (advance b rs) = advance (a + b) rs.
Proof.
  intros a b rs. unfold advance. cbn [gauss pos]. f_equal. lia.
Qed.

Lemma advance_0 : forall rs : RandomState, advance 0 rs = rs.
Proof.
  intros [g p]. reflexivity.
Qed.

(** A refused standard deviation: [ValueError], after the draws made
    before it. *)
Lemma roll_once_refused :
  forall (s : Stock.t) (rs : RandomState),
    scales_accepted s = false ->
    exists n : nat,
      (n <= 2)%nat /\ Stock.roll_once s rs = (Raise ValueError, advance n rs).
Proof.
  intros s rs H. unfold scales_accepted in H.
  unfold Stock.roll_once, bind.
  rewrite np_random_normal_run.
  destruct (Num.ltb (val (Stock.vl_return_on_total_capital_std_dev s)) Num.zero).
  { exists 0%nat. rewrite advance_0. split; [lia|reflexivity]. }
  rewrite np_random_normal_run.
  destruct (Num.ltb (val (Stock.vl_retained_earnings_plowback_ratio_std_dev s))
                    Num.zero).
  { exists 1%nat. split; [lia|reflexivity]. }
  rewrite np_random_normal_run.
  destruct (Num.ltb (val (Stock.vl_cash_flow_per_share_std_dev s)) Num.zero).
  { exists 2%nat. split; [lia|reflexivity]. }
  discriminate H.
Qed.

(** One roll: three variates and a triple, or one of two exceptions. *)
Lemma roll_once_outcome :
  forall (s : Stock.t) (rs : RandomState),
    (exists t, Stock.roll_once s rs = (Return t, advance 3 rs)) \/
    (exists e rs',
        Stock.roll_once s rs = (Raise e, rs') /\
        (e = ValueError \/ e = ZeroDivisionError)).
Proof.
  intros s rs. destruct (scales_accepted s) eqn:A.
  - rewrite (roll_once_run s rs A).
    destruct (truediv (Stock.price s) (Scalar Py (drawn_cash_flow s rs)))
      as [v|e] eqn:T.
    + left. eexists. reflexivity.
    + right. exists e, (advance 3 rs). split; [reflexivity|].
      right. apply truediv_raises in T. tauto.
  - right. destruct (roll_once_refused s rs A) as [n [_ H]].
    exists ValueError, (advance n rs). split; [exact H|]. left. reflexivity.
Qed.

(** The first loop of a trial: three variates per stock, or one of the
    two exceptions of a roll. *)
Lemma roll_loop_outcome :
  forall (stocks : dict Stock.t) (ks : list string) (acc : dict scalar)
         (rs : RandomState),
    (forall k, In k ks -> In k (keys stocks)) ->
    match
      for_each ks
        (fun stock ratios =>
           s <- lift (getitem stocks stock) ;;
           ' (growth, value, ratio) <- Stock.roll_once s ;;
           ret (setitem ratios stock ratio))
        acc rs
    with
    | (Return _, rs') => rs' = advance (3 * List.length ks) rs
    | (Raise e, _) => e = ValueError \/ e = ZeroDivisionError
    end.
Proof.
  intros stocks ks. induction ks as [|k ks IH]; intros acc rs Hin.
  - cbn. rewrite advance_0. reflexivity.
  - destruct (lookup_In _ k stocks (Hin k (or_introl eq_refl))) as [s Hs].
    cbn [for_each].
    unfold bind at 1. unfold bind at 1. unfold lift at 1. unfold getitem at 1.
    rewrite Hs. unfold bind at 1.
    destruct (roll_once_outcome s rs) as [[[[g v] r] H]|[e [rs' [H He]]]];
      rewrite H.
    + unfold ret at 1.
      specialize (IH (setitem acc k r) (advance 3 rs)
                    (fun k' H' => Hin k' (or_intror H'))).
      match type of IH with
      | match ?x with _ => _ end => destruct x as [[d|e] rs']
      end; cbv beta iota in IH |- *.
      * rewrite IH, advance_advance. f_equal. cbn [List.length]. lia.
      * exact IH.
    + exact He.
Qed.

Lemma allocate_once_outcome :
  forall (p : Portfolio.t) (rs : RandomState),
    NoDup (keys (Portfolio.stocks p)) ->
    match Portfolio._allocate_once p rs with
    | (Return _, rs') => rs' = advance (3 * List.length (Portfolio.stocks p)) rs
    | (Raise e, _) => e = ValueError \/ e = ZeroDivisionError
    end.
Proof.
  intros p rs N. rewrite (allocate_once_run p rs N).
  pose proof (roll_loop_outcome (Portfolio.stocks p) (keys (Portfolio.stocks p))
                [] rs (fun k H => H)) as L.
  unfold Portfolio.roll_ratios.
  match type of L with
  | match ?x with _ => _ end => destruct x as [[d|e] rs']
  end; cbv beta iota in L |- *.
  - rewrite L. unfold keys. rewrite length_map. reflexivity.
  - exact L.
Qed.

(** The loop of [allocate], however it ends: the stocks and the mean
    vector are as they were, the trial matrix has the columns and the
    number of rows it had; an end without exception has drawn three
    variates per stock and trial, an exception is one of the two a roll
    can raise. *)
Lemma for_range_outcome :
  forall (c i : nat) (p : Portfolio.t) (rs : RandomState) (df : DataFrame),
    NoDup (keys (Portfolio.stocks p)) ->
    Portfolio.allocation_trials p = Some df ->
    (i + c <= List.length (data df))%nat ->
    exists (o : outcome unit) (p' : Portfolio.t) (rs' : RandomState)
           (df' : DataFrame),
      for_range i c Portfolio.store_trial (p, rs) = (o, (p', rs')) /\
      Portfolio.stocks p' = Portfolio.stocks p /\
      Portfolio.mean_allocations p' = Portfolio.mean_allocations p /\
      Portfolio.allocation_trials p' = Some df' /\
      columns df' = columns df /\
      List.length (data df') = List.length (data df) /\
      match o with
      | Return _ => rs' = advance (3 * List.length (Portfolio.stocks p) * c) rs
      | Raise e => e = ValueError \/ e = ZeroDivisionError
      end.
Proof.
  induction c as [|c IH]; intros i p rs df N Hdf Hlen.
  - exists (Return tt), p, rs, df. cbn [for_range ret].
    rewrite Nat.mul_0_r, advance_0. repeat split; auto.
  - cbn [for_range]. unfold bind at 1. rewrite store_trial_run, Hdf.
    pose proof (allocate_once_outcome p rs N) as A.
    destruct (Portfolio._allocate_once p rs) as [[a|e] rs1].
    + unfold iloc_setrow.
      assert (L : (i <? List.length (data df))%nat = true)
        by (apply Nat.ltb_lt; lia).
      rewrite L.
      set (df1 := {| columns := columns df;
                     data := replace_nth i (reindex a (columns df)) (data df) |}).
      destruct (IH (S i) (with_trials p df1) rs1 df1 N eq_refl)
        as [o [p' [rs' [df' [H [Hs [Hm [Ht [Hc [Hl Ho]]]]]]]]]].
      { cbn [data df1]. rewrite replace_nth_length. lia. }
      exists o, p', rs', df'. split; [exact H|].
      split; [exact Hs|]. split; [exact Hm|]. split; [exact Ht|].
      split; [exact Hc|].
      split; [rewrite Hl; cbn [data df1]; apply replace_nth_length|].
      destruct o as [u|e]; [|exact Ho].
      rewrite Ho, A, advance_advance. f_equal.
      cbn [with_trials Portfolio.stocks]. lia.
    + exists (Raise e), p, rs1, df. repeat split; auto.
Qed.

(** X1. A run of [allocate] that returns has drawn exactly three variates
    for each stock in each trial, and has not changed the variates to
    come. *)
Theorem allocate_draws :
  forall (iterations : Z) (p p' : Portfolio.t) (rs rs' : RandomState),
    NoDup (keys (Portfolio.stocks p)) ->
    Portfolio.allocate iterations (p, rs) = (Return tt, (p', rs')) ->
    gauss rs' = gauss rs /\
    pos rs'
    = (pos rs + 3 * List.length (Portfolio.stocks p) * Z.to_nat iterations)%nat.
Proof.
  intros iterations p p' rs rs' N H. rewrite allocate_run in H.
  destruct (iterations <? 0)%Z; [discriminate|].
  destruct (for_range_outcome (Z.to_nat iterations) 0
              (with_trials p (zero_frame iterations (Portfolio.stocks p))) rs
              (zero_frame iterations (Portfolio.stocks p)) N eq_refl)
    as [o [p1 [rs1 [df [L [_ [_ [Ht [_ [_ Ho]]]]]]]]]].
  { rewrite zero_frame_rows. lia. }
  rewrite L in H. destruct o as [[]|e]; [|discriminate].
  rewrite Ht in H. injection H as _ <-. rewrite Ho.
  cbn [with_trials Portfolio.stocks advance gauss pos].
  split; [reflexivity|lia].
Qed.

Lemma allocate_draws_witness :
  exists (p' : Portfolio.t) (rs' : RandomState),
    NoDup (keys (Portfolio.stocks sample_portfolio)) /\
    Portfolio.allocate 2 (sample_portfolio, generator [])
    = (Return tt, (p', rs')) /\
    gauss rs' = gauss (generator []) /\
    pos rs'
    = (pos (generator [])
       + 3 * List.length (Portfolio.stocks sample_portfolio) * Z.to_nat 2)%nat.
Proof.
  do 2 eexists.
  split; [exact sample_stocks_distinct|].
  split; [lazy; reflexivity|].
  eapply (allocate_draws 2 sample_portfolio);
    [exact sample_stocks_distinct | lazy; reflexivity].
Defined.

(** X2. A run of [allocate] raises nothing but [ValueError] (a negative
    count, a negative standard deviation) or [ZeroDivisionError] (a price
    divided by a drawn cash flow of 0): the lookups by stock name and the
    stores by row number cannot fail. *)
Theorem allocate_raises_only :
  forall (iterations : Z) (p p' : Portfolio.t) (rs rs' : RandomState) (e : exn),
    NoDup (keys (Portfolio.stocks p)) ->
    Portfolio.allocate iterations (p, rs) = (Raise e, (p', rs')) ->
    e = ValueError \/ e = ZeroDivisionError.
Proof.
  intros iterations p p' rs rs' e N H. rewrite allocate_run in H.
  destruct (iterations <? 0)%Z.
  { injection H as <- _ _. left. reflexivity. }
  destruct (for_range_outcome (Z.to_nat iterations) 0
              (with_trials p (zero_frame iterations (Portfolio.stocks p))) rs
              (zero_frame iterations (Portfolio.stocks p)) N eq_refl)
    as [o [p1 [rs1 [df [L [_ [_ [Ht [_ [_ Ho]]]]]]]]]].
  { rewrite zero_frame_rows. lia. }
  rewrite L in H. destruct o as [[]|e1].
  - rewrite Ht in H. discriminate.
  - injection H as <- _ _. exact Ho.
Qed.

Lemma portfolio_with_ZM_distinct :
  NoDup (keys (Portfolio.stocks portfolio_with_ZM)).
Proof.
  assert (E : keys (Portfolio.stocks portfolio_with_ZM)
              = ["NVO"%string; "ZM"%string]) by (vm_compute; reflexivity).
  rewrite E. constructor.
  - intros [F|[]]. discriminate F.
  - constructor; [intros []|constructor].
Defined.

Lemma allocate_raises_only_witness :
  exists (p' : Portfolio.t) (rs' : RandomState) (e : exn),
    NoDup (keys (Portfolio.stocks portfolio_with_ZM)) /\
    Portfolio.allocate 3 (portfolio_with_ZM, generator [])
    = (Raise e, (p', rs')) /\
    (e = ValueError \/ e = ZeroDivisionError).
Proof.
  do 3 eexists.
  split; [exact portfolio_with_ZM_distinct|].
  split; [lazy; reflexivity|].
  eapply (allocate_raises_only 3 portfolio_with_ZM _ (generator []));
    [exact portfolio_with_ZM_distinct | lazy; reflexivity].
Defined.

(** X3. A run of [allocate] that raises leaves the stocks and the mean
    vector of the earlier run as they were. With a negative count nothing
    at all has changed; otherwise the trial matrix is already the new
    frame, one column per stock and one row per trial asked for. *)
Theorem allocate_failure_keeps_mean :
  forall (iterations : Z) (p p' : Portfolio.t) (rs rs' : RandomState) (e : exn),
    NoDup (keys (Portfolio.stocks p)) ->
    Portfolio.allocate iterations (p, rs) = (Raise e, (p', rs')) ->
    Portfolio.stocks p' = Portfolio.stocks p /\
    Portfolio.mean_allocations p' = Portfolio.mean_allocations p /\
    ((iterations < 0)%Z -> p' = p /\ rs' = rs) /\
    ((0 <= iterations)%Z ->
     exists df : DataFrame,
       Portfolio.allocation_trials p' = Some df /\
       columns df = keys (Portfolio.stocks p) /\
       List.length (data df) = Z.to_nat iterations).
Proof.
  intros iterations p p' rs rs' e N H. rewrite allocate_run in H.
  destruct (iterations <? 0)%Z eqn:Neg.
  { injection H as _ <- <-. apply Z.ltb_lt in Neg.
    repeat split; try reflexivity. intros F. lia. }
  apply Z.ltb_ge in Neg.
  destruct (for_range_outcome (Z.to_nat iterations) 0
              (with_trials p (zero_frame iterations (Portfolio.stocks p))) rs
              (zero_frame iterations (Portfolio.stocks p)) N eq_refl)
    as [o [p1 [rs1 [df [L [Hs [Hm [Ht [Hc [Hl _]]]]]]]]]].
  { rewrite zero_frame_rows. lia. }
  rewrite L in H. destruct o as [[]|e1].
  - rewrite Ht in H. discriminate.
  - injection H as _ <- <-.
    split; [exact Hs|]. split; [exact Hm|].
    split; [intros F; lia|]. intros _.
    exists df. split; [exact Ht|]. split; [exact Hc|].
    rewrite Hl. apply zero_frame_rows.
Qed.

Lemma allocate_failure_keeps_mean_witness :
  exists (p' : Portfolio.t) (rs' : RandomState) (e : exn),
    NoDup (keys (Portfolio.stocks portfolio_with_ZM)) /\
    Portfolio.allocate 3 (portfolio_with_ZM, generator [])
    = (Raise e, (p', rs')) /\
    Portfolio.stocks p' = Portfolio.stocks portfolio_with_ZM /\
    Portfolio.mean_allocations p' = Portfolio.mean_allocations portfolio_with_ZM.
Proof.
  do 3 eexists.
  split; [exact portfolio_with_ZM_distinct|].
  split; [lazy; reflexivity|].
  pose proof (allocate_failure_keeps_mean 3 portfolio_with_ZM _
                (generator []) _ _ portfolio_with_ZM_distinct
                ltac:(lazy; reflexivity)) as H.
  split; [exact (proj1 H)|exact (proj1 (proj2 H))].
Defined.

(** ** Stocks that cannot be built, stocks that cannot be rolled *)

(** From canonical rationals to rationals, where the arithmetic
    tactics work. *)
Ltac qc2q :=
  unfold Qclt, Qcle, Qcdiv, Qcminus, Qcplus, Qcmult, Qcopp, Qcinv, Q2Qc in *;
  cbn [this] in *; rewrite ?Qred_correct in *.

Lemma ltb_Fin_neg : forall q : Qc, q < Q2Qc 0 -> Num.ltb (Fin q) Num.zero = true.
Proof.
  intros q H. unfold Num.ltb, Num.zero.
  rewrite (proj1 (Qclt_alt q (Q2Qc 0)) H). reflexivity.
Qed.

(** X4. A stock whose return on total capital is negative, while its
    earnings predictability is below 10/9 (so that the dispersion factor
    is positive), has a negative standard deviation: every roll raises
    [ValueError] before it draws anything. *)
Theorem negative_rotc_cannot_be_rolled :
  forall (row : Stock.Row) (s : Stock.t) (e r : Qc) (rs : RandomState),
    Stock.__init__ row = Return s ->
    val (Stock.vl_earnings_predictability s) = Fin e ->
    e < Q2Qc (10 # 9) ->
    val (Stock.vl_return_on_total_capital s) = Fin r ->
    r < Q2Qc 0 ->
    Stock.roll_once s rs = (Raise ValueError, rs).
Proof.
  intros row s e r rs H He Hlt Hr Hneg.
  destruct (init_inv row s H) as [_ [Hd _]].
  unfold Stock.roll_once, bind. rewrite np_random_normal_run.
  rewrite Hd. cbn [Stock._derive_distributions
                     Stock.vl_return_on_total_capital_std_dev
                     val mul_ sub_ binop py dec].
  rewrite He, Hr. unfold dec. cbn [Num.mul Num.sub Num.add Num.opp].
  rewrite ltb_Fin_neg; [reflexivity|].
  qc2q. nra.
Qed.

Lemma negative_rotc_cannot_be_rolled_witness :
  exists (s : Stock.t) (e r : Qc),
    Stock.__init__ row_LOSS = Return s /\
    val (Stock.vl_earnings_predictability s) = Fin e /\
    e < Q2Qc (10 # 9) /\
    val (Stock.vl_return_on_total_capital s) = Fin r /\
    r < Q2Qc 0 /\
    Stock.roll_once s (generator []) = (Raise ValueError, generator []).
Proof.
  do 3 eexists.
  split; [lazy; reflexivity|].
  split; [lazy; reflexivity|]. split; [reflexivity|].
  split; [lazy; reflexivity|]. split; [reflexivity|].
  eapply (negative_rotc_cannot_be_rolled row_LOSS);
    [ lazy; reflexivity | lazy; reflexivity | reflexivity
    | lazy; reflexivity | reflexivity ].
Defined.

Lemma kind_Py :
  forall x : scalar,
    match kind_of x with Py => true | Np => false end = true -> kind_of x = Py.
Proof.
  intros [[|] v]; [reflexivity|discriminate].
Qed.

(** The kinds of the two operands of the last division of
    [_calculate_wacc], for a row of Python numbers. *)
Lemma python_row_python_wacc :
  forall (row : Stock.Row) (self : Stock.Attributes),
    Stock.attributes_of_row row = Return self ->
    python_cells row = true ->
    exists n : scalar,
      kind_of n = Py /\
      kind_of (Stock.total_capital self) = Py /\
      Stock._calculate_wacc self = truediv n (Stock.total_capital self).
Proof.
  intros row self Hrow Hpy.
  unfold Stock.attributes_of_row in Hrow.
  rewrite !truediv_100 in Hrow. cbn [obind] in Hrow.
  injection Hrow as <-.
  unfold python_cells in Hpy. cbn [forallb] in Hpy.
  repeat (apply andb_true_iff in Hpy; destruct Hpy as [? Hpy]).
  repeat match goal with
         | H : match kind_of _ with Py => true | Np => false end = true |- _ =>
             apply kind_Py in H
         end.
  unfold Stock._calculate_wacc.
  rewrite cost_of_debt_returns, cost_of_preferred_returns. cbn [obind].
  eexists. split; [|split; [|reflexivity]].
  - unfold gt. cbn [Stock.long_term_debt_balance Stock.preferred_stock
                      Stock.long_term_interest_payment Stock.tax_rate
                      Stock.preferred_dividend Stock.cost_of_equity
                      Stock.us_treasury_note_risk_free_yield_10y Stock.beta
                      Stock.us_equities_exp_real_return_10y
                      Stock.common_shares_outstanding Stock.price
                      add_ mul_ sub_ binop kind_of py].
    repeat match goal with H : kind_of _ = Py |- _ => rewrite H; clear H end.
    destruct (Num.gtb _ _); destruct (Num.gtb _ _); reflexivity.
  - unfold Stock.total_capital.
    cbn [Stock.long_term_debt_balance Stock.preferred_stock
         Stock.common_shares_outstanding Stock.price
         add_ mul_ binop kind_of py].
    repeat match goal with H : kind_of _ = Py |- _ => rewrite H; clear H end.
    reflexivity.
Qed.

(** X5. The constructor can fail in one way only, a [ZeroDivisionError]
    on a total capital of 0. For a row of Python numbers it fails exactly
    then: a zero total capital raises, it does not give an infinite or
    NaN cost of capital. *)
Theorem init_fails_on_zero_capital :
  forall (row : Stock.Row) (self : Stock.Attributes),
    Stock.attributes_of_row row = Return self ->
    (forall e : exn,
        Stock.__init__ row = Raise e ->
        e = ZeroDivisionError /\ Num.is_zero (spec_total_capital self) = true) /\
    (python_cells row = true ->
     Num.is_zero (spec_total_capital self) = true ->
     Stock.__init__ row = Raise ZeroDivisionError).
Proof.
  intros row self Hrow. split.
  - intros e H. unfold Stock.__init__ in H. rewrite Hrow in H. cbn [obind] in H.
    destruct (calculate_wacc_unfold self) as [n [_ E]]. rewrite E in H.
    destruct (truediv n (Stock.total_capital self)) as [w|e'] eqn:T;
      [discriminate|].
    cbn [obind] in H. injection H as <-.
    apply truediv_raises in T. tauto.
  - intros Hpy Hz.
    destruct (python_row_python_wacc row self Hrow Hpy) as [n [Kn [Kt E]]].
    unfold Stock.__init__. rewrite Hrow. cbn [obind]. rewrite E.
    unfold truediv. rewrite Kn, Kt. cbn [kjoin].
    change (val (Stock.total_capital self)) with (spec_total_capital self).
    rewrite Hz. reflexivity.
Qed.

Lemma init_fails_on_zero_capital_witness :
  exists self : Stock.Attributes,
    Stock.attributes_of_row row_SHELL = Return self /\
    python_cells row_SHELL = true /\
    Num.is_zero (spec_total_capital self) = true /\
    Stock.__init__ row_SHELL = Raise ZeroDivisionError.
Proof.
  eexists. split; [lazy; reflexivity|].
  split; [reflexivity|]. split; [reflexivity|].
  eapply (init_fails_on_zero_capital row_SHELL);
    [lazy; reflexivity | reflexivity | reflexivity].
Defined.

(** ** Rolls that give nothing *)

Lemma clamp01_nonpos :
  forall q : Qc, q <= Q2Qc 0 -> clamp01 (Fin q) = Num.zero.
Proof.
  intros q H. unfold clamp01.
  destruct (Num.ltb (Fin q) Num.zero) eqn:L; [reflexivity|].
  destruct (Num.ltb Num.one (Fin q)) eqn:M.
  - exfalso. unfold Num.ltb, Num.one in M.
    destruct (Qccompare (Q2Qc 1) q) eqn:C; try discriminate.
    apply Qclt_alt in C. apply (Qcle_not_lt _ _ H).
    apply (Qclt_trans _ (Q2Qc 1)); [reflexivity|exact C].
  - unfold Num.ltb, Num.zero in L.
    destruct (Qccompare q (Q2Qc 0)) eqn:C; try discriminate.
    + apply Qceq_alt in C. subst q. reflexivity.
    + apply Qcgt_alt in C. exfalso. exact (Qcle_not_lt _ _ H C).
Qed.

(** X11. A roll whose drawn plowback ratio is not positive gives the
    stock nothing: whatever the drawn return on total capital, the growth
    rate is 0 and so is the ratio of growth to price/cash flow, as long
    as the draws, the cost of capital and the price are finite and price
    and drawn cash flow are not 0. *)
Theorem no_plowback_no_ratio :
  forall (s : Stock.t) (rs rs' : RandomState) (growth multiple ratio : scalar)
         (plowback rotc wacc price cash : Qc),
    Stock.roll_once s rs = (Return (growth, multiple, ratio), rs') ->
    drawn_plowback s rs = Fin plowback ->
    plowback <= Q2Qc 0 ->
    drawn_rotc s rs = Fin rotc ->
    val (Stock.weighted_average_cost_of_capital s) = Fin wacc ->
    val (Stock.price s) = Fin price ->
    price <> Q2Qc 0 ->
    drawn_cash_flow s rs = Fin cash ->
    cash <> Q2Qc 0 ->
    val growth = Num.zero /\ val ratio = Num.zero.
Proof.
  intros s rs rs' growth multiple ratio plowback rotc wacc price cash
         H Hp Hle Hr Hw Hpr Hprnz Hc Hcnz.
  pose proof (roll_once_accepts s rs rs' _ H) as Hs.
  rewrite (roll_once_run s rs Hs) in H.
  destruct (truediv (Stock.price s) (Scalar Py (drawn_cash_flow s rs)))
    as [v|e] eqn:T; [|discriminate].
  apply truediv_val in T. cbn [val] in T. rewrite Hpr, Hc in T.
  rewrite (div_Fin _ _ Hcnz) in T.
  injection H as <- <- <- _.
  assert (G : val (rolled_growth s rs) = Num.zero).
  { unfold rolled_growth. cbn [val]. rewrite Hr, Hw, Hp.
    rewrite (clamp01_nonpos _ Hle). unfold dec, Num.zero.
    cbn [Num.mul Num.sub Num.add Num.opp]. f_equal. ring. }
  split; [exact G|].
  change (Num.div (val (rolled_growth s rs)) (val v) = Num.zero).
  rewrite G, T. unfold Num.zero.
  assert (Q : price / cash <> Q2Qc 0).
  { intros E. apply Hprnz.
    assert (P : price = price / cash * cash) by (field; exact Hcnz).
    rewrite P, E. ring. }
  rewrite (div_Fin _ _ Q). f_equal. field. split; assumption.
Qed.

Lemma no_plowback_no_ratio_witness :
  exists (s : Stock.t) (rs' : RandomState) (growth multiple ratio : scalar)
         (plowback rotc wacc price cash : Qc),
    Stock.__init__ row_IDLE = Return s /\
    Stock.roll_once s (generator [(0%nat, 1%Q)])
    = (Return (growth, multiple, ratio), rs') /\
    drawn_plowback s (generator [(0%nat, 1%Q)]) = Fin plowback /\
    plowback <= Q2Qc 0 /\
    drawn_rotc s (generator [(0%nat, 1%Q)]) = Fin rotc /\
    val (Stock.weighted_average_cost_of_capital s) = Fin wacc /\
    val (Stock.price s) = Fin price /\
    price <> Q2Qc 0 /\
    drawn_cash_flow s (generator [(0%nat, 1%Q)]) = Fin cash /\
    cash <> Q2Qc 0 /\
    val growth = Num.zero /\ val ratio = Num.zero.
Proof.
  do 10 eexists.
  split; [lazy; reflexivity|].
  lazymatch goal with
  | |- Stock.roll_once ?s _ = _ /\ _ =>
      pose proof (no_plowback_no_ratio s (generator [(0%nat, 1%Q)])) as T
  end.
  split; [lazy; reflexivity|].
  split; [lazy; reflexivity|].
  split; [discriminate|].
  split; [lazy; reflexivity|].
  split; [lazy; reflexivity|].
  split; [lazy; reflexivity|].
  split; [apply Qc_nonzero_compute; reflexivity|].
  split; [lazy; reflexivity|].
  split; [apply Qc_nonzero_compute; reflexivity|].
  eapply T;
    [ lazy; reflexivity | lazy; reflexivity | discriminate
    | lazy; reflexivity | lazy; reflexivity | lazy; reflexivity
    | apply Qc_nonzero_compute; reflexivity
    | lazy; reflexivity | apply Qc_nonzero_compute; reflexivity ].
Defined.

(** ** The cost of capital as a weighted mean *)

Lemma Qc_weighted_between :
  forall D P M cd cp ce lo hi : Qc,
    Q2Qc 0 <= D -> Q2Qc 0 <= P -> Q2Qc 0 < M ->
    lo <= cd -> cd <= hi -> lo <= cp -> cp <= hi -> lo <= ce -> ce <= hi ->
    lo <= (cd * D + cp * P + ce * M) / (D + P + M) /\
    (cd * D + cp * P + ce * M) / (D + P + M) <= hi.
Proof.
  intros D P M cd cp ce lo hi HD HP HM L1 H1 L2 H2 L3 H3.
  assert (T : Q2Qc 0 < D + P + M).
  { qc2q. lra. }
  qc2q.
  assert (T' : (0 < D + P + M)%Q) by exact T.
  split.
  - apply Qle_shift_div_l; [exact T'|]. nra.
  - apply Qle_shift_div_r; [exact T'|]. nra.
Qed.

(** In exact arithmetic the cost of capital the constructor stores is a
    weighted mean of the three costs: with a debt balance and a preferred
    stock balance that are not negative and a positive number of shares
    and price, the constructor returns and the stored WACC lies between
    the smallest and the largest of after-tax cost of debt, cost of
    preferred equity and cost of equity. *)
Lemma weighted_mean_between_costs :
  forall (row : Stock.Row) (self : Stock.Attributes) (kd kp : scalar)
         (D P S p cd cp ce lo hi : Qc),
    Stock.attributes_of_row row = Return self ->
    val (Stock.long_term_debt_balance self) = Fin D ->
    Q2Qc 0 <= D ->
    val (Stock.preferred_stock self) = Fin P ->
    Q2Qc 0 <= P ->
    val (Stock.common_shares_outstanding self) = Fin S ->
    Q2Qc 0 < S ->
    val (Stock.price self) = Fin p ->
    Q2Qc 0 < p ->
    Stock.after_tax_historical_cost_of_debt self = Return kd ->
    val kd = Fin cd ->
    Stock.cost_of_preferred_equity self = Return kp ->
    val kp = Fin cp ->
    val (Stock.cost_of_equity self) = Fin ce ->
    lo <= cd /\ cd <= hi ->
    lo <= cp /\ cp <= hi ->
    lo <= ce /\ ce <= hi ->
    exists (s : Stock.t) (w : Qc),
      Stock.__init__ row = Return s /\
      val (Stock.weighted_average_cost_of_capital s) = Fin w /\
      lo <= w /\ w <= hi.
Proof.
  intros row self kd kp D P S p cd cp ce lo hi
         Hrow HD HD0 HP HP0 HS HS0 Hp Hp0 Hkd Hcd Hkp Hcp Hce [L1 H1] [L2 H2] [L3 H3].
  assert (HM : Q2Qc 0 < S * p).
  { replace (Q2Qc 0) with (Q2Qc 0 * p) by ring.
    apply Qcmult_lt_compat_r; assumption. }
  assert (T : Q2Qc 0 < D + P + S * p) by (qc2q; lra).
  assert (Htc : spec_total_capital self = Fin (D + P + S * p)).
  { unfold spec_total_capital. rewrite HD, HP, HS, Hp. reflexivity. }
  assert (Hnz : Num.is_zero (spec_total_capital self) = false)
    by (rewrite Htc; apply is_zero_pos; exact T).
  destruct (init_returns row self Hrow Hnz) as [s [Hs [_ Hw]]].
  exists s, ((cd * D + cp * P + ce * (S * p)) / (D + P + S * p)).
  split; [exact Hs|]. split.
  - rewrite Hw, Htc. unfold spec_weighted_costs.
    rewrite <- (cost_of_debt_val self kd Hkd), <- (cost_of_preferred_val self kp Hkp).
    change (capm_cost_of_equity self) with (val (Stock.cost_of_equity self)).
    rewrite Hcd, Hcp, Hce, HD, HP, HS, Hp.
    cbn [Num.mul Num.add].
    rewrite div_Fin by (apply Qc_pos_nonzero; exact T).
    f_equal. field. apply Qc_pos_nonzero; exact T.
  - apply Qc_weighted_between; assumption.
Qed.


(** ** The dictionary [import_xlsx] builds *)

Lemma keys_setitem :
  forall (V : Type) (d : dict V) (k : string) (v : V),
    keys (setitem d k v) = if existsb (String.eqb k) (keys d)
                           then keys d
                           else keys d ++ [k].
Proof.
  intros V d k v. unfold keys. induction d as [|[k' v'] d IH].
  - reflexivity.
  - cbn [setitem map fst existsb].
    destruct (String.eqb k k') eqn:E; cbn [map fst orb].
    + reflexivity.
    + rewrite IH. destruct (existsb (String.eqb k) (map fst d)); reflexivity.
Qed.

Lemma existsb_eqb_In :
  forall (k : string) (l : list string),
    existsb (String.eqb k) l = true <-> In k l.
Proof.
  intros k l. rewrite existsb_exists. split.
  - intros [x [Hin E]]. apply String.eqb_eq in E. subst x. exact Hin.
  - intros H. exists k. split; [exact H|apply String.eqb_refl].
Qed.

Lemma In_keys_setitem :
  forall (V : Type) (d : dict V) (k k' : string) (v : V),
    In k' (keys (setitem d k v)) <-> k' = k \/ In k' (keys d).
Proof.
  intros V d k k' v. rewrite keys_setitem.
  destruct (existsb (String.eqb k) (keys d)) eqn:E.
  - apply existsb_eqb_In in E. split; [auto|].
    intros [->|H]; assumption.
  - rewrite in_app_iff. cbn. split.
    + intros [H|[<-|[]]]; auto.
    + intros [->|H]; auto.
Qed.

Lemma NoDup_setitem :
  forall (V : Type) (d : dict V) (k : string) (v : V),
    NoDup (keys d) -> NoDup (keys (setitem d k v)).
Proof.
  intros V d k v N. rewrite keys_setitem.
  destruct (existsb (String.eqb k) (keys d)) eqn:E; [exact N|].
  assert (Hn : ~ In k (keys d)).
  { intros H. apply existsb_eqb_In in H. congruence. }
  apply NoDup_app; [exact N| |].
  - constructor; [intros []|constructor].
  - intros x Hx [<-|[]]. exact (Hn Hx).
Qed.

Lemma lookup_setitem_same :
  forall (V : Type) (d : dict V) (k : string) (v : V),
    lookup k (setitem d k v) = Some v.
Proof.
  intros V d k v. induction d as [|[k' v'] d IH]; cbn.
  - rewrite String.eqb_refl. reflexivity.
  - destruct (String.eqb k k') eqn:E; cbn; rewrite E; [reflexivity|exact IH].
Qed.

Lemma lookup_setitem_other :
  forall (V : Type) (d : dict V) (k k' : string) (v : V),
    k' <> k -> lookup k' (setitem d k v) = lookup k' d.
Proof.
  intros V d k k' v Hne. induction d as [|[k0 v0] d IH]; cbn.
  - destruct (String.eqb k' k) eqn:E; [|reflexivity].
    apply String.eqb_eq in E. contradiction.
  - destruct (String.eqb k k0) eqn:E; cbn.
    + apply String.eqb_eq in E. subst k0.
      destruct (String.eqb k' k) eqn:F; [|reflexivity].
      apply String.eqb_eq in F. contradiction.
    + destruct (String.eqb k' k0); [reflexivity|exact IH].
Qed.

Lemma import_rows_keys :
  forall (sheet : list Stock.Row) (acc stocks : dict Stock.t),
    import_rows sheet acc = Return stocks ->
    (NoDup (keys acc) -> NoDup (keys stocks)) /\
    (forall k, In k (keys stocks)
               <-> In k (keys acc) \/ In k (map Stock.col_Stock sheet)).
Proof.
  induction sheet as [|row sheet IH]; intros acc stocks H.
  - cbn in H. injection H as <-. split; [auto|].
    intros k. cbn. tauto.
  - cbn [import_rows] in H.
    destruct (Stock.__init__ row) as [s|e]; [|discriminate].
    cbn [obind] in H. destruct (IH _ _ H) as [N K]. split.
    + intros Na. apply N. apply NoDup_setitem. exact Na.
    + intros k. rewrite K, In_keys_setitem. cbn [map In].
      intuition (subst; auto).
Qed.

(** X6. What [import_xlsx] returns is a dictionary in the strict sense:
    no name occurs twice among its keys, and its keys are exactly the
    names of the sheet's rows. *)
Theorem import_xlsx_keys :
  forall (sheet : list Stock.Row) (stocks : dict Stock.t),
    import_xlsx sheet = Return stocks ->
    NoDup (keys stocks) /\
    (forall name, In name (keys stocks) <-> In name (map Stock.col_Stock sheet)).
Proof.
  intros sheet stocks H. destruct (import_rows_keys sheet [] stocks H) as [N K].
  split; [apply N; constructor|].
  intros name. rewrite K. cbn. tauto.
Qed.

Lemma import_xlsx_keys_witness :
  exists stocks : dict Stock.t,
    import_xlsx sheet_twice = Return stocks /\
    NoDup (keys stocks) /\
    (forall name,
        In name (keys stocks) <-> In name (map Stock.col_Stock sheet_twice)).
Proof.
  eexists. split; [lazy; reflexivity|].
  apply (import_xlsx_keys sheet_twice). lazy. reflexivity.
Defined.

Lemma import_rows_lookup :
  forall (sheet : list Stock.Row) (acc stocks : dict Stock.t),
    import_rows sheet acc = Return stocks ->
    (forall k, ~ In k (map Stock.col_Stock sheet) ->
               lookup k stocks = lookup k acc) /\
    (forall pre row post,
        sheet = pre ++ row :: post ->
        ~ In (Stock.col_Stock row) (map Stock.col_Stock post) ->
        exists s, Stock.__init__ row = Return s /\
                  lookup (Stock.col_Stock row) stocks = Some s).
Proof.
  induction sheet as [|row0 sheet IH]; intros acc stocks H.
  - cbn in H. injection H as <-. split; [reflexivity|].
    intros [|? ?] row post E; discriminate E.
  - cbn [import_rows] in H.
    destruct (Stock.__init__ row0) as [s0|e] eqn:I; [|discriminate].
    cbn [obind] in H. destruct (IH _ _ H) as [Hout Hin]. split.
    + intros k Hk. cbn [map In] in Hk.
      rewrite Hout by tauto. apply lookup_setitem_other.
      intros E. apply Hk. left. symmetry. exact E.
    + intros [|r pre] row post E Hlast.
      * cbn in E. injection E as <- <-.
        exists s0. split; [exact I|].
        rewrite (Hout _ Hlast). apply lookup_setitem_same.
      * cbn in E. injection E as <- ->.
        exact (Hin pre row post eq_refl Hlast).
Qed.

(** X7. When the sheet names a stock in several rows, the dictionary
    holds the stock built from the last of them: for every row that no
    later row repeats the name of, the entry under its name is the stock
    of that row. *)
Theorem import_xlsx_last_row_wins :
  forall (sheet pre post : list Stock.Row) (row : Stock.Row)
         (stocks : dict Stock.t),
    import_xlsx sheet = Return stocks ->
    sheet = pre ++ row :: post ->
    ~ In (Stock.col_Stock row) (map Stock.col_Stock post) ->
    exists s : Stock.t,
      Stock.__init__ row = Return s /\
      getitem stocks (Stock.col_Stock row) = Return s.
Proof.
  intros sheet pre post row stocks H E Hlast.
  destruct (import_rows_lookup sheet [] stocks H) as [_ L].
  destruct (L pre row post E Hlast) as [s [Hs Hl]].
  exists s. split; [exact Hs|]. unfold getitem. rewrite Hl. reflexivity.
Qed.

Lemma import_xlsx_last_row_wins_witness :
  exists stocks : dict Stock.t,
    import_xlsx sheet_twice = Return stocks /\
    sheet_twice
    = [row_NVO; row_LLY]
      ++ row_of Py "NVO" 5 4 1 100 20 10 200 3 50 2 0 20 50 45 :: [] /\
    ~ In (Stock.col_Stock
            (row_of Py "NVO" 5 4 1 100 20 10 200 3 50 2 0 20 50 45))
         (map Stock.col_Stock []) /\
    exists s : Stock.t,
      Stock.__init__ (row_of Py "NVO" 5 4 1 100 20 10 200 3 50 2 0 20 50 45)
      = Return s /\
      getitem stocks
        (Stock.col_Stock
           (row_of Py "NVO" 5 4 1 100 20 10 200 3 50 2 0 20 50 45))
      = Return s.
Proof.
  eexists. split; [lazy; reflexivity|].
  split; [reflexivity|]. split; [intros []|].
  apply (import_xlsx_last_row_wins sheet_twice [row_NVO; row_LLY] []);
    [lazy; reflexivity | reflexivity | intros []].
Defined.

Lemma import_rows_raises :
  forall (sheet : list Stock.Row) (acc : dict Stock.t) (e : exn),
    import_rows sheet acc = Raise e <->
    exists pre row post,
      sheet = pre ++ row :: post /\
      (forall r, In r pre -> exists s, Stock.__init__ r = Return s) /\
      Stock.__init__ row = Raise e.
Proof.
  induction sheet as [|row0 sheet IH]; intros acc e.
  - cbn. split; [discriminate|].
    intros [[|? ?] [row [post [E _]]]]; discriminate E.
  - cbn [import_rows].
    destruct (Stock.__init__ row0) as [s0|e0] eqn:I; cbn [obind].
    + rewrite IH. split.
      * intros [pre [row [post [E [Hpre Hrow]]]]].
        exists (row0 :: pre), row, post. split; [rewrite E; reflexivity|].
        split; [|exact Hrow].
        intros r [<-|Hr]; [eauto|apply Hpre; exact Hr].
      * intros [[|r pre] [row [post [E [Hpre Hrow]]]]].
        -- cbn in E. injection E as <- _. congruence.
        -- cbn in E. injection E as <- ->.
           exists pre, row, post. split; [reflexivity|].
           split; [|exact Hrow].
           intros r Hr. apply Hpre. right. exact Hr.
    + split.
      * intros H. injection H as <-.
        exists [], row0, sheet. split; [reflexivity|].
        split; [intros r []|exact I].
      * intros [[|r pre] [row [post [E [Hpre Hrow]]]]].
        -- cbn in E. injection E as <- _. congruence.
        -- cbn in E. injection E as E1 _.
           destruct (Hpre r (or_introl eq_refl)) as [s Hs].
           rewrite <- E1 in Hs. congruence.
Qed.

(** X8. One row is enough to fail the import: [import_xlsx] raises an
    exception exactly when the constructor raises it on some row while
    it returned on every row before, and then no dictionary comes out,
    whatever the other rows are. *)
Theorem import_xlsx_raises :
  forall (sheet : list Stock.Row) (e : exn),
    import_xlsx sheet = Raise e <->
    exists pre row post,
      sheet = pre ++ row :: post /\
      (forall r, In r pre -> exists s, Stock.__init__ r = Return s) /\
      Stock.__init__ row = Raise e.
Proof.
  intros sheet e. apply import_rows_raises.
Qed.

(** ** The mean allocation vector is itself an allocation *)

Local Open Scope Qc_scope.

Lemma sum_map_Fin_acc :
  forall (l : list Qc) (a : Qc),
    fold_left Num.add (map Fin l) (Fin a) = Fin (a + qsum l).
Proof.
  induction l as [|q l IH]; intros a; cbn [map fold_left qsum fold_right].
  - f_equal. ring.
  - cbn [Num.add]. rewrite IH. f_equal. unfold qsum. ring.
Qed.

Lemma sum_map_Fin : forall l : list Qc, Num.sum (map Fin l) = Fin (qsum l).
Proof.
  intros l. unfold Num.sum, Num.zero. rewrite sum_map_Fin_acc. f_equal. ring.
Qed.

Lemma finite_list :
  forall l : list num,
    (forall x, In x l -> Num.is_finite x = true) ->
    exists qs : list Qc, l = map Fin qs.
Proof.
  induction l as [|x l IH]; intros H.
  - exists []. reflexivity.
  - destruct IH as [qs ->]; [intros y Hy; apply H; right; exact Hy|].
    pose proof (H x (or_introl eq_refl)) as Fx.
    destruct x as [q| | |]; try discriminate.
    exists (q :: qs). reflexivity.
Qed.

Lemma of_nat_nonzero :
  forall n : nat, (0 < n)%nat -> Q2Qc (inject_Z (Z.of_nat n)) <> Q2Qc 0.
Proof.
  intros n Hn E. apply (f_equal this) in E. cbn [this Q2Qc] in E.
  assert (Q : (inject_Z (Z.of_nat n) == 0)%Q).
  { rewrite <- (Qred_correct (inject_Z (Z.of_nat n))), E. apply Qred_correct. }
  unfold Qeq, inject_Z in Q. cbn in Q. lia.
Qed.

Lemma nanmean_map_Fin :
  forall l : list Qc,
    l <> [] ->
    nanmean (map Fin l)
    = Fin (qsum l / Q2Qc (inject_Z (Z.of_nat (List.length l)))).
Proof.
  intros l Hl. unfold nanmean.
  assert (F : filter (fun x => negb (Num.is_nan x)) (map Fin l) = map Fin l).
  { clear Hl. induction l as [|q l IH]; cbn; [reflexivity|]. rewrite IH. reflexivity. }
  rewrite F. destruct l as [|q l]; [contradiction|].
  change (match map Fin (q :: l) with [] => NaN | _ :: _ => ?x end) with x.
  rewrite sum_map_Fin, length_map. unfold Num.of_nat.
  apply div_Fin. apply of_nat_nonzero. cbn. lia.
Qed.

Lemma qsum_map_add :
  forall (A : Type) (f g : A -> Qc) (l : list A),
    qsum (map (fun x => f x + g x) l) = qsum (map f l) + qsum (map g l).
Proof.
  intros A f g l. induction l as [|x l IH]; cbn [map qsum fold_right].
  - ring.
  - fold (qsum (map (fun x => f x + g x) l)) (qsum (map f l)) (qsum (map g l)).
    rewrite IH. ring.
Qed.

Lemma qsum_map_div :
  forall (A : Type) (f : A -> Qc) (n : Qc) (l : list A),
    qsum (map (fun x => f x / n) l) = qsum (map f l) / n.
Proof.
  intros A f n l. induction l as [|x l IH]; cbn [map qsum fold_right].
  - unfold Qcdiv. ring.
  - fold (qsum (map (fun x => f x / n) l)) (qsum (map f l)).
    rewrite IH. unfold Qcdiv. ring.
Qed.

Lemma map_nth_seq :
  forall (l : list Qc),
    map (fun j => nth j l (Q2Qc 0)) (seq 0 (List.length l)) = l.
Proof.
  induction l as [|q l IH]; [reflexivity|].
  cbn [List.length seq map nth]. rewrite <- seq_shift, map_map.
  cbn [nth]. rewrite IH. reflexivity.
Qed.

(** Summing a matrix by columns or by rows. *)
Lemma qsum_columns :
  forall (m : nat) (rows : list (list Qc)),
    (forall qs, In qs rows -> List.length qs = m) ->
    qsum (map (fun j => qsum (map (fun qs => nth j qs (Q2Qc 0)) rows)) (seq 0 m))
    = qsum (map qsum rows).
Proof.
  intros m rows. induction rows as [|qs rows IH]; intros H.
  - cbn [map qsum fold_right]. induction (seq 0 m) as [|j js IHj]; cbn; [reflexivity|].
    fold (qsum (map (fun _ : nat => Q2Qc 0) js)). rewrite IHj. ring.
  - cbn [map]. 
    change (fun j => qsum (nth j qs (Q2Qc 0) :: map (fun qs0 => nth j qs0 (Q2Qc 0)) rows))
      with (fun j => nth j qs (Q2Qc 0) + qsum (map (fun qs0 => nth j qs0 (Q2Qc 0)) rows)).
    rewrite (qsum_map_add _ (fun j => nth j qs (Q2Qc 0))).
    rewrite IH by (intros qs' Hq; apply H; right; exact Hq).
    rewrite <- (H qs (or_introl eq_refl)), map_nth_seq.
    reflexivity.
Qed.

Lemma qsum_ones :
  forall (rows : list (list Qc)),
    (forall qs, In qs rows -> qsum qs = Q2Qc 1) ->
    qsum (map qsum rows) = Q2Qc (inject_Z (Z.of_nat (List.length rows))).
Proof.
  induction rows as [|qs rows IH]; intros H.
  - reflexivity.
  - cbn [map qsum fold_right List.length]. fold (qsum (map qsum rows)).
    rewrite (H qs (or_introl eq_refl)), IH by (intros q Hq; apply H; right; exact Hq).
    apply Qc_is_canon. qc2q. rewrite Nat2Z.inj_succ. unfold Z.succ.
    rewrite inject_Z_plus. ring.
Qed.

Lemma mean_values :
  forall (F : nat -> num) (cols : list string) (s : nat),
    map snd (map (fun jc : nat * string => (snd jc, F (fst jc)))
                 (combine (seq s (List.length cols)) cols))
    = map F (seq s (List.length cols)).
Proof.
  intros F cols. induction cols as [|c cols IH]; intros s.
  - reflexivity.
  - cbn [List.length seq combine map fst snd]. rewrite IH. reflexivity.
Qed.

Lemma column_Fin :
  forall (m j : nat) (rows : list (list Qc)),
    (forall qs, In qs rows -> List.length qs = m) ->
    (j < m)%nat ->
    column j (map (map Fin) rows)
    = map Fin (map (fun qs => nth j qs (Q2Qc 0)) rows).
Proof.
  intros m j rows H Hj. unfold column. rewrite !map_map.
  apply map_ext_in. intros qs Hq.
  rewrite (nth_indep _ NaN (Fin (Q2Qc 0)))
    by (rewrite length_map, (H qs Hq); exact Hj).
  apply map_nth.
Qed.

Lemma rows_to_matrix :
  forall (P : list Qc -> Prop) (rows : list (list num)),
    (forall row, In row rows -> exists qs, row = map Fin qs /\ P qs) ->
    exists qrows : list (list Qc),
      rows = map (map Fin) qrows /\ (forall qs, In qs qrows -> P qs).
Proof.
  intros P rows. induction rows as [|row rows IH]; intros H.
  - exists []. split; [reflexivity|intros qs []].
  - destruct IH as [qrows [-> Hq]]; [intros r Hr; apply H; right; exact Hr|].
    destruct (H row (or_introl eq_refl)) as [qs [-> Hp]].
    exists (qs :: qrows). split; [reflexivity|].
    intros q [<-|Hin]; [exact Hp|exact (Hq q Hin)].
Qed.

(** The means of a matrix of finite weights whose rows each sum to 1
    sum to 1. *)
Lemma means_sum_to_one :
  forall (cols : list string) (qrows : list (list Qc)),
    qrows <> [] ->
    (forall qs, In qs qrows ->
                qsum qs = Q2Qc 1 /\ List.length qs = List.length cols) ->
    Num.sum (map snd (DataFrame_mean {| columns := cols;
                                       data := map (map Fin) qrows |}))
    = Num.one.
Proof.
  intros cols qrows Hne H. unfold DataFrame_mean. cbn [columns data].
  rewrite (mean_values (fun j => nanmean (column j (map (map Fin) qrows)))).
  set (m := List.length cols) in *.
  set (N := Q2Qc (inject_Z (Z.of_nat (List.length qrows)))).
  assert (HN : N <> Q2Qc 0).
  { apply of_nat_nonzero. destruct qrows; [contradiction|cbn; lia]. }
  rewrite (map_ext_in _
             (fun j => Fin (qsum (map (fun qs => nth j qs (Q2Qc 0)) qrows) / N))).
  - rewrite <- (map_map (fun j => qsum (map (fun qs => nth j qs (Q2Qc 0)) qrows) / N)
                       Fin).
    rewrite sum_map_Fin. unfold Num.one. f_equal.
    rewrite (qsum_map_div _ (fun j => qsum (map (fun qs => nth j qs (Q2Qc 0)) qrows))).
    rewrite (qsum_columns m qrows) by (intros qs Hq; apply (H qs Hq)).
    rewrite qsum_ones by (intros qs Hq; apply (H qs Hq)).
    fold N. field. exact HN.
  - intros j Hj. apply in_seq in Hj.
    rewrite (column_Fin m j qrows) by (try (intros qs Hq; apply (H qs Hq)); lia).
    rewrite nanmean_map_Fin.
    + rewrite length_map. reflexivity.
    + destruct qrows; [contradiction|discriminate].
Qed.

(** X9. The mean allocation is itself an allocation.  In a run of at
    least one trial that returns, and in which the ratios of every trial
    add up to a finite number other than zero, the mean vector has one
    entry per stock, in the order of the dictionary, every entry is
    finite, and the entries add up to 1. *)
Theorem mean_allocations_sum_to_one :
  forall (iterations : Z) (self self' : Portfolio.t) (rs rs' : RandomState),
    NoDup (keys (Portfolio.stocks self)) ->
    (0 < iterations)%Z ->
    Portfolio.allocate iterations (self, rs) = (Return tt, (self', rs')) ->
    (forall t : nat,
        (t < Z.to_nat iterations)%nat ->
        exists (ratios : dict scalar) (rs_t : RandomState) (total : Qc),
          Portfolio.roll_ratios self (rng_before_trial self rs t)
          = (Return ratios, rs_t) /\
          val (np_sum (values ratios)) = Fin total /\
          total <> Q2Qc 0) ->
    exists mean : Series,
      Portfolio.mean_allocations self' = Some mean /\
      map fst mean = keys (Portfolio.stocks self) /\
      (forall x, In x (map snd mean) -> Num.is_finite x = true) /\
      Num.sum (map snd mean) = Num.one.
Proof.
  intros iterations self self' rs rs' N Hpos H Hall.
  destruct (allocate_returns _ _ _ _ _ H)
    as [_ [_ [df [HT [HM [HC [HL _]]]]]]].
  exists (DataFrame_mean df). split; [exact HM|].
  assert (R : forall row, In row (data df) ->
                exists qs, row = map Fin qs /\
                           (qsum qs = Q2Qc 1 /\
                            List.length qs = List.length (columns df))).
  { intros row Hin. apply In_nth_error in Hin. destruct Hin as [t Ht].
    assert (Hlt : (t < Z.to_nat iterations)%nat).
    { rewrite <- HL. apply nth_error_Some. congruence. }
    destruct (Hall t Hlt) as [ratios [rs_t [total [Hr [Hs Hnz]]]]].
    destruct (trial_row self self' rs rs' rs_t iterations t ratios N H Hlt Hr)
      as [df' [HT' [_ [HC' [Hrow _]]]]].
    assert (E : df' = df) by congruence. subst df'.
    rewrite Ht in Hrow. injection Hrow as ->.
    destruct (normalised_weights ratios total Hs Hnz) as [_ Hsum].
    destruct (finite_list (map val (values (normalised ratios)))) as [qs Hqs].
    { unfold Num.sum, Num.zero, Num.one in Hsum.
      exact (fold_add_finite _ _ _ Hsum). }
    exists qs. split; [exact Hqs|]. split.
    - rewrite Hqs, sum_map_Fin in Hsum. unfold Num.one in Hsum.
      injection Hsum as Hsum. exact Hsum.
    - rewrite <- (length_map Fin qs), <- Hqs, HC'.
      unfold values, keys. rewrite !length_map. unfold normalised.
      rewrite length_map. reflexivity. }
  destruct (rows_to_matrix _ _ R) as [qrows [Hd Hq]].
  assert (Hne : qrows <> []).
  { intros ->. rewrite Hd in HL. cbn in HL. lia. }
  assert (S1 : Num.sum (map snd (DataFrame_mean df)) = Num.one).
  { destruct df as [cols rows]. cbn [data columns] in *. subst rows.
    apply means_sum_to_one; assumption. }
  split; [|split; [|exact S1]].
  - rewrite <- HC. unfold DataFrame_mean. rewrite map_map. cbn [fst snd].
    generalize 0%nat. generalize (columns df).
    induction l as [|c l IH]; intros s; cbn; [reflexivity|].
    rewrite IH. reflexivity.
  - unfold Num.sum, Num.zero, Num.one in S1.
    exact (fold_add_finite _ _ _ S1).
Qed.

Lemma mean_allocations_sum_to_one_witness :
  exists (self' : Portfolio.t) (rs' : RandomState),
    NoDup (keys (Portfolio.stocks sample_portfolio)) /\
    (0 < 2)%Z /\
    Portfolio.allocate 2 (sample_portfolio, generator [])
    = (Return tt, (self', rs')) /\
    (forall t : nat,
        (t < Z.to_nat 2)%nat ->
        exists (ratios : dict scalar) (rs_t : RandomState) (total : Qc),
          Portfolio.roll_ratios sample_portfolio
            (rng_before_trial sample_portfolio (generator []) t)
          = (Return ratios, rs_t) /\
          val (np_sum (values ratios)) = Fin total /\
          total <> Q2Qc 0) /\
    exists mean : Series,
      Portfolio.mean_allocations self' = Some mean /\
      map fst mean = keys (Portfolio.stocks sample_portfolio) /\
      (forall x, In x (map snd mean) -> Num.is_finite x = true) /\
      Num.sum (map snd mean) = Num.one.
Proof.
  assert (A : forall t : nat,
             (t < Z.to_nat 2)%nat ->
             exists (ratios : dict scalar) (rs_t : RandomState) (total : Qc),
               Portfolio.roll_ratios sample_portfolio
                 (rng_before_trial sample_portfolio (generator []) t)
               = (Return ratios, rs_t) /\
               val (np_sum (values ratios)) = Fin total /\
               total <> Q2Qc 0).
  { intros [|[|t]] Ht; [| |cbn in Ht; lia];
      (do 3 eexists; split; [lazy; reflexivity|];
       split; [lazy; reflexivity|apply Qc_nonzero_compute; reflexivity]). }
  do 2 eexists.
  split; [exact sample_stocks_distinct|].
  split; [lia|].
  split; [lazy; reflexivity|].
  split; [exact A|].
  eapply (mean_allocations_sum_to_one 2 sample_portfolio _ (generator []));
    [exact sample_stocks_distinct | lia | lazy; reflexivity | exact A].
Defined.

(** ** Weights of a trial whose ratios are not negative *)

Lemma qsum_nonneg_bound :
  forall l : list Qc,
    (forall x, In x l -> Q2Qc 0 <= x) ->
    Q2Qc 0 <= qsum l /\ (forall x, In x l -> x <= qsum l).
Proof.
  induction l as [|y l IH]; intros H.
  - split; [apply Qcle_refl|intros x []].
  - destruct IH as [S0 Sx]; [intros x Hx; apply H; right; exact Hx|].
    pose proof (H y (or_introl eq_refl)) as Hy.
    cbn [qsum fold_right]. fold (qsum l). split.
    + qc2q. lra.
    + intros x [<-|Hx].
      * qc2q. lra.
      * pose proof (Sx x Hx) as B. qc2q. lra.
Qed.

Lemma Qc_unit_quotient :
  forall q t : Qc,
    Q2Qc 0 <= q -> q <= t -> t <> Q2Qc 0 ->
    Q2Qc 0 <= q / t /\ q / t <= Q2Qc 1.
Proof.
  intros q t Hq Hqt Hnz.
  assert (Ht : Q2Qc 0 < t).
  { destruct (Qcle_lt_or_eq (Q2Qc 0) t) as [L|E].
    - apply (Qcle_trans _ q); assumption.
    - exact L.
    - exfalso. apply Hnz. symmetry. exact E. }
  clear Hnz. qc2q.
  assert (Ht' : (0 < t)%Q) by exact Ht.
  split.
  - apply Qle_shift_div_l; [exact Ht'|]. lra.
  - apply Qle_shift_div_r; [exact Ht'|]. lra.
Qed.

(** X13. When no ratio of a trial is negative and the ratios add up to
    a finite number other than 0, the trial returns and every weight it
    gives lies between 0 and 1. *)
Theorem weights_within_unit_interval :
  forall (self : Portfolio.t) (rs rs_t : RandomState) (ratios : dict scalar)
         (total : Qc),
    NoDup (keys (Portfolio.stocks self)) ->
    Portfolio.roll_ratios self rs = (Return ratios, rs_t) ->
    val (np_sum (values ratios)) = Fin total ->
    total <> Q2Qc 0 ->
    (forall (stock : string) (ratio : scalar) (q : Qc),
        In (stock, ratio) ratios -> val ratio = Fin q -> Q2Qc 0 <= q) ->
    exists allocations : dict scalar,
      Portfolio._allocate_once self rs = (Return allocations, rs_t) /\
      (forall (stock : string) (weight : scalar),
          In (stock, weight) allocations ->
          exists w : Qc, val weight = Fin w /\ Q2Qc 0 <= w /\ w <= Q2Qc 1).
Proof.
  intros self rs rs_t ratios total N Hr Hs Hnz Hpos.
  exists (normalised ratios). split.
  { rewrite (allocate_once_run self rs N), Hr. reflexivity. }
  intros stock weight Hin.
  unfold normalised in Hin. apply in_map_iff in Hin.
  destruct Hin as [[k r] [E Hkr]]. cbn [fst snd] in E.
  injection E as _ <-. cbn [val].
  unfold np_sum in Hs. cbn [val] in Hs. rewrite Hs.
  destruct (finite_list (map val (values ratios))) as [qs Hqs].
  { unfold Num.sum, Num.zero in Hs. exact (fold_add_finite _ _ _ Hs). }
  rewrite Hqs, sum_map_Fin in Hs. injection Hs as Hs.
  assert (Hv : In (val r) (map Fin qs)).
  { rewrite <- Hqs. apply in_map. unfold values. apply in_map_iff.
    exists (k, r). split; [reflexivity|exact Hkr]. }
  apply in_map_iff in Hv. destruct Hv as [q [Hq Hqin]].
  assert (Hall : forall x, In x qs -> Q2Qc 0 <= x).
  { intros x Hx.
    assert (Hx' : In (Fin x) (map val (values ratios)))
      by (rewrite Hqs; apply in_map; exact Hx).
    unfold values in Hx'. rewrite map_map in Hx'. apply in_map_iff in Hx'.
    destruct Hx' as [[k' r'] [V I]]. cbn [snd] in V.
    exact (Hpos k' r' x I V). }
  destruct (qsum_nonneg_bound qs Hall) as [_ B].
  rewrite <- Hq. rewrite (div_Fin _ _ Hnz).
  exists (q / total). split; [reflexivity|].
  apply Qc_unit_quotient; [apply Hall; exact Hqin| |exact Hnz].
  rewrite <- Hs. apply B. exact Hqin.
Qed.

Lemma weights_within_unit_interval_witness :
  exists (rs_t : RandomState) (ratios : dict scalar) (total : Qc),
    NoDup (keys (Portfolio.stocks sample_portfolio)) /\
    Portfolio.roll_ratios sample_portfolio (generator []) = (Return ratios, rs_t) /\
    val (np_sum (values ratios)) = Fin total /\
    total <> Q2Qc 0 /\
    (forall (stock : string) (ratio : scalar) (q : Qc),
        In (stock, ratio) ratios -> val ratio = Fin q -> Q2Qc 0 <= q) /\
    exists allocations : dict scalar,
      Portfolio._allocate_once sample_portfolio (generator [])
      = (Return allocations, rs_t) /\
      (forall (stock : string) (weight : scalar),
          In (stock, weight) allocations ->
          exists w : Qc, val weight = Fin w /\ Q2Qc 0 <= w /\ w <= Q2Qc 1).
Proof.
  do 3 eexists.
  split; [exact sample_stocks_distinct|].
  split; [lazy; reflexivity|].
  split; [lazy; reflexivity|].
  split; [apply Qc_nonzero_compute; reflexivity|].
  assert (A : forall (stock : string) (ratio : scalar) (q : Qc),
             In (stock, ratio)
                (match fst (Portfolio.roll_ratios sample_portfolio (generator []))
                 with Return d => d | Raise _ => [] end) ->
             val ratio = Fin q -> Q2Qc 0 <= q).
  { intros stock ratio q I V. lazy in I.
    destruct I as [E|[E|[]]]; injection E as _ <-;
      injection V as <-; discriminate. }
  split; [exact A|].
  eapply (weights_within_unit_interval sample_portfolio (generator []));
    [ exact sample_stocks_distinct | lazy; reflexivity | lazy; reflexivity
    | apply Qc_nonzero_compute; reflexivity | exact A ].
Defined.

(** ** What a portfolio prints *)

(** X14. A portfolio just built prints as ['Portfolio'] until a run has
    returned: after a run that raised it still prints ['Portfolio'],
    after a run that returned it prints the means of the trial matrix
    the run has left. *)
Theorem repr_after_allocate :
  forall (str : Series -> string) (stocks : dict Stock.t) (iterations : Z)
         (rs rs' : RandomState) (o : outcome unit) (self' : Portfolio.t),
    NoDup (keys stocks) ->
    Portfolio.allocate iterations (Portfolio.__init__ stocks, rs)
    = (o, (self', rs')) ->
    match o with
    | Return _ =>
        exists df : DataFrame,
          Portfolio.allocation_trials self' = Some df /\
          Portfolio.__repr__ str self' = str (DataFrame_mean df)
    | Raise _ => Portfolio.__repr__ str self' = "Portfolio"%string
    end.
Proof.
  intros str stocks iterations rs rs' o self' N H.
  destruct o as [[]|e].
  - destruct (allocate_returns _ _ _ _ _ H) as [_ [_ [df [HT [HM _]]]]].
    exists df. split; [exact HT|].
    unfold Portfolio.__repr__. rewrite HM. reflexivity.
  - rewrite allocate_run in H.
    destruct (iterations <? 0)%Z.
    { injection H as _ <- _. reflexivity. }
    destruct (for_range_outcome (Z.to_nat iterations) 0
                (with_trials (Portfolio.__init__ stocks)
                   (zero_frame iterations
                      (Portfolio.stocks (Portfolio.__init__ stocks))))
                rs
                (zero_frame iterations
                   (Portfolio.stocks (Portfolio.__init__ stocks)))
                N eq_refl)
      as [o1 [p1 [rs1 [df [L [_ [Hm [Ht _]]]]]]]].
    { rewrite zero_frame_rows. lia. }
    rewrite L in H. destruct o1 as [[]|e1].
    + rewrite Ht in H. discriminate.
    + injection H as _ <- _.
      unfold Portfolio.__repr__. rewrite Hm. reflexivity.
Qed.

Lemma repr_after_allocate_witness :
  exists (self' : Portfolio.t) (rs' : RandomState),
    NoDup (keys sample_stocks) /\
    Portfolio.allocate 2 (Portfolio.__init__ sample_stocks, generator [])
    = (Return tt, (self', rs')) /\
    exists df : DataFrame,
      Portfolio.allocation_trials self' = Some df /\
      Portfolio.__repr__ (fun means => String.concat ", " (map fst means)) self'
      = String.concat ", " (map fst (DataFrame_mean df)).
Proof.
  do 2 eexists.
  split; [exact sample_stocks_distinct|].
  split; [lazy; reflexivity|].
  eapply (repr_after_allocate (fun means => String.concat ", " (map fst means))
            sample_stocks 2 (generator []) _ (Return tt));
    [exact sample_stocks_distinct | lazy; reflexivity].
Defined.

(** * The class [Stock] in binary64 *)

(** ** Signs *)

Lemma b64_round_sign :
  forall (s : bool) (m e : Z) (l : location),
    B64.signbit (binary_round_aux B64.prec B64.emax s m e l) = true -> s = true.
Proof.
  intros s m e l. unfold binary_round_aux.
  destruct (shr_fexp B64.prec B64.emax m e l) as [mrs' e'].
  destruct (shr_fexp B64.prec B64.emax _ e' loc_Exact) as [mrs'' e''].
  destruct (shr_m mrs'') as [|q|q]; [|destruct (Z.leb _ _)|]; cbn;
    intros H; try exact H; discriminate H.
Qed.

Lemma b64_mul_sign :
  forall x y : B64.float,
    B64.signbit x = false -> B64.signbit y = false ->
    B64.signbit (B64.mul x y) = false.
Proof.
  intros [sx|sx| |sx mx ex] [sy|sy| |sy my ey]; cbn; intros Hx Hy; subst;
    try reflexivity.
  destruct (B64.signbit _) eqn:E; [|reflexivity].
  apply b64_round_sign in E. discriminate E.
Qed.

Lemma b64_div_sign :
  forall x y : B64.float,
    B64.signbit x = false -> B64.signbit y = false ->
    B64.signbit (B64.div x y) = false.
Proof.
  intros [sx|sx| |sx mx ex] [sy|sy| |sy my ey]; cbn; intros Hx Hy; subst;
    try reflexivity.
  unfold B64.div, SFdiv.
  destruct (SFdiv_core_binary B64.prec B64.emax (Z.pos mx) ex (Z.pos my) ey)
    as [[mz ez] lz].
  destruct (B64.signbit _) eqn:E; [|reflexivity].
  apply b64_round_sign in E. discriminate E.
Qed.

Lemma b64_refused_sign :
  forall x : B64.scalar, B64.signbit (B64.val x) = false -> B64.refused x = false.
Proof.
  intros x H. unfold B64.refused. rewrite H. apply andb_false_r.
Qed.

(** ** Division, and the construction of a stock *)

Lemma b64_truediv_nonzero :
  forall x y : B64.scalar,
    B64.is_zero (B64.val y) = false ->
    B64.truediv x y
    = Return (B64.Scalar (kjoin (B64.kind_of x) (B64.kind_of y))
                         (B64.div (B64.val x) (B64.val y))).
Proof.
  intros x y H. unfold B64.truediv. rewrite H. destruct (kjoin _ _); reflexivity.
Qed.

Lemma b64_truediv_np_l :
  forall x y : B64.scalar,
    B64.kind_of x = Np ->
    B64.truediv x y = Return (B64.Scalar Np (B64.div (B64.val x) (B64.val y))).
Proof.
  intros x y H. unfold B64.truediv. rewrite H. reflexivity.
Qed.

Lemma b64_truediv_raises :
  forall (x y : B64.scalar) (e : exn),
    B64.truediv x y = Raise e ->
    e = ZeroDivisionError /\ B64.is_zero (B64.val y) = true.
Proof.
  intros x y e. unfold B64.truediv.
  destruct (kjoin _ _); [|discriminate].
  destruct (B64.is_zero (B64.val y)); [|discriminate].
  intros H. injection H as <-. auto.
Qed.

Lemma b64_truediv_100 :
  forall x : B64.scalar,
    B64.truediv x (B64.int 100)
    = Return (B64.Scalar (B64.kind_of x)
                         (B64.div (B64.val x) (B64.of_Z 100))).
Proof.
  intros x. rewrite b64_truediv_nonzero by reflexivity.
  destruct x as [[|] v]; reflexivity.
Qed.

Lemma b64_init_inv :
  forall (row : B64.Stock.Row) (s : B64.Stock.t),
    B64.Stock.__init__ row = Return s ->
    B64.Stock.attributes_of_row row = Return (B64.Stock.attributes s) /\
    B64.Stock.distributions s
    = B64.Stock._derive_distributions (B64.Stock.attributes s) /\
    B64.Stock._calculate_wacc (B64.Stock.attributes s)
    = Return (B64.Stock.weighted_average_cost_of_capital s).
Proof.
  intros row s. unfold B64.Stock.__init__.
  destruct (B64.Stock.attributes_of_row row) as [self|e]; [|discriminate].
  cbn [obind].
  destruct (B64.Stock._calculate_wacc self) as [w|e] eqn:Hw; [|discriminate].
  cbn [obind]. intros H. injection H as <-. cbn. auto.
Qed.

(** The attributes the constructor reads off a row. *)
Lemma b64_attributes_inv :
  forall (row : B64.Stock.Row) (self : B64.Stock.Attributes),
    B64.Stock.attributes_of_row row = Return self ->
    B64.val (B64.Stock.vl_earnings_predictability self)
    = B64.div (B64.val (B64.Stock.col_VL_Earnings_Predictability row))
              (B64.of_Z 100) /\
    B64.val (B64.Stock.vl_return_on_total_capital self)
    = B64.div (B64.val (B64.Stock.col_VL_ROTC row)) (B64.of_Z 100) /\
    B64.val (B64.Stock.vl_retained_earnings_plowback_ratio self)
    = B64.div (B64.val (B64.Stock.col_VL_Plowback_Ratio row)) (B64.of_Z 100) /\
    B64.Stock.vl_cash_flow_per_share self
    = B64.Stock.col_VL_Cash_Flow_Per_Share row.
Proof.
  intros row self H. unfold B64.Stock.attributes_of_row in H.
  rewrite !b64_truediv_100 in H. cbn [obind] in H.
  injection H as <-. cbn. auto.
Qed.

(** ** Standard deviations *)

(** C5, as the code has it. Each of the three standard deviations a
    constructed stock stores is the dispersion factor
    [0.50 - 0.45 * predictability] times the metric's mean, factor and
    product evaluated in binary64 in that order, the predictability
    being the sheet's percentage divided by 100. The factor is exactly
    0.50 at predictability 0.0. At predictability 1.0 the code's factor
    is 0.04999999999999999, below the float 0.05; it is 0.05 in exact
    arithmetic only, where the same three products hold. *)
Theorem std_dev_is_scaled_mean :
  (forall (row : B64.Stock.Row) (s : B64.Stock.t),
      B64.Stock.__init__ row = Return s ->
      let f := B64.dispersion_factor
                 (B64.val (B64.Stock.vl_earnings_predictability s)) in
      B64.val (B64.Stock.vl_earnings_predictability s)
      = B64.div (B64.val (B64.Stock.col_VL_Earnings_Predictability row))
                (B64.of_Z 100) /\
      B64.val (B64.Stock.vl_cash_flow_per_share_std_dev s)
      = B64.mul f (B64.val (B64.Stock.vl_cash_flow_per_share s)) /\
      B64.val (B64.Stock.vl_return_on_total_capital_std_dev s)
      = B64.mul f (B64.val (B64.Stock.vl_return_on_total_capital s)) /\
      B64.val (B64.Stock.vl_retained_earnings_plowback_ratio_std_dev s)
      = B64.mul f (B64.val (B64.Stock.vl_retained_earnings_plowback_ratio s))) /\
  B64.dispersion_factor (B64.of_Z 0) = B64.dec 50 100 /\
  B64.dispersion_factor (B64.of_Z 1)
  = B64.dec 4999999999999999 100000000000000000 /\
  B64.ltb (B64.dispersion_factor (B64.of_Z 1)) (B64.dec 5 100) = true /\
  (forall (row : Stock.Row) (s : Stock.t),
      Stock.__init__ row = Return s ->
      let f := dispersion_factor (val (Stock.vl_earnings_predictability s)) in
      val (Stock.vl_cash_flow_per_share_std_dev s)
      = Num.mul f (val (Stock.vl_cash_flow_per_share s)) /\
      val (Stock.vl_return_on_total_capital_std_dev s)
      = Num.mul f (val (Stock.vl_return_on_total_capital s)) /\
      val (Stock.vl_retained_earnings_plowback_ratio_std_dev s)
      = Num.mul f (val (Stock.vl_retained_earnings_plowback_ratio s))) /\
  dispersion_factor (dec 1.0) = dec 0.05 /\
  dispersion_factor (dec 0.0) = dec 0.50.
Proof.
  split; [|split; [|split; [|split; [|split; [|split]]]]].
  - intros row s H f.
    destruct (b64_init_inv row s H) as [Ha [Hd _]].
    destruct (b64_attributes_inv row _ Ha) as [Hp _].
    split; [exact Hp|]. subst f. rewrite Hd. repeat split; reflexivity.
  - vm_compute. reflexivity.
  - vm_compute. reflexivity.
  - vm_compute. reflexivity.
  - intros row s H f.
    destruct (init_inv row s H) as [_ [Hd _]].
    rewrite Hd. repeat split; reflexivity.
  - apply Qc_compute. reflexivity.
  - apply Qc_compute. reflexivity.
Qed.

Lemma std_dev_is_scaled_mean_witness :
  exists (s : B64.Stock.t) (x : Stock.t),
    B64.Stock.__init__ B64.row_DE = Return s /\
    B64.val (B64.Stock.vl_earnings_predictability s) = B64.of_Z 1 /\
    B64.val (B64.Stock.vl_cash_flow_per_share_std_dev s)
    = B64.mul (B64.dispersion_factor
                 (B64.val (B64.Stock.vl_earnings_predictability s)))
              (B64.val (B64.Stock.vl_cash_flow_per_share s)) /\
    Stock.__init__ row_DE = Return x /\
    val (Stock.vl_cash_flow_per_share_std_dev x)
    = Num.mul (dispersion_factor (val (Stock.vl_earnings_predictability x)))
              (val (Stock.vl_cash_flow_per_share x)).
Proof.
  do 2 eexists.
  split; [vm_compute; reflexivity|].
  split; [vm_compute; reflexivity|].
  split.
  { apply (proj1 std_dev_is_scaled_mean B64.row_DE). vm_compute. reflexivity. }
  split; [lazy; reflexivity|].
  apply (proj1 (proj2 (proj2 (proj2 (proj2 std_dev_is_scaled_mean)))) row_DE).
  lazy. reflexivity.
Defined.

(** C5, the claim as written fails: at earnings predictability 1.0 the
    dispersion factor of the code is not 0.05, and the standard deviation
    of the cash flow is not 0.05 times its mean. *)
Lemma dispersion_factor_is_not_0_05 :
  exists s : B64.Stock.t,
    B64.Stock.__init__ B64.row_DE = Return s /\
    B64.val (B64.Stock.vl_earnings_predictability s) = B64.of_Z 1 /\
    B64.val (B64.Stock.vl_cash_flow_per_share s) = B64.of_Z 30 /\
    B64.dispersion_factor (B64.val (B64.Stock.vl_earnings_predictability s))
    <> B64.dec 5 100 /\
    B64.val (B64.Stock.vl_cash_flow_per_share_std_dev s)
    <> B64.mul (B64.dec 5 100) (B64.val (B64.Stock.vl_cash_flow_per_share s)).
Proof.
  eexists.
  split; [vm_compute; reflexivity|].
  split; [vm_compute; reflexivity|].
  split; [vm_compute; reflexivity|].
  split; vm_compute; intros E; discriminate E.
Qed.

(** ** One roll *)

Lemma b64_np_random_normal_run :
  forall (loc scale : B64.scalar) (rs : B64.RandomState),
    B64.np_random_normal loc scale rs
    = if B64.refused scale
      then (Raise ValueError, rs)
      else (Return (B64.Scalar Py
                      (B64.add (B64.val loc)
                               (B64.mul (B64.val scale)
                                        (B64.gauss rs (B64.pos rs))))),
            B64.advance 1 rs).
Proof.
  intros loc scale rs. unfold B64.np_random_normal.
  destruct (B64.refused scale); reflexivity.
Qed.

(** A roll none of whose standard deviations is refused draws its three
    variates, and can only fail in the division of the price by the
    drawn cash flow. *)
Lemma b64_roll_once_accepted :
  forall (s : B64.Stock.t) (rs : B64.RandomState),
    B64.scale_refused s = false ->
    exists o : outcome (B64.scalar * B64.scalar * B64.scalar),
      B64.Stock.roll_once s rs = (o, B64.advance 3 rs) /\
      (forall x : exn, o = Raise x -> x = ZeroDivisionError).
Proof.
  intros s rs H. unfold B64.scale_refused in H.
  apply orb_false_iff in H. destruct H as [H H3].
  apply orb_false_iff in H. destruct H as [H1 H2].
  unfold B64.Stock.roll_once, bind.
  rewrite b64_np_random_normal_run, H1.
  rewrite b64_np_random_normal_run, H2.
  rewrite b64_np_random_normal_run, H3.
  unfold lift, ret.
  change (B64.advance 1 (B64.advance 1 (B64.advance 1 rs)))
    with (B64.advance 3 rs).
  destruct (B64.truediv (B64.Stock.price s) _) as [v|e] eqn:T.
  - rewrite b64_truediv_np_l.
    + eexists. split; [reflexivity|]. intros x F. discriminate F.
    + unfold B64.mul_, B64.binop, B64.np_clip. cbn [B64.kind_of].
      apply kjoin_Np_r.
  - eexists. split; [reflexivity|]. intros x F. injection F as <-.
    apply b64_truediv_raises in T. tauto.
Qed.

Lemma b64_roll_once_refused :
  forall (s : B64.Stock.t) (rs : B64.RandomState),
    B64.scale_refused s = true ->
    B64.Stock.roll_once s rs
    = (Raise ValueError, B64.advance (B64.draws_before_refusal s) rs).
Proof.
  intros s rs H. unfold B64.scale_refused in H.
  unfold B64.draws_before_refusal, B64.Stock.roll_once, bind.
  rewrite b64_np_random_normal_run.
  destruct (B64.refused (B64.Stock.vl_return_on_total_capital_std_dev s)).
  { destruct rs as [g p]. reflexivity. }
  rewrite b64_np_random_normal_run.
  destruct (B64.refused (B64.Stock.vl_retained_earnings_plowback_ratio_std_dev s)).
  { reflexivity. }
  rewrite b64_np_random_normal_run.
  destruct (B64.refused (B64.Stock.vl_cash_flow_per_share_std_dev s)).
  { reflexivity. }
  discriminate H.
Qed.

(** X10. In binary64: a roll raises [ValueError] exactly when NumPy
    refuses one of the three standard deviations of the stock, that is
    when one of them is not NaN and has its sign bit set, [-0.0]
    included; the generator is then left after the variates drawn before
    the refusal: none, one or two, as the refused call is the first,
    second or third. *)
Theorem roll_once_value_error :
  forall (s : B64.Stock.t) (rs : B64.RandomState),
    (B64.scale_refused s = true ->
     B64.Stock.roll_once s rs
     = (Raise ValueError, B64.advance (B64.draws_before_refusal s) rs)) /\
    (forall rs' : B64.RandomState,
        B64.Stock.roll_once s rs = (Raise ValueError, rs') ->
        B64.scale_refused s = true).
Proof.
  intros s rs. split.
  - apply b64_roll_once_refused.
  - intros rs' H. destruct (B64.scale_refused s) eqn:A; [reflexivity|].
    destruct (b64_roll_once_accepted s rs A) as [o [E Ho]].
    rewrite E in H. injection H as -> _.
    specialize (Ho ValueError eq_refl). discriminate Ho.
Qed.

Lemma roll_once_value_error_witness :
  exists s : B64.Stock.t,
    B64.Stock.__init__ B64.row_NEGZ = Return s /\
    B64.val (B64.Stock.vl_retained_earnings_plowback_ratio_std_dev s)
    = B64.neg_zero /\
    B64.scale_refused s = true /\
    B64.draws_before_refusal s = 1%nat /\
    B64.Stock.roll_once s B64.generator_0
    = (Raise ValueError,
       B64.advance (B64.draws_before_refusal s) B64.generator_0).
Proof.
  eexists. split; [vm_compute; reflexivity|].
  split; [vm_compute; reflexivity|].
  split; [vm_compute; reflexivity|].
  split; [vm_compute; reflexivity|].
  eapply (proj1 (roll_once_value_error _ B64.generator_0)).
  vm_compute. reflexivity.
Defined.

(** The dispersion factor of every whole percentage of earnings
    predictability from 0 to 100 is a positive float. *)
Lemma b64_factor_of_percentage :
  forall k : nat,
    (k <= 100)%nat ->
    B64.signbit
      (B64.dispersion_factor (B64.div (B64.of_Z (Z.of_nat k)) (B64.of_Z 100)))
    = false.
Proof.
  assert (A : forallb
                (fun k =>
                   negb (B64.signbit
                           (B64.dispersion_factor
                              (B64.div (B64.of_Z (Z.of_nat k)) (B64.of_Z 100)))))
                (seq 0 101) = true) by (vm_compute; reflexivity).
  intros k Hk. rewrite forallb_forall in A.
  apply negb_true_iff. apply A. apply in_seq. lia.
Qed.

(** X15. In binary64: a stock built from a row whose return on total
    capital, plowback ratio and cash flow per share have a clear sign
    bit (they are positive or [0.0], not [-0.0]), and whose earnings
    predictability is a whole percentage from 0 to 100, has no standard
    deviation NumPy refuses: a roll never raises [ValueError], it draws
    its three variates and either returns or raises
    [ZeroDivisionError]. *)
Theorem nonnegative_metrics_can_be_rolled :
  forall (row : B64.Stock.Row) (s : B64.Stock.t) (k : nat)
         (rs : B64.RandomState),
    B64.Stock.__init__ row = Return s ->
    B64.val (B64.Stock.col_VL_Earnings_Predictability row)
    = B64.of_Z (Z.of_nat k) ->
    (k <= 100)%nat ->
    B64.signbit (B64.val (B64.Stock.col_VL_ROTC row)) = false ->
    B64.signbit (B64.val (B64.Stock.col_VL_Plowback_Ratio row)) = false ->
    B64.signbit (B64.val (B64.Stock.col_VL_Cash_Flow_Per_Share row)) = false ->
    B64.scale_refused s = false /\
    exists o : outcome (B64.scalar * B64.scalar * B64.scalar),
      B64.Stock.roll_once s rs = (o, B64.advance 3 rs) /\
      (forall x : exn, o = Raise x -> x = ZeroDivisionError).
Proof.
  intros row s k rs H Hk Hle Hr Hb Hc.
  destruct (b64_init_inv row s H) as [Ha [Hd _]].
  destruct (b64_attributes_inv row _ Ha) as [Ep [Er [Eb Ec]]].
  assert (F : B64.signbit
                (B64.dispersion_factor
                   (B64.val (B64.Stock.vl_earnings_predictability s)))
              = false).
  { rewrite Ep, Hk. apply b64_factor_of_percentage. exact Hle. }
  assert (S100 : B64.signbit (B64.of_Z 100) = false) by reflexivity.
  assert (A : B64.scale_refused s = false).
  { unfold B64.scale_refused. rewrite Hd.
    cbn [B64.Stock._derive_distributions
           B64.Stock.vl_return_on_total_capital_std_dev
           B64.Stock.vl_retained_earnings_plowback_ratio_std_dev
           B64.Stock.vl_cash_flow_per_share_std_dev].
    rewrite !b64_refused_sign; [reflexivity| | |].
    - apply b64_mul_sign; [exact F|]. rewrite Ec. exact Hc.
    - apply b64_mul_sign; [exact F|]. rewrite Eb.
      apply b64_div_sign; assumption.
    - apply b64_mul_sign; [exact F|]. rewrite Er.
      apply b64_div_sign; assumption. }
  split; [exact A|]. apply b64_roll_once_accepted. exact A.
Qed.

Lemma nonnegative_metrics_can_be_rolled_witness :
  exists s : B64.Stock.t,
    B64.Stock.__init__ B64.row_KO = Return s /\
    B64.val (B64.Stock.col_VL_Earnings_Predictability B64.row_KO)
    = B64.of_Z (Z.of_nat 50) /\
    (50 <= 100)%nat /\
    B64.signbit (B64.val (B64.Stock.col_VL_ROTC B64.row_KO)) = false /\
    B64.signbit (B64.val (B64.Stock.col_VL_Plowback_Ratio B64.row_KO)) = false /\
    B64.signbit (B64.val (B64.Stock.col_VL_Cash_Flow_Per_Share B64.row_KO))
    = false /\
    B64.scale_refused s = false /\
    exists o : outcome (B64.scalar * B64.scalar * B64.scalar),
      B64.Stock.roll_once s B64.generator_0
      = (o, B64.advance 3 B64.generator_0) /\
      (forall x : exn, o = Raise x -> x = ZeroDivisionError).
Proof.
  eexists. split; [vm_compute; reflexivity|].
  split; [reflexivity|]. split; [lia|].
  split; [reflexivity|]. split; [reflexivity|]. split; [reflexivity|].
  apply (nonnegative_metrics_can_be_rolled B64.row_KO _ 50 B64.generator_0);
    [vm_compute; reflexivity | reflexivity | lia
    | reflexivity | reflexivity | reflexivity].
Defined.

(** ** The cost of capital of an all-equity stock *)

Lemma b64_add_zero_l :
  forall y : B64.float,
    B64.is_zero y = false -> B64.add B64.zero y = y.
Proof.
  intros [s|s| |s m e] H; try reflexivity. discriminate H.
Qed.

(** With no debt and no preferred stock, the two costs are the integer
    0 and the quotient of [_calculate_wacc] is the one of the equity
    term by the market capitalization. *)
Lemma b64_all_equity_quotient :
  forall self : B64.Stock.Attributes,
    B64.val (B64.Stock.long_term_debt_balance self) = B64.zero ->
    B64.val (B64.Stock.preferred_stock self) = B64.zero ->
    B64.is_zero (B64.market_capitalization self) = false ->
    exists w : B64.scalar,
      B64.Stock._calculate_wacc self = Return w /\
      B64.val w
      = B64.div
          (B64.add B64.zero
             (B64.mul (B64.mul (B64.capm_cost_of_equity self)
                               (B64.val (B64.Stock.common_shares_outstanding self)))
                      (B64.val (B64.Stock.price self))))
          (B64.market_capitalization self).
Proof.
  intros self Hd Hp Hm.
  unfold B64.Stock._calculate_wacc, B64.Stock.after_tax_historical_cost_of_debt,
    B64.Stock.cost_of_preferred_equity, B64.gt.
  rewrite Hd, Hp.
  change (B64.gtb B64.zero (B64.val (B64.int 0))) with false.
  cbn [obind].
  assert (T : B64.val (B64.Stock.total_capital self)
              = B64.market_capitalization self).
  { unfold B64.Stock.total_capital, B64.add_, B64.mul_, B64.binop.
    cbn [B64.val]. rewrite Hd, Hp.
    change (B64.add B64.zero B64.zero) with B64.zero.
    apply b64_add_zero_l. exact Hm. }
  rewrite b64_truediv_nonzero by (rewrite T; exact Hm).
  eexists. split; [reflexivity|].
  cbn [B64.val]. rewrite T. f_equal.
  unfold B64.add_, B64.mul_, B64.binop, B64.Stock.cost_of_equity,
    B64.capm_cost_of_equity.
  cbn [B64.val]. rewrite Hd, Hp.
  change (B64.mul (B64.val (B64.int 0)) B64.zero) with B64.zero.
  change (B64.add B64.zero B64.zero) with B64.zero.
  reflexivity.
Qed.

(** C7, as the code has it. For a stock with no long-term debt and no
    preferred stock whose shares outstanding times price is not zero,
    the constructor returns and the WACC it stores is the quotient, in
    binary64, of (0.0 + cost of equity * shares * price) by (shares *
    price), the cost of equity being risk-free yield + beta * equity
    risk premium. In exact arithmetic, with positive shares and price,
    that quotient is the cost of equity itself. *)
Theorem wacc_all_equity :
  (forall (row : B64.Stock.Row) (self : B64.Stock.Attributes),
      B64.Stock.attributes_of_row row = Return self ->
      B64.val (B64.Stock.long_term_debt_balance self) = B64.zero ->
      B64.val (B64.Stock.preferred_stock self) = B64.zero ->
      B64.is_zero (B64.market_capitalization self) = false ->
      exists s : B64.Stock.t,
        B64.Stock.__init__ row = Return s /\
        B64.Stock.attributes s = self /\
        B64.val (B64.Stock.weighted_average_cost_of_capital s)
        = B64.div
            (B64.add B64.zero
               (B64.mul
                  (B64.mul (B64.capm_cost_of_equity self)
                           (B64.val (B64.Stock.common_shares_outstanding self)))
                  (B64.val (B64.Stock.price self))))
            (B64.market_capitalization self)) /\
  (forall (row : Stock.Row) (self : Stock.Attributes) (S p : Qc),
      Stock.attributes_of_row row = Return self ->
      val (Stock.long_term_debt_balance self) = Fin (Q2Qc 0) ->
      val (Stock.preferred_stock self) = Fin (Q2Qc 0) ->
      val (Stock.common_shares_outstanding self) = Fin S ->
      Q2Qc 0 < S ->
      val (Stock.price self) = Fin p ->
      Q2Qc 0 < p ->
      exists s : Stock.t,
        Stock.__init__ row = Return s /\
        Stock.attributes s = self /\
        val (Stock.weighted_average_cost_of_capital s)
        = capm_cost_of_equity self).
Proof.
  split; [|exact all_equity_wacc_exact].
  intros row self Hrow Hd Hp Hm.
  destruct (b64_all_equity_quotient self Hd Hp Hm) as [w [Hw Hv]].
  exists {| B64.Stock.attributes := self;
            B64.Stock.distributions := B64.Stock._derive_distributions self;
            B64.Stock.weighted_average_cost_of_capital := w |}.
  split; [|split; [reflexivity|exact Hv]].
  unfold B64.Stock.__init__. rewrite Hrow. cbn [obind].
  rewrite Hw. reflexivity.
Qed.

Lemma wacc_all_equity_witness :
  (exists self : B64.Stock.Attributes,
      B64.Stock.attributes_of_row B64.row_KO = Return self /\
      B64.val (B64.Stock.long_term_debt_balance self) = B64.zero /\
      B64.val (B64.Stock.preferred_stock self) = B64.zero /\
      B64.is_zero (B64.market_capitalization self) = false /\
      exists s : B64.Stock.t,
        B64.Stock.__init__ B64.row_KO = Return s /\
        B64.Stock.attributes s = self /\
        B64.val (B64.Stock.weighted_average_cost_of_capital s)
        = B64.div
            (B64.add B64.zero
               (B64.mul
                  (B64.mul (B64.capm_cost_of_equity self)
                           (B64.val (B64.Stock.common_shares_outstanding self)))
                  (B64.val (B64.Stock.price self))))
            (B64.market_capitalization self)) /\
  (exists (self : Stock.Attributes) (S p : Qc),
      Stock.attributes_of_row row_DE = Return self /\
      val (Stock.long_term_debt_balance self) = Fin (Q2Qc 0) /\
      val (Stock.preferred_stock self) = Fin (Q2Qc 0) /\
      val (Stock.common_shares_outstanding self) = Fin S /\
      Q2Qc 0 < S /\
      val (Stock.price self) = Fin p /\
      Q2Qc 0 < p /\
      exists s : Stock.t,
        Stock.__init__ row_DE = Return s /\
        Stock.attributes s = self /\
        val (Stock.weighted_average_cost_of_capital s)
        = capm_cost_of_equity self).
Proof.
  split.
  - eexists. split; [vm_compute; reflexivity|].
    split; [reflexivity|]. split; [reflexivity|].
    split; [vm_compute; reflexivity|].
    apply (proj1 wacc_all_equity B64.row_KO);
      [vm_compute; reflexivity | reflexivity | reflexivity
      | vm_compute; reflexivity].
  - eexists. eexists. eexists.
    split; [lazy; reflexivity|].
    split; [apply Qc_compute; reflexivity|].
    split; [apply Qc_compute; reflexivity|].
    split; [lazy; reflexivity|]. split; [reflexivity|].
    split; [lazy; reflexivity|]. split; [reflexivity|].
    eapply (proj2 wacc_all_equity row_DE);
      [ lazy; reflexivity | apply Qc_compute; reflexivity
      | apply Qc_compute; reflexivity | lazy; reflexivity | reflexivity
      | lazy; reflexivity | reflexivity ].
Defined.

(** C7, the claim as written fails: a stock with no debt, no preferred
    stock, 80 million shares at a price of 25, beta 1.3, a risk-free
    yield of 4% and an equity risk premium of 5% has the cost of equity
    0.10500000000000001, the float next above 0.105, and is given the
    WACC 0.105. *)
Lemma all_equity_wacc_is_not_cost_of_equity :
  exists s : B64.Stock.t,
    B64.Stock.__init__ B64.row_KO = Return s /\
    B64.val (B64.Stock.long_term_debt_balance s) = B64.zero /\
    B64.val (B64.Stock.preferred_stock s) = B64.zero /\
    B64.gtb (B64.val (B64.Stock.common_shares_outstanding s)) B64.zero = true /\
    B64.gtb (B64.val (B64.Stock.price s)) B64.zero = true /\
    B64.capm_cost_of_equity s = SFsucc B64.prec B64.emax (B64.dec 105 1000) /\
    B64.val (B64.Stock.weighted_average_cost_of_capital s) = B64.dec 105 1000 /\
    B64.val (B64.Stock.weighted_average_cost_of_capital s)
    <> B64.capm_cost_of_equity s.
Proof.
  eexists. split; [vm_compute; reflexivity|].
  split; [vm_compute; reflexivity|]. split; [vm_compute; reflexivity|].
  split; [vm_compute; reflexivity|]. split; [vm_compute; reflexivity|].
  split; [vm_compute; reflexivity|]. split; [vm_compute; reflexivity|].
  vm_compute. intros E. discriminate E.
Qed.

(** ** The cost of capital as a weighted mean *)

(** X12. In exact arithmetic the WACC the constructor stores is a
    weighted mean of the three costs: with a debt balance and a
    preferred stock balance that are not negative and a positive number
    of shares and price, the constructor returns and the stored WACC
    lies between the smallest and the largest of after-tax cost of debt,
    cost of preferred equity and cost of equity. The rounding of
    binary64 can carry the stored WACC past the bound: there is an
    all-equity stock, its other two costs 0, whose WACC is above its
    cost of equity. *)
Theorem wacc_between_costs :
  (forall (row : Stock.Row) (self : Stock.Attributes) (kd kp : scalar)
          (D P S p cd cp ce lo hi : Qc),
      Stock.attributes_of_row row = Return self ->
      val (Stock.long_term_debt_balance self) = Fin D ->
      Q2Qc 0 <= D ->
      val (Stock.preferred_stock self) = Fin P ->
      Q2Qc 0 <= P ->
      val (Stock.common_shares_outstanding self) = Fin S ->
      Q2Qc 0 < S ->
      val (Stock.price self) = Fin p ->
      Q2Qc 0 < p ->
      Stock.after_tax_historical_cost_of_debt self = Return kd ->
      val kd = Fin cd ->
      Stock.cost_of_preferred_equity self = Return kp ->
      val kp = Fin cp ->
      val (Stock.cost_of_equity self) = Fin ce ->
      lo <= cd /\ cd <= hi ->
      lo <= cp /\ cp <= hi ->
      lo <= ce /\ ce <= hi ->
      exists (s : Stock.t) (w : Qc),
        Stock.__init__ row = Return s /\
        val (Stock.weighted_average_cost_of_capital s) = Fin w /\
        lo <= w /\ w <= hi) /\
  (exists s : B64.Stock.t,
      B64.Stock.__init__ B64.row_AAPL = Return s /\
      B64.Stock.after_tax_historical_cost_of_debt s = Return (B64.int 0) /\
      B64.Stock.cost_of_preferred_equity s = Return (B64.int 0) /\
      B64.gtb (B64.val (B64.Stock.cost_of_equity s)) B64.zero = true /\
      B64.gtb (B64.val (B64.Stock.weighted_average_cost_of_capital s))
              (B64.val (B64.Stock.cost_of_equity s)) = true).
Proof.
  split; [exact weighted_mean_between_costs|].
  eexists. split; [vm_compute; reflexivity|].
  split; [vm_compute; reflexivity|]. split; [vm_compute; reflexivity|].
  split; vm_compute; reflexivity.
Qed.

Lemma wacc_between_costs_witness :
  exists (self : Stock.Attributes) (kd kp : scalar) (D P S p cd cp ce : Qc),
    Stock.attributes_of_row row_NVO = Return self /\
    val (Stock.long_term_debt_balance self) = Fin D /\
    Q2Qc 0 <= D /\
    val (Stock.preferred_stock self) = Fin P /\
    Q2Qc 0 <= P /\
    val (Stock.common_shares_outstanding self) = Fin S /\
    Q2Qc 0 < S /\
    val (Stock.price self) = Fin p /\
    Q2Qc 0 < p /\
    Stock.after_tax_historical_cost_of_debt self = Return kd /\
    val kd = Fin cd /\
    Stock.cost_of_preferred_equity self = Return kp /\
    val kp = Fin cp /\
    val (Stock.cost_of_equity self) = Fin ce /\
    (Q2Qc (4 # 100) <= cd /\ cd <= Q2Qc (9 # 100)) /\
    (Q2Qc (4 # 100) <= cp /\ cp <= Q2Qc (9 # 100)) /\
    (Q2Qc (4 # 100) <= ce /\ ce <= Q2Qc (9 # 100)) /\
    exists (s : Stock.t) (w : Qc),
      Stock.__init__ row_NVO = Return s /\
      val (Stock.weighted_average_cost_of_capital s) = Fin w /\
      Q2Qc (4 # 100) <= w /\ w <= Q2Qc (9 # 100).
Proof.
  do 10 eexists.
  split; [lazy; reflexivity|].
  split; [lazy; reflexivity|]. split; [discriminate|].
  split; [lazy; reflexivity|]. split; [discriminate|].
  split; [lazy; reflexivity|]. split; [reflexivity|].
  split; [lazy; reflexivity|]. split; [reflexivity|].
  split; [lazy; reflexivity|]. split; [lazy; reflexivity|].
  split; [lazy; reflexivity|]. split; [lazy; reflexivity|].
  split; [lazy; reflexivity|].
  split; [split; discriminate|].
  split; [split; discriminate|].
  split; [split; discriminate|].
  eapply (proj1 wacc_between_costs row_NVO);
    [ lazy; reflexivity
    | lazy; reflexivity | discriminate
    | lazy; reflexivity | discriminate
    | lazy; reflexivity | reflexivity
    | lazy; reflexivity | reflexivity
    | lazy; reflexivity | lazy; reflexivity
    | lazy; reflexivity | lazy; reflexivity
    | lazy; reflexivity
    | split; discriminate | split; discriminate | split; discriminate ].
Defined.
